(** * BusLog: the code analyzer and the workflow store

    A shallow embedding of [buslog/core/analyzer.py] and
    [buslog/core/workflow_manager.py].

    Conventions of the model.
    - Text is a [string] of 8-bit characters; [str.lower] and [str.title]
      act on the ASCII letters.
    - A path is the list of its components below the file-system root "/"
      ([Path.cwd()], the project root used by every caller, is absolute and
      normalised).  Component-length limits, NUL characters and symbolic
      links are not part of the model.
    - The file system is a finite map from paths to nodes.  The order in
      which a directory is enumerated is left open by the operating system;
      the model enumerates in the map's order.
    - A file that holds a JSON document is represented by the document
      ([json.loads (json.dumps j) = j]); [Text] is any other text. *)

From Stdlib Require Import String Ascii List Sorted Permutation ZArith DecimalString.
From stdpp Require Import gmap strings list fin_maps.

Open Scope string_scope.
Open Scope list_scope.

#[local] Set Warnings "-register-all".

(** ** Python [str] operations *)

Module Str.

Definition is_upper (c : ascii) : bool :=
  let n := nat_of_ascii c in (65 <=? n)%nat && (n <=? 90)%nat.

Definition is_lower (c : ascii) : bool :=
  let n := nat_of_ascii c in (97 <=? n)%nat && (n <=? 122)%nat.

Definition to_lower (c : ascii) : ascii :=
  if is_upper c then ascii_of_nat (nat_of_ascii c + 32) else c.

Definition to_upper (c : ascii) : ascii :=
  if is_lower c then ascii_of_nat (nat_of_ascii c - 32) else c.

(** [s.lower()] *)
Fixpoint lower (s : string) : string :=
  match s with
  | EmptyString => EmptyString
  | String c s' => String (to_lower c) (lower s')
  end.

(** [s.upper()] *)
Fixpoint upper (s : string) : string :=
  match s with
  | EmptyString => EmptyString
  | String c s' => String (to_upper c) (upper s')
  end.

(** [s.title()]: a cased character is upper-cased when the character
    before it is not cased, lower-cased otherwise. *)
Fixpoint title_from (prev_cased : bool) (s : string) : string :=
  match s with
  | EmptyString => EmptyString
  | String c s' =>
      if is_lower c then
        String (if prev_cased then c else to_upper c) (title_from true s')
      else if is_upper c then
        String (if prev_cased then to_lower c else c) (title_from true s')
      else String c (title_from false s')
  end.

Definition title (s : string) : string := title_from false s.

(** [s.replace(a, b)] for one-character [a] and [b]. *)
Fixpoint replace (a b : ascii) (s : string) : string :=
  match s with
  | EmptyString => EmptyString
  | String c s' => String (if Ascii.eqb c a then b else c) (replace a b s')
  end.

(** [needle in hay] *)
Fixpoint contains (needle hay : string) : bool :=
  String.prefix needle hay ||
  match hay with
  | EmptyString => false
  | String _ hay' => contains needle hay'
  end.

(** [s.endswith(suf)] *)
Fixpoint endswith (suf s : string) : bool :=
  String.eqb suf s ||
  match s with
  | EmptyString => false
  | String _ s' => endswith suf s'
  end.

(** [s.rfind(".")], [None] for -1 *)
Fixpoint rfind_dot (s : string) : option nat :=
  match s with
  | EmptyString => None
  | String c s' =>
      match rfind_dot s' with
      | Some i => Some (S i)
      | None => if Ascii.eqb c "." then Some 0 else None
      end
  end.

(** [s.split("/")] *)
Fixpoint split_slash (s : string) : list string :=
  match s with
  | EmptyString => [EmptyString]
  | String c s' =>
      if Ascii.eqb c "/" then EmptyString :: split_slash s'
      else match split_slash s' with
           | h :: t => String c h :: t
           | [] => [String c EmptyString]
           end
  end.

(** ["/".join(parts)] *)
Fixpoint join_slash (parts : list string) : string :=
  match parts with
  | [] => EmptyString
  | [p] => p
  | p :: rest => p +:+ "/" +:+ join_slash rest
  end.

End Str.

(** ** JSON values and Python [dict] operations *)

Inductive json : Type :=
| JNull
| JBool (b : bool)
| JNum (n : Z)
| JStr (s : string)
| JArr (items : list json)
| JObj (members : list (string * json)).

Module Dict.

(** An insertion-ordered [dict] with string keys. *)
Definition t (V : Type) : Type := list (string * V).

(** [d.get(k)] *)
Fixpoint get {V} (k : string) (d : t V) : option V :=
  match d with
  | [] => None
  | (k', v) :: d' => if String.eqb k k' then Some v else get k d'
  end.

(** [d[k] = v]: an existing key keeps its position, a new key goes last. *)
Fixpoint set {V} (k : string) (v : V) (d : t V) : t V :=
  match d with
  | [] => [(k, v)]
  | (k', v') :: d' =>
      if String.eqb k k' then (k, v) :: d' else (k', v') :: set k v d'
  end.

End Dict.

Module Json.

Definition dquote : ascii := "034"%char.
Definition newline : ascii := "010"%char.

Definition hex_digit (n : nat) : ascii :=
  if (n <? 10)%nat then ascii_of_nat (48 + n) else ascii_of_nat (87 + n).

(** The escapes of [json.dumps(..., ensure_ascii=False)]. *)
Definition escape_char (c : ascii) : string :=
  let n := nat_of_ascii c in
  if (n =? 34)%nat then "\" +:+ String dquote ""
  else if (n =? 92)%nat then "\\"
  else if (n =? 10)%nat then "\n"
  else if (n =? 13)%nat then "\r"
  else if (n =? 9)%nat then "\t"
  else if (n =? 8)%nat then "\b"
  else if (n =? 12)%nat then "\f"
  else if (n <? 32)%nat then
    "\u00" +:+ String (hex_digit (n / 16)) (String (hex_digit (n mod 16)) "")
  else String c "".

Fixpoint escape (s : string) : string :=
  match s with
  | EmptyString => EmptyString
  | String c s' => escape_char c +:+ escape s'
  end.

Definition quote (s : string) : string :=
  String dquote (escape s) +:+ String dquote "".

Fixpoint spaces (n : nat) : string :=
  match n with O => "" | S n' => " " +:+ spaces n' end.

Definition break (lvl : nat) : string := String newline (spaces (2 * lvl)).

Fixpoint join (sep : string) (l : list string) : string :=
  match l with
  | [] => ""
  | [x] => x
  | x :: rest => x +:+ sep +:+ join sep rest
  end.

(** [json.dumps(j, indent=2, ensure_ascii=False)] at nesting depth [lvl]. *)
Fixpoint dumps_at (lvl : nat) (j : json) : string :=
  match j with
  | JNull => "null"
  | JBool true => "true"
  | JBool false => "false"
  | JNum n => NilZero.string_of_int (Z.to_int n)
  | JStr s => quote s
  | JArr [] => "[]"
  | JArr items =>
      "[" +:+ break (S lvl)
      +:+ join ("," +:+ break (S lvl)) (List.map (dumps_at (S lvl)) items)
      +:+ break lvl +:+ "]"
  | JObj [] => "{}"
  | JObj members =>
      "{" +:+ break (S lvl)
      +:+ join ("," +:+ break (S lvl))
            (List.map (fun kv => quote (fst kv) +:+ ": " +:+ dumps_at (S lvl) (snd kv))
               members)
      +:+ break lvl +:+ "}"
  end.

Definition dumps (j : json) : string := dumps_at 0 j.

End Json.

(** ** [pathlib] paths *)

Abbreviation path := (list string).

Module PurePath.

Fixpoint str_parts (p : path) : string :=
  match p with
  | [] => ""
  | c :: p' => "/" +:+ c +:+ str_parts p'
  end.

(** [str(p)] of an absolute path. *)
Definition str (p : path) : string :=
  match p with
  | [] => "/"
  | _ => str_parts p
  end.

(** [p.name] *)
Definition name (p : path) : string := List.last p "".

(** [p.parent] *)
Definition parent (p : path) : path := List.removelast p.

(** [suffix] of a final component: from its last dot, unless that dot is
    the first or the last character. *)
Definition suffix_of (n : string) : string :=
  match Str.rfind_dot n with
  | Some i =>
      if (0 <? i)%nat && (i <? String.length n - 1)%nat
      then String.substring i (String.length n - i) n
      else ""
  | None => ""
  end.

Definition stem_of (n : string) : string :=
  match Str.rfind_dot n with
  | Some i =>
      if (0 <? i)%nat && (i <? String.length n - 1)%nat
      then String.substring 0 i n
      else n
  | None => n
  end.

Definition suffix (p : path) : string := suffix_of (name p).
Definition stem (p : path) : string := stem_of (name p).

(** [p.relative_to(root)], [None] when [p] is not below [root]. *)
Fixpoint relative_to (root p : path) : option path :=
  match root, p with
  | [], _ => Some p
  | r :: root', c :: p' =>
      if String.eqb r c then relative_to root' p' else None
  | _ :: _, [] => None
  end.

(** [str] of a relative path. *)
Definition rel_str (rel : path) : string :=
  match rel with
  | [] => "."
  | _ => Str.join_slash rel
  end.

(** The components [pathlib] parses out of a string: empty components and
    "." are dropped, ".." is kept. *)
Definition parse (s : string) : list string :=
  List.filter (fun c => negb (String.eqb c "") && negb (String.eqb c "."))
    (Str.split_slash s).

Definition is_absolute (s : string) : bool := String.prefix "/" s.

(** The parts of [base / s]: an absolute [s] replaces [base]; ".." stays
    in the parts until the path is used. *)
Definition join (base : path) (s : string) : path :=
  (if is_absolute s then [] else base) ++ parse s.

End PurePath.

(** ** The file system *)

(** What [read_text(encoding="utf-8")] finds in a file. *)
Inductive content : Type :=
| Text (s : string)
| JsonDoc (j : json)
| Undecodable.

Inductive node : Type :=
| Dir
| File (c : content).

Abbreviation fsys := (gmap path node).

(** The exceptions the two modules raise or let through. *)
Inductive exn : Type :=
| AlreadyInitialized                    (* FileExistsError("BusLog is already initialized") *)
| WorkflowAlreadyExists (safe_name : string)
| FileExistsError
| FileNotFoundError
| NotADirectoryError
| IsADirectoryError
| UnicodeDecodeError
| JSONDecodeError
| AttributeError
| TypeError.

Inductive outcome (A : Type) : Type :=
| Ok (a : A)
| Raise (e : exn).
Arguments Ok {A} a.
Arguments Raise {A} e.

(** Computations on the file system that return or raise. *)
Definition M (A : Type) : Type := fsys -> outcome A * fsys.

Definition ret {A} (a : A) : M A := fun fs => (Ok a, fs).
Definition raise {A} (e : exn) : M A := fun fs => (Raise e, fs).
Definition bind {A B} (m : M A) (k : A -> M B) : M B :=
  fun fs =>
    match m fs with
    | (Ok a, fs') => k a fs'
    | (Raise e, fs') => (Raise e, fs')
    end.
Definition gets {A} (f : fsys -> A) : M A := fun fs => (Ok (f fs), fs).

Notation "'do' x <- m ; k" := (bind m (fun x => k))
  (at level 10, x name, m at level 100, k at level 200).

Module FS.

(** The root directory is always there. *)
Definition lookup_node (fs : fsys) (p : path) : option node :=
  match p with
  | [] => Some Dir
  | _ => fs !! p
  end.

Definition exists_at (fs : fsys) (p : path) : bool :=
  match lookup_node fs p with Some _ => true | None => false end.

Definition is_dir (fs : fsys) (p : path) : bool :=
  match lookup_node fs p with Some Dir => true | _ => false end.

Definition is_file (fs : fsys) (p : path) : bool :=
  match lookup_node fs p with Some (File _) => true | _ => false end.

(** Resolution of the components [comps] from the directory [cur]: every
    component, ".." included, is looked up in a directory. *)
Fixpoint walk (fs : fsys) (cur : path) (comps : list string) : exn + path :=
  match comps with
  | [] => inr cur
  | c :: rest =>
      match lookup_node fs cur with
      | Some Dir =>
          walk fs (if String.eqb c ".." then PurePath.parent cur else (cur ++ [c])%list)
            rest
      | Some (File _) => inl NotADirectoryError
      | None => inl FileNotFoundError
      end
  end.

(** Where [base / s] leads: an absolute [s] replaces [base]. *)
Definition resolve (fs : fsys) (base : path) (s : string) : exn + path :=
  walk fs (if PurePath.is_absolute s then [] else base) (PurePath.parse s).

(** [p.mkdir(exist_ok=True)] *)
Definition mkdir (p : path) : M unit :=
  fun fs =>
    match lookup_node fs p with
    | Some Dir => (Ok tt, fs)
    | Some (File _) => (Raise FileExistsError, fs)
    | None =>
        match lookup_node fs (PurePath.parent p) with
        | Some Dir => (Ok tt, <[p := Dir]> fs)
        | Some (File _) => (Raise NotADirectoryError, fs)
        | None => (Raise FileNotFoundError, fs)
        end
    end.

(** [p.write_text(...)]: creates or overwrites a regular file. *)
Definition write_text (p : path) (c : content) : M unit :=
  fun fs =>
    match lookup_node fs p with
    | Some Dir => (Raise IsADirectoryError, fs)
    | _ =>
        match lookup_node fs (PurePath.parent p) with
        | Some Dir => (Ok tt, <[p := File c]> fs)
        | Some (File _) => (Raise NotADirectoryError, fs)
        | None => (Raise FileNotFoundError, fs)
        end
    end.

Definition decode (c : content) : outcome string :=
  match c with
  | Text s => Ok s
  | JsonDoc j => Ok (Json.dumps j)
  | Undecodable => Raise UnicodeDecodeError
  end.

(** [p.read_text(encoding="utf-8")] *)
Definition read_text (fs : fsys) (p : path) : outcome string :=
  match lookup_node fs p with
  | Some (File c) => decode c
  | Some Dir => Raise IsADirectoryError
  | None => Raise FileNotFoundError
  end.

(** [json.loads(p.read_text(encoding="utf-8"))] *)
Definition read_json (fs : fsys) (p : path) : outcome json :=
  match lookup_node fs p with
  | Some (File (JsonDoc j)) => Ok j
  | Some (File (Text _)) => Raise JSONDecodeError
  | Some (File Undecodable) => Raise UnicodeDecodeError
  | Some Dir => Raise IsADirectoryError
  | None => Raise FileNotFoundError
  end.

Definition paths (fs : fsys) : list path := (map_to_list fs).*1.

Definition is_child (dir p : path) : bool :=
  match PurePath.relative_to dir p with Some [_] => true | _ => false end.

Definition is_descendant (dir p : path) : bool :=
  match PurePath.relative_to dir p with Some (_ :: _) => true | _ => false end.

(** [dir.glob("*" + suf)]: the entries of [dir] whose name ends with [suf]. *)
Definition glob (dir : path) (suf : string) (fs : fsys) : list path :=
  if is_dir fs dir then
    List.filter (fun p => is_child dir p && Str.endswith suf (PurePath.name p)) (paths fs)
  else [].

(** [dir.rglob("*" + suf)]: the entries at any depth below [dir] whose name
    ends with [suf]; [rglob dir ""] is [dir.rglob("*")]. *)
Definition rglob (dir : path) (suf : string) (fs : fsys) : list path :=
  List.filter (fun p => is_descendant dir p && Str.endswith suf (PurePath.name p)) (paths fs).

End FS.

(** Directories that stay directories from one file system to the next. *)
Definition dirs_kept (fs fs' : fsys) : Prop :=
  forall q, FS.is_dir fs q = true -> FS.is_dir fs' q = true.

(** ** Regular expressions of the pattern table *)

Module Re.

(** The fragment of [re] syntax the entry-point patterns use: literal text,
    alternation, groups, a character class and [+] on a character class. *)
Inductive regex : Type :=
| Lit (s : string)
| Class (negated : bool) (cs : list ascii)
| PlusClass (negated : bool) (cs : list ascii)
| Seq (r1 r2 : regex)
| Alt (r1 r2 : regex)
| Group (r : regex).

Definition in_class (negated : bool) (cs : list ascii) (c : ascii) : bool :=
  xorb negated (existsb (Ascii.eqb c) cs).

Fixpoint strip (lit s : string) : option string :=
  match lit, s with
  | EmptyString, _ => Some s
  | String a lit', String b s' => if Ascii.eqb a b then strip lit' s' else None
  | String _ _, EmptyString => None
  end.

(** What is left of [s] after one or more class characters, greedy: the
    longest run first. *)
Fixpoint plus_ends (negated : bool) (cs : list ascii) (s : string) : list string :=
  match s with
  | EmptyString => []
  | String c s' =>
      if in_class negated cs c then (plus_ends negated cs s' ++ [s'])%list else []
  end.

(** The backtracking matcher: every way [r] can match at the start of [s],
    as what is left of [s], in the order the engine tries them. *)
Fixpoint ends (r : regex) (s : string) : list string :=
  match r with
  | Lit l => match strip l s with Some rest => [rest] | None => [] end
  | Class negated cs =>
      match s with
      | String c s' => if in_class negated cs c then [s'] else []
      | EmptyString => []
      end
  | PlusClass negated cs => plus_ends negated cs s
  | Seq r1 r2 => flat_map (ends r2) (ends r1 s)
  | Alt r1 r2 => (ends r1 s ++ ends r2 s)%list
  | Group r' => ends r' s
  end.

(** [match.group(0)] of the match of [r] at the start of [s]. *)
Definition match_at (r : regex) (s : string) : option string :=
  match ends r s with
  | rest :: _ => Some (String.substring 0 (String.length s - String.length rest) s)
  | [] => None
  end.

(** [re.finditer]: scan left to right, matches do not overlap; [skip]
    characters belong to the previous match. *)
Fixpoint finditer_from (r : regex) (skip : nat) (s : string) {struct s} : list string :=
  match skip with
  | S k =>
      match s with
      | String _ s' => finditer_from r k s'
      | EmptyString => []
      end
  | O =>
      match match_at r s with
      | Some m =>
          m :: match s with
               | String _ s' => finditer_from r (String.length m - 1) s'
               | EmptyString => []
               end
      | None =>
          match s with
          | String _ s' => finditer_from r 0 s'
          | EmptyString => []
          end
      end
  end.

(** [[m.group(0) for m in re.finditer(r, s)]] *)
Definition finditer (r : regex) (s : string) : list string := finditer_from r 0 s.

End Re.

(** ** [sorted] *)

Module Sort.

Fixpoint insert {A} (le : A -> A -> bool) (x : A) (l : list A) : list A :=
  match l with
  | [] => [x]
  | y :: l' => if le x y then x :: l else y :: insert le x l'
  end.

(** A stable sort: of two elements neither of which is before the other,
    the one that came first stays first. *)
Fixpoint sorted {A} (le : A -> A -> bool) (l : list A) : list A :=
  match l with
  | [] => []
  | x :: l' => insert le x (sorted le l')
  end.

End Sort.

(** ** [CodeAnalyzer] *)

Record file_counts : Type := mk_counts
  { total : nat; source : nat; test : nat; config : nat }.

Record entry_point : Type := mk_entry_point
  { ep_type : string; ep_file : string; ep_match : string }.

Module CodeAnalyzer.

Definition excluded_patterns : list string :=
  [".git"; ".venv"; "venv"; "node_modules"; "__pycache__"; ".pytest_cache";
   "dist"; "build"; ".business-logic"].

Definition _is_excluded (p : path) : bool :=
  existsb (fun pattern => Str.contains pattern (PurePath.str p)) excluded_patterns.

(** The guard of every content loop: [file.is_file() and not
    self._is_excluded(file)]. *)
Definition scanned (fs : fsys) (file : path) : bool :=
  FS.is_file fs file && negb (_is_excluded file).

Definition language_extensions : Dict.t string :=
  [(".py", "Python"); (".js", "JavaScript"); (".ts", "TypeScript");
   (".jsx", "React"); (".tsx", "React/TypeScript"); (".java", "Java");
   (".go", "Go"); (".rs", "Rust"); (".rb", "Ruby"); (".php", "PHP");
   (".cs", "C#"); (".cpp", "C++"); (".c", "C"); (".swift", "Swift");
   (".kt", "Kotlin")].

(** The [detected] dict after the loop over the extension table. *)
Definition detected (project_root : path) (fs : fsys) : Dict.t nat :=
  fold_left
    (fun detected '(ext, lang) =>
       let files := FS.rglob project_root ext fs in
       match files with
       | [] => detected
       | _ => Dict.set lang (length files) detected
       end)
    language_extensions [].

Definition _detect_languages (project_root : path) (fs : fsys) : list string :=
  List.map fst
    (Sort.sorted (fun x y => (snd y <=? snd x)%nat) (detected project_root fs)).

Definition source_suffixes : list string := [".py"; ".js"; ".ts"; ".java"; ".go"; ".rs"].
Definition config_suffixes : list string :=
  [".json"; ".yaml"; ".yml"; ".toml"; ".ini"; ".env"].

Definition bump (b : bool) (n : nat) : nat := if b then S n else n.

Definition count_file (fs : fsys) (counts : file_counts) (file : path) : file_counts :=
  if scanned fs file then
    {| total := S (total counts);
       source := bump (existsb (String.eqb (PurePath.suffix file)) source_suffixes)
                   (source counts);
       test := bump (Str.contains "test" (Str.lower (PurePath.name file))
                     || Str.contains "test"
                          (Str.lower (PurePath.str (PurePath.parent file))))
                 (test counts);
       config := bump (existsb (String.eqb (PurePath.suffix file)) config_suffixes)
                   (config counts) |}
  else counts.

Definition _count_files (project_root : path) (fs : fsys) : file_counts :=
  fold_left (count_file fs) (FS.rglob project_root "" fs) (mk_counts 0 0 0 0).

Definition search_file (fs : fsys) (pattern : Re.regex)
    (matches : list (path * string)) (file : path) : list (path * string) :=
  if scanned fs file then
    match FS.read_text fs file with
    | Ok content =>
        (matches ++ List.map (fun m => (file, m)) (Re.finditer pattern content))%list
    | Raise _ => matches
    end
  else matches.

Definition _search_pattern_in_files (project_root : path) (fs : fsys)
    (pattern : Re.regex) : list (path * string) :=
  fold_left (search_file fs pattern) (FS.rglob project_root "" fs) [].

(** The two quote characters [['\"]] and the captured run [[^'\"]+]. *)
Definition quotes : list ascii := ["'"%char; Json.dquote].
Definition quoted_arg : Re.regex :=
  Re.Seq (Re.Class false quotes) (Re.Group (Re.PlusClass true quotes)).
Definition http_verb : Re.regex :=
  Re.Group (Re.Alt (Re.Lit "get") (Re.Alt (Re.Lit "post") (Re.Alt (Re.Lit "put")
    (Re.Alt (Re.Lit "delete") (Re.Lit "patch"))))).
Definition route (receiver : string) : Re.regex :=
  Re.Seq (Re.Lit receiver) (Re.Seq http_verb (Re.Seq (Re.Lit "(") quoted_arg)).

Definition patterns : list (string * list Re.regex) :=
  [("API Endpoint", [route "@app."; route "@router."; route "app."]);
   ("CLI Command",
    [Re.Lit "@click.command()"; Re.Lit "@typer.command()"; Re.Lit "def main("]);
   ("Event Handler",
    [Re.Lit "@event."; Re.Seq (Re.Lit ".on(") quoted_arg;
     Re.Seq (Re.Lit "addEventListener(") quoted_arg])].

Definition relative_str (project_root file : path) : string :=
  match PurePath.relative_to project_root file with
  | Some rel => PurePath.rel_str rel
  | None => PurePath.str file
  end.

Definition _find_entry_points (project_root : path) (fs : fsys) : list entry_point :=
  fold_left
    (fun (entry_points : list entry_point) '(entry_type, pattern_list) =>
       fold_left
         (fun entry_points pattern =>
            fold_left
              (fun entry_points '(file, m) =>
                 (entry_points ++
                  [{| ep_type := entry_type;
                      ep_file := relative_str project_root file;
                      ep_match := m |}])%list)
              (_search_pattern_in_files project_root fs pattern)
              entry_points)
         pattern_list entry_points)
    patterns [].

(** The loop of the presence test over the files still to visit: it returns
    at the first scanned file that holds one of the patterns. *)
Fixpoint search_files (fs : fsys) (patterns : list string) (files : list path) : bool :=
  match files with
  | [] => false
  | file :: rest =>
      if scanned fs file then
        match FS.read_text fs file with
        | Ok content =>
            if existsb (fun pattern => Str.contains pattern content) patterns then true
            else search_files fs patterns rest
        | Raise _ => search_files fs patterns rest
        end
      else search_files fs patterns rest
  end.

Definition _search_patterns (project_root : path) (fs : fsys) (patterns : list string)
    : bool :=
  search_files fs patterns (FS.rglob project_root "" fs).

Definition indicators : list (string * list string) :=
  [("FastAPI", ["from fastapi import"; "import fastapi"]);
   ("Django", ["from django."; "import django"]);
   ("Flask", ["from flask import"; "import flask"]);
   ("Express", ["require('express')"; "from 'express'"]);
   ("React", ["from 'react'"; "import React"]);
   ("Vue", ["from 'vue'"; "import Vue"]);
   ("Angular", ["@angular/"; "import { Component }"]);
   ("Spring", ["@SpringBootApplication"; "org.springframework"]);
   ("Rails", ["class.*< ApplicationController"; "Rails.application"])].

Definition _detect_frameworks (project_root : path) (fs : fsys) : list string :=
  fold_left
    (fun frameworks '(framework, patterns) =>
       if _search_patterns project_root fs patterns then (frameworks ++ [framework])%list
       else frameworks)
    indicators [].

(** The dict [analyze_structure] returns. *)
Record structure : Type := mk_structure
  { st_languages : list string;
    st_frameworks : list string;
    st_file_count : file_counts;
    st_entry_points : list entry_point }.

Definition analyze_structure (project_root : path) (fs : fsys) : structure :=
  {| st_languages := _detect_languages project_root fs;
     st_frameworks := _detect_frameworks project_root fs;
     st_file_count := _count_files project_root fs;
     st_entry_points := _find_entry_points project_root fs |}.

(** A pattern that cannot match the empty text. *)
Fixpoint consumes (r : Re.regex) : bool :=
  match r with
  | Re.Lit s => negb (String.eqb s "")
  | Re.Class _ _ => true
  | Re.PlusClass _ _ => true
  | Re.Seq r1 r2 => consumes r1 || consumes r2
  | Re.Alt r1 r2 => consumes r1 && consumes r2
  | Re.Group r' => consumes r'
  end.

End CodeAnalyzer.

(** ** [WorkflowManager] *)

Record workflow_info : Type := mk_workflow_info
  { wf_name : string; wf_file : string; wf_path : string }.

(** One reading of [datetime.now()], in the three formats the store uses. *)
Record clock : Type := mk_clock
  { isoformat : string;       (* .isoformat() *)
    ymd : string;             (* .strftime("%Y-%m-%d") *)
    ymd_hm : string }.        (* .strftime("%Y-%m-%d %H:%M") *)

Module WorkflowManager.

Definition BUSLOG_DIR : string := ".business-logic".
Definition WORKFLOWS_DIR : string := "workflows".
Definition CONFIG_FILE : string := "config.json".
Definition INDEX_FILE : string := "index.md".

Section Manager.

(** Modelled from the spec: the packaged templates [templates/workflow.md]
    and [templates/index.md] are not among the sources.  Reading and
    formatting them is a parameter: the document template takes the
    title-cased name and the date, the index template the project name
    and the time. *)
Variable workflow_template : string -> string -> string.
Variable index_template : string -> string -> string.

Variable project_root : path.

Definition buslog_path : path := (project_root ++ [BUSLOG_DIR])%list.
Definition workflows_path : path := (buslog_path ++ [WORKFLOWS_DIR])%list.
Definition config_path : path := (buslog_path ++ [CONFIG_FILE])%list.
Definition index_path : path := (buslog_path ++ [INDEX_FILE])%list.

Definition is_initialized (fs : fsys) : bool :=
  FS.exists_at fs buslog_path && FS.exists_at fs config_path
  && FS.exists_at fs workflows_path.

Definition language_extensions : Dict.t string :=
  [(".py", "Python"); (".js", "JavaScript"); (".ts", "TypeScript");
   (".java", "Java"); (".go", "Go"); (".rs", "Rust"); (".rb", "Ruby");
   (".php", "PHP"); (".cs", "C#"); (".cpp", "C++"); (".c", "C")].

(** The [detected] set after the loop, in insertion order. *)
Definition detected (fs : fsys) : list string :=
  fold_left
    (fun detected '(ext, lang) =>
       match FS.rglob project_root ext fs with
       | [] => detected
       | _ => if existsb (String.eqb lang) detected then detected
              else (detected ++ [lang])%list
       end)
    language_extensions [].

Definition _detect_languages (fs : fsys) : list string :=
  Sort.sorted String.leb (detected fs).

Definition _generate_index (project_name : string) (now : clock) : string :=
  index_template project_name (ymd_hm now).

Definition fresh_config (project_name : string) (now : clock)
    (languages : list string) : json :=
  JObj
    [("project_name", JStr project_name);
     ("version", JStr "0.1.0");
     ("created_at", JStr (isoformat now));
     ("languages", JArr (List.map JStr languages));
     ("frameworks", JArr []);
     ("workflows", JArr []);
     ("settings",
      JObj [("auto_detect", JBool false);
            ("mermaid_theme", JStr "default");
            ("show_line_numbers", JBool true);
            ("collapse_by_default", JBool false)]);
     ("metadata",
      JObj [("repository", JStr ""); ("main_branch", JStr "main");
            ("authors", JArr [])])].

Definition initialize (project_name : option string) (force : bool)
    (now : clock) : M unit :=
  fun fs =>
    if is_initialized fs && negb force then (Raise AlreadyInitialized, fs)
    else
      (do _ <- FS.mkdir buslog_path;
       do _ <- FS.mkdir workflows_path;
       let project_name :=
         match project_name with
         | Some (String c n) => String c n
         | _ => PurePath.name project_root
         end in
       do languages <- gets _detect_languages;
       do _ <- FS.write_text config_path
                 (JsonDoc (fresh_config project_name now languages));
       FS.write_text index_path (Text (_generate_index project_name now))) fs.

(** [get_config]: the empty dict when there is no config file. *)
Definition get_config : M json :=
  fun fs =>
    if negb (FS.exists_at fs config_path) then (Ok (JObj []), fs)
    else match FS.read_json fs config_path with
         | Ok j => (Ok j, fs)
         | Raise e => (Raise e, fs)
         end.

Definition is_str (s : string) (j : json) : bool :=
  match j with JStr s' => String.eqb s s' | _ => false end.

Definition write_config (config : json) : M unit :=
  FS.write_text config_path (JsonDoc config).

Definition _add_workflow_to_config (workflow_name : string) : M unit :=
  do config <- get_config;
  match config with
  | JObj members =>
      match Dict.get "workflows" members with
      | None =>
          write_config (JObj (Dict.set "workflows" (JArr [JStr workflow_name]) members))
      | Some (JArr names) =>
          if existsb (is_str workflow_name) names then ret tt
          else write_config
                 (JObj (Dict.set "workflows"
                          (JArr (names ++ [JStr workflow_name])%list) members))
      | Some (JStr s) =>
          if Str.contains workflow_name s then ret tt else raise AttributeError
      | Some (JObj d) =>
          match Dict.get workflow_name d with
          | Some _ => ret tt
          | None => raise AttributeError
          end
      | Some _ => raise TypeError
      end
  | _ => raise AttributeError
  end.

Definition safe_name_of (workflow_name : string) : string :=
  Str.replace " " "-" (Str.lower workflow_name).

Definition add_workflow (workflow_name : string) (now : clock) : M path :=
  let safe_name := safe_name_of workflow_name in
  let file_name := safe_name +:+ ".md" in
  fun fs =>
    match FS.resolve fs workflows_path file_name with
    | inr workflow_path =>
        if FS.exists_at fs workflow_path
        then (Raise (WorkflowAlreadyExists safe_name), fs)
        else
          let workflow_title := Str.title (Str.replace "-" " " workflow_name) in
          let content := workflow_template workflow_title (ymd now) in
          (do _ <- FS.write_text workflow_path (Text content);
           do _ <- _add_workflow_to_config safe_name;
           ret (PurePath.join workflows_path file_name)) fs
    | inl e => (Raise e, fs)
    end.

Definition info_of (workflow_file : path) : workflow_info :=
  {| wf_name := Str.title (Str.replace "-" " " (PurePath.stem workflow_file));
     wf_file := PurePath.name workflow_file;
     wf_path := PurePath.str workflow_file |}.

Definition list_workflows (fs : fsys) : list workflow_info :=
  if negb (FS.exists_at fs workflows_path) then []
  else
    Sort.sorted (fun a b => String.leb (wf_name a) (wf_name b))
      (List.map info_of (FS.glob workflows_path ".md" fs)).

End Manager.

End WorkflowManager.

(** ** [PromptGenerator] *)

Record prompt_entry : Type := mk_prompt_entry
  { pe_type : string; pe_file : string; pe_pattern : string }.

Module PromptGenerator.

Definition buslog_path (project_root : path) : path := project_root ++ [".business-logic"].

Definition patterns : list (string * list string) :=
  [("Python FastAPI/Flask", ["@app."; "@router."; "@bp.route"]);
   ("JavaScript/TypeScript Express", ["app.get"; "app.post"; "router.get"; "router.post"]);
   ("Python Django", ["def get("; "def post("; "path("]);
   ("CLI Commands", ["@click."; "@typer."; "argparse"]);
   ("Event Handlers", ["@event."; ".on("; "addEventListener"]);
   ("Scheduled Jobs", ["@cron"; "@schedule"; "cron.schedule"])].

(** The guard of the file loop: [file_path.is_file() and ".venv" not in
    str(file_path)]. *)
Definition eligible (fs : fsys) (file_path : path) : bool :=
  FS.is_file fs file_path && negb (Str.contains ".venv" (PurePath.str file_path)).

(** The file loop for one keyword: the first eligible, readable file that
    holds the keyword gives a record and ends the loop ([break]); an
    unreadable file is skipped ([continue]). *)
Fixpoint scan_keyword (project_root : path) (fs : fsys) (pattern_name keyword : string)
    (files : list path) (entry_points : list prompt_entry) : list prompt_entry :=
  match files with
  | [] => entry_points
  | file_path :: rest =>
      if eligible fs file_path then
        match FS.read_text fs file_path with
        | Ok content =>
            if Str.contains keyword content then
              entry_points ++
              [{| pe_type := pattern_name;
                  pe_file := CodeAnalyzer.relative_str project_root file_path;
                  pe_pattern := keyword |}]
            else scan_keyword project_root fs pattern_name keyword rest entry_points
        | Raise _ => scan_keyword project_root fs pattern_name keyword rest entry_points
        end
      else scan_keyword project_root fs pattern_name keyword rest entry_points
  end.

Definition _detect_entry_points (project_root : path) (fs : fsys) : list prompt_entry :=
  fold_left
    (fun (entry_points : list prompt_entry) '(pattern_name, keywords) =>
       fold_left
         (fun entry_points keyword =>
            scan_keyword project_root fs pattern_name keyword
              (FS.rglob project_root ".py" fs) entry_points)
         keywords entry_points)
    patterns [].

(** [str(n)] of a natural number. *)
Definition decimal (n : nat) : string := NilZero.string_of_uint (Nat.to_uint n).

Definition no_entry_points : string :=
  "_No entry points detected. You'll need to explore the codebase manually._".

(** The [grouped] dict after the first loop. *)
Definition grouped (entry_points : list prompt_entry) : Dict.t (list string) :=
  fold_left
    (fun grouped ep =>
       let files := match Dict.get (pe_type ep) grouped with
                    | Some files => files
                    | None => []
                    end in
       Dict.set (pe_type ep) (files ++ [pe_file ep]) grouped)
    entry_points [].

Definition format_group (formatted : list string) (group : string * list string)
    : list string :=
  let '(ep_type, files) := group in
  let formatted := formatted ++ ["### " +:+ ep_type] in
  let formatted :=
    fold_left (fun formatted file => formatted ++ ["- `" +:+ file +:+ "`"])
      (firstn 5 files) formatted in
  let formatted :=
    if (5 <? length files)%nat
    then formatted ++ ["- _(+" +:+ decimal (length files - 5) +:+ " more)_"]
    else formatted in
  formatted ++ [""].

Definition _format_entry_points (entry_points : list prompt_entry) : string :=
  match entry_points with
  | [] => no_entry_points
  | _ => Json.join (String Json.newline "") (fold_left format_group (grouped entry_points) [])
  end.

Definition prompt_head : string :=
"# Business Logic Workflow Analysis

You are analyzing the codebase of **".

Definition prompt_after_title : string :=
"** to document its business logic workflows.

## Project Context

- **Project Name**: ".

Definition prompt_before_languages : string :=
"
- **Languages**: ".

Definition prompt_before_count : string :=
"
- **Entry Points**: ".

Definition prompt_before_entry_points : string :=
" detected

## Your Task

Analyze this codebase and identify distinct **business logic workflows**. For each workflow:

1. **Identify the workflow** - What business process does it represent?
2. **Find entry points** - API endpoints, event handlers, CLI commands, scheduled jobs
3. **Map components** - Which files, functions, and classes are involved?
4. **Track dependencies**:
   - External APIs called
   - Third-party libraries used
   - Internal services/modules used
5. **Create a flow diagram** - Use Mermaid.js syntax to visualize the flow
6. **Document relationships** - Which workflows trigger or depend on others?

## Output Format

For each workflow, create a markdown file in `.business-logic/workflows/<workflow-name>.md` using this structure:

```markdown
# Workflow: [Workflow Name]

## Description
[What this workflow does from a business perspective]

## Déclencheurs
- **Endpoint**: `[HTTP method] /api/path`
- **Event**: `[event.name]`
- **CLI**: `[command]`

## Composants Utilisés

### Fichiers
- `path/to/file.ext:10-45` - [What this file does in the workflow]

### APIs Externes
- **Service Name** (`api.example.com/endpoint`) - [Purpose]

### Services Internes
- `ServiceName` - [Purpose]

### Librairies Tierces
- `package-name` (v1.0.0) - [How it's used]

## Flux d'Exécution

```mermaid
graph TD
    A[Start Point] --> B{Decision}
    B -->|Path 1| C[Action]
    B -->|Path 2| D[Action]
    C --> E[End]
    D --> E
```

## Dépendances Métier

### Déclenche
- `other-workflow` - [When/Why]

### Requis par
- `other-workflow` - [When/Why]

## Notes & Annotations

_Key points, gotchas, or important business rules_
```

## Detected Entry Points

".

Definition prompt_tail : string :=
"

## Analysis Guidelines

1. **Focus on business value** - Not every function is a workflow
2. **Look for these patterns**:
   - API route handlers (REST, GraphQL endpoints)
   - Event listeners/handlers
   - Scheduled tasks (cron jobs)
   - CLI commands
   - Message queue consumers
   - Background jobs

3. **Identify external interactions**:
   - HTTP API calls to external services
   - Database operations (especially complex transactions)
   - File system operations
   - Email/SMS sending
   - Payment processing
   - Authentication/authorization flows

4. **Map data flows** - How does data move through the system?

5. **Note business rules** - Special conditions, validations, or constraints

## Getting Started

Begin by exploring the entry points listed above. For each one, trace the code execution path and identify the business purpose.

Start with the most critical or frequently-used workflows first (authentication, core data operations, payment flows, etc.).

## Questions to Ask

- What problem does this code solve for the end user?
- What happens if this workflow fails?
- Which external systems does this interact with?
- What are the success/failure conditions?
- Are there any business rules or constraints?

Good luck! Create comprehensive, well-documented workflows that will help developers understand the business logic at a glance.
".

(** Truth value of a JSON value. *)
Definition truthy (v : json) : bool :=
  match v with
  | JNull => false
  | JBool b => b
  | JNum n => negb (n =? 0)%Z
  | JStr s => negb (String.eqb s "")
  | JArr items => match items with [] => false | _ => true end
  | JObj members => match members with [] => false | _ => true end
  end.

Definition as_str (v : json) : option string :=
  match v with JStr s => Some s | _ => None end.

Fixpoint all_str (items : list json) : option (list string) :=
  match items with
  | [] => Some []
  | v :: rest =>
      match as_str v, all_str rest with
      | Some s, Some l => Some (s :: l)
      | _, _ => None
      end
  end.

Fixpoint characters (s : string) : list string :=
  match s with
  | EmptyString => []
  | String c s' => String c "" :: characters s'
  end.

(** [", ".join(languages)]: the items of a list must be strings, a string is
    joined character by character, a dict by its keys. *)
Definition join_languages (languages : json) : outcome string :=
  match languages with
  | JArr items =>
      match all_str items with
      | Some l => Ok (Json.join ", " l)
      | None => Raise TypeError
      end
  | JStr s => Ok (Json.join ", " (characters s))
  | JObj members => Ok (Json.join ", " (List.map fst members))
  | _ => Raise TypeError
  end.

Section Prompt.

(** Python's built-in [str] of a JSON value that is not a string, used when
    the config holds such a value as project name, is a parameter. *)
Variable py_str : json -> string.

Variable project_root : path.

Definition display (v : json) : string :=
  match v with JStr s => s | _ => py_str v end.

(** The project name and the languages the prompt shows. *)
Definition load_context (fs : fsys) : outcome (json * json) :=
  let config_path := buslog_path project_root ++ ["config.json"] in
  if FS.exists_at fs config_path then
    match FS.read_json fs config_path with
    | Ok (JObj config) =>
        Ok (match Dict.get "project_name" config with
            | Some v => v
            | None => JStr (PurePath.name project_root)
            end,
            match Dict.get "languages" config with
            | Some v => v
            | None => JArr []
            end)
    | Ok _ => Raise AttributeError
    | Raise e => Raise e
    end
  else Ok (JStr (PurePath.name project_root), JArr []).

Definition generate_analysis_prompt (fs : fsys) : outcome string :=
  match load_context fs with
  | Raise e => Raise e
  | Ok (project_name, languages) =>
      let entry_points := _detect_entry_points project_root fs in
      match (if truthy languages then join_languages languages else Ok "Auto-detect") with
      | Raise e => Raise e
      | Ok languages_text =>
          Ok (prompt_head +:+ display project_name
              +:+ prompt_after_title +:+ display project_name
              +:+ prompt_before_languages +:+ languages_text
              +:+ prompt_before_count +:+ decimal (length entry_points)
              +:+ prompt_before_entry_points +:+ _format_entry_points entry_points
              +:+ prompt_tail)
      end
  end.

End Prompt.

End PromptGenerator.

(** ** The web server's JSON handlers *)

(** What a handler answers: a JSON body with status 200, or an
    [HTTPException]. *)
Inductive response : Type :=
| JSONResponse (content : json)
| NotFound                                 (* HTTPException(status_code=404) *)
| ServerError (e : exn).                   (* HTTPException(status_code=500, detail=str(e)) *)

Module Server.

Section App.

Variable project_root : path.

Definition annotations_dir : path :=
  WorkflowManager.buslog_path project_root ++ ["annotations"].

Definition info_json (w : workflow_info) : json :=
  JObj [("name", JStr (wf_name w)); ("file", JStr (wf_file w)); ("path", JStr (wf_path w))].

(** GET /api/workflows *)
Definition get_workflows (fs : fsys) : response :=
  JSONResponse
    (JObj [("workflows",
            JArr (List.map info_json (WorkflowManager.list_workflows project_root fs)))]).

(** [p.exists()] of [base / s]. *)
Definition exists_under (fs : fsys) (base : path) (s : string) : bool :=
  match FS.resolve fs base s with
  | inr p => FS.exists_at fs p
  | inl _ => false
  end.


Definition read_json_under (fs : fsys) (base : path) (s : string) : outcome json :=
  match FS.resolve fs base s with
  | inr p => FS.read_json fs p
  | inl e => Raise e
  end.


(** GET /api/config *)
Definition get_config (fs : fsys) : outcome response :=
  match WorkflowManager.get_config project_root fs with
  | (Ok config, _) => Ok (JSONResponse config)
  | (Raise e, _) => Raise e
  end.

(** POST /api/workflows/{workflow_name}/annotations; [body] is what
    [request.json()] gives.  Every exception becomes a 500 response. *)
Definition save_annotations (workflow_name : string) (body : outcome json)
    : fsys -> response * fsys :=
  fun fs =>
    match body with
    | Raise e => (ServerError e, fs)
    | Ok (JObj data) =>
        let annotations :=
          match Dict.get "annotations" data with Some v => v | None => JArr [] end in
        match FS.mkdir annotations_dir fs with
        | (Raise e, fs1) => (ServerError e, fs1)
        | (Ok _, fs1) =>
            match FS.resolve fs1 annotations_dir (workflow_name +:+ ".json") with
            | inl e => (ServerError e, fs1)
            | inr annotation_file =>
                match FS.write_text annotation_file (JsonDoc annotations) fs1 with
                | (Raise e, fs2) => (ServerError e, fs2)
                | (Ok _, fs2) => (JSONResponse (JObj [("success", JBool true)]), fs2)
                end
            end
        end
    | Ok _ => (ServerError AttributeError, fs)
    end.

(** GET /api/workflows/{workflow_name}/annotations *)
Definition get_annotations (workflow_name : string) (fs : fsys) : outcome response :=
  let file_name := workflow_name +:+ ".json" in
  if negb (exists_under fs annotations_dir file_name)
  then Ok (JSONResponse (JObj [("annotations", JArr [])]))
  else
    match read_json_under fs annotations_dir file_name with
    | Ok annotations => Ok (JSONResponse (JObj [("annotations", annotations)]))
    | Raise e => Raise e
    end.

End App.

End Server.

(** ** The command line *)

(** What a command prints, by message; the wording and the markup of the
    console lines are left out. *)
Inductive line : Type :=
| Initializing
| AlreadyInitializedWarning
| UseForceHint
| InitializedOk
| NextSteps
| InitializationError (e : exn)
| NotInitializedError
| WorkflowCreated (workflow_path : path)
| EditHint
| WorkflowExistsWarning (workflow_name : string)
| CreationError (e : exn).

(** A finished command: 0 when the function returns, 1 for [sys.exit(1)]. *)
Record finished : Type := mk_finished { exit_code : Z; console : list line }.

Module Cli.

Section Commands.

Variable workflow_template : string -> string -> string.
Variable index_template : string -> string -> string.

(** [Path.cwd()], the root of [WorkflowManager()]. *)
Variable cwd : path.

(** [buslog init [--name NAME] [--force]] *)
Definition init (project_name : option string) (force : bool) (now : clock)
    : fsys -> finished * fsys :=
  fun fs =>
    if WorkflowManager.is_initialized cwd fs && negb force
    then (mk_finished 0 [Initializing; AlreadyInitializedWarning; UseForceHint], fs)
    else
      match WorkflowManager.initialize index_template cwd project_name force now fs with
      | (Ok _, fs') => (mk_finished 0 [Initializing; InitializedOk; NextSteps], fs')
      | (Raise e, fs') => (mk_finished 1 [Initializing; InitializationError e], fs')
      end.

(** [buslog add WORKFLOW_NAME]; [except FileExistsError] also takes the
    error the manager raises for an existing document. *)
Definition add (workflow_name : string) (now : clock) : fsys -> finished * fsys :=
  fun fs =>
    if negb (WorkflowManager.is_initialized cwd fs)
    then (mk_finished 1 [NotInitializedError], fs)
    else
      match WorkflowManager.add_workflow workflow_template cwd workflow_name now fs with
      | (Ok workflow_path, fs') =>
          (mk_finished 0 [WorkflowCreated workflow_path; EditHint], fs')
      | (Raise (WorkflowAlreadyExists _), fs') =>
          (mk_finished 0 [WorkflowExistsWarning workflow_name], fs')
      | (Raise FileExistsError, fs') =>
          (mk_finished 0 [WorkflowExistsWarning workflow_name], fs')
      | (Raise e, fs') => (mk_finished 1 [CreationError e], fs')
      end.

End Commands.

End Cli.

(** ** Notions the properties are stated with *)

Module Store.

(** The folder structure [initialize] creates: the store folder and its
    document folder are directories, the config is a regular file and the
    index is not a directory. *)
Definition layout (project_root : path) (fs : fsys) : bool :=
  FS.is_dir fs (WorkflowManager.buslog_path project_root)
  && FS.is_dir fs (WorkflowManager.workflows_path project_root)
  && FS.is_file fs (WorkflowManager.config_path project_root)
  && negb (FS.is_dir fs (WorkflowManager.index_path project_root)).

(** The array under [key] in [config.json]. *)
Definition config_array (project_root : path) (key : string) (fs : fsys)
    : option (list json) :=
  match FS.read_json fs (WorkflowManager.config_path project_root) with
  | Ok (JObj members) =>
      match Dict.get key members with
      | Some (JArr items) => Some items
      | _ => None
      end
  | _ => None
  end.

(** [config.get("workflows", [])] as the config update reads it. *)
Definition index_entries (project_root : path) (fs : fsys) : option (list json) :=
  match WorkflowManager.get_config project_root fs with
  | (Ok (JObj members), _) =>
      match Dict.get "workflows" members with
      | None => Some []
      | Some (JArr names) => Some names
      | Some _ => None
      end
  | _ => None
  end.

(** A name without a path separator names a file of the document folder. *)
Definition flat (name : string) : bool := negb (Str.contains "/" name).

(** How often [x] occurs in [l]. *)
Definition occurrences {A B} (eqb : A -> B -> bool) (x : A) (l : list B) : nat :=
  length (List.filter (eqb x) l).

(** The index is sound: config.json lists the identifiers [names], each
    once, and each has its document in the workflows folder. *)
Definition indexed (project_root : path) (names : list string) (fs : fsys) : Prop :=
  config_array project_root "workflows" fs = Some (List.map JStr names)
  /\ NoDup names
  /\ forall name, name ∈ names ->
       is_Some (fs !! (WorkflowManager.workflows_path project_root ++ [name +:+ ".md"])).

End Store.

(** ** The entry-point listing of the prompt, described by what it shows *)

Module Listing.

(** The distinct elements of [l] in the order of their first occurrence,
    those of [seen] left out. *)
Fixpoint first_seen (seen l : list string) : list string :=
  match l with
  | [] => []
  | x :: l' =>
      if existsb (String.eqb x) seen then first_seen seen l'
      else x :: first_seen (x :: seen) l'
  end.

(** The files of the records of one type, in record order. *)
Definition files_of (ep_type : string) (entry_points : list prompt_entry) : list string :=
  List.map pe_file (List.filter (fun ep => String.eqb (pe_type ep) ep_type) entry_points).

Definition bullet (file : string) : string := "- `" +:+ file +:+ "`".

(** A heading, the first five files, the number of the others when there
    are any, and an empty line. *)
Definition section (ep_type : string) (files : list string) : list string :=
  ["### " +:+ ep_type] ++ List.map bullet (firstn 5 files)
  ++ (if (5 <? length files)%nat
      then ["- _(+" +:+ PromptGenerator.decimal (length files - 5) +:+ " more)_"]
      else [])
  ++ [""].

End Listing.

(** ** Sample inputs *)

Module Sample.

Definition workflow_md (title date : string) : string :=
  "# Workflow: " +:+ title +:+ " (created " +:+ date +:+ ")".

Definition index_md (project time : string) : string :=
  "# " +:+ project +:+ " - business logic, updated " +:+ time.

Definition now : clock :=
  mk_clock "2024-05-01T09:30:00" "2024-05-01" "2024-05-01 09:30".

Definition root : path := ["home"; "dev"; "shop"].

(** /home/dev/shop with a.py, b.js and tests/c.py. *)
Definition project : fsys :=
  list_to_map
    [(["home"], Dir); (["home"; "dev"], Dir); (root, Dir);
     (root ++ ["a.py"], File (Text "def main(argv): return run(argv)"));
     (root ++ ["b.js"], File (Text "app.get('/items', list)"));
     (root ++ ["tests"], Dir);
     (root ++ ["tests"; "c.py"], File (Text "assert True"))].

(** The project after [buslog init]. *)
Definition initialized : fsys :=
  snd (WorkflowManager.initialize index_md root None false now project).

(** ... and after [buslog add User-Authentication]. *)
Definition with_workflow : fsys :=
  snd (WorkflowManager.add_workflow workflow_md root "User Authentication" now
         initialized).


(** /home/dev/shop whose only file is vendored under node_modules. *)
Definition vendored : fsys :=
  list_to_map
    [(["home"], Dir); (["home"; "dev"], Dir); (root, Dir);
     (root ++ ["node_modules"], Dir);
     (root ++ ["node_modules"; "lib.js"], File (Text "module.exports = {}"))].

(** a.py holds the pattern twice, cli.py once. *)
Definition two_mains : fsys :=
  list_to_map
    [(["home"], Dir); (["home"; "dev"], Dir); (root, Dir);
     (root ++ ["a.py"],
      File (Text "def main(argv): return 0;  def main(): return main(None)"));
     (root ++ ["cli.py"], File (Text "def main(): pass"))].

(** A store whose document folder holds a_.md, aa.md, z.md and _.md. *)
Definition titles : fsys :=
  list_to_map
    [(["home"], Dir); (["home"; "dev"], Dir); (root, Dir);
     (root ++ [".business-logic"], Dir);
     (root ++ [".business-logic"; "config.json"], File (JsonDoc (JObj [])));
     (root ++ [".business-logic"; "workflows"], Dir);
     (root ++ [".business-logic"; "workflows"; "a_.md"], File (Text "one"));
     (root ++ [".business-logic"; "workflows"; "aa.md"], File (Text "two"));
     (root ++ [".business-logic"; "workflows"; "z.md"], File (Text "three"));
     (root ++ [".business-logic"; "workflows"; "_.md"], File (Text "four"))].

(** A store whose config.json was damaged by hand. *)
Definition broken_config : fsys :=
  list_to_map
    [(["home"], Dir); (["home"; "dev"], Dir); (root, Dir);
     (root ++ [".business-logic"], Dir);
     (root ++ [".business-logic"; "config.json"], File (Text "{ project_name: shop"));
     (root ++ [".business-logic"; "workflows"], Dir)].

(** /home/dev/shop with one decorated route in api.py. *)
Definition decorated : fsys :=
  list_to_map
    [(["home"], Dir); (["home"; "dev"], Dir); (root, Dir);
     (root ++ ["api.py"], File (Text "@app.get('/orders')"))].

End Sample.

(** ** Orders on display titles *)

Module Title.

(** Code-point order, the order of [str.__lt__]. *)
Definition le (a b : workflow_info) : Prop :=
  String.leb (wf_name a) (wf_name b) = true.

(** Case-insensitive order: the titles compared after case folding. *)
Definition le_folded (fold : string -> string) (a b : workflow_info) : Prop :=
  String.leb (fold (wf_name a)) (fold (wf_name b)) = true.

(** A decision procedure for [Sorted]. *)
Fixpoint sortedb {A} (leb : A -> A -> bool) (l : list A) : bool :=
  match l with
  | [] => true
  | x :: l' =>
      match l' with
      | [] => true
      | y :: _ => leb x y && sortedb leb l'
      end
  end.

End Title.

(** ** The three-file scenario *)

Module Scenario.

(** The tree with a.py, b.js and tests/c.py, as seen from its root. *)
Definition tree (a b c : content) : fsys :=
  list_to_map
    [(["a.py"], File a); (["b.js"], File b); (["tests"], Dir);
     (["tests"; "c.py"], File c)].

(** [fs] holds exactly [tree] below [root]. *)
Definition mounted (root : path) (tree fs : fsys) : Prop :=
  forall rel : path, rel <> [] -> fs !! (root ++ rel) = tree !! rel.

(** [tree] placed at [root], with nothing else around it. *)
Definition at_root (root : path) (tree : fsys) : fsys := kmap (app root) tree.

End Scenario.

(** * Properties *)

(** ** The embedding on small inputs *)

Example safe_name_of_example :
  WorkflowManager.safe_name_of "User Authentication" = "user-authentication".
Proof. reflexivity. Qed.

Example title_example :
  Str.title (Str.replace "-" " " "user-authentication") = "User Authentication"
  /\ Str.title "a_b c3po" = "A_B C3Po".
Proof. split; reflexivity. Qed.

Example suffix_example :
  PurePath.suffix_of "archive.tar.gz" = ".gz" /\ PurePath.suffix_of ".env" = ""
  /\ PurePath.stem_of "user-authentication.md" = "user-authentication".
Proof. repeat split; reflexivity. Qed.

Example finditer_example :
  Re.finditer (Re.Lit "aa") "aaaaa" = ["aa"; "aa"]
  /\ Re.finditer (CodeAnalyzer.route "app.") "app.get('/a', f); app.patch('/b/c')"
     = ["app.get('/a"; "app.patch('/b/c"]
  /\ Re.finditer (CodeAnalyzer.route "@app.") "@app.head('/a')" = [].
Proof. repeat split; reflexivity. Qed.

Example list_workflows_example :
  WorkflowManager.list_workflows Sample.root Sample.with_workflow
  = [{| wf_name := "User Authentication";
        wf_file := "user-authentication.md";
        wf_path := "/home/dev/shop/.business-logic/workflows/user-authentication.md" |}].
Proof. by vm_compute. Qed.

(** ** Strings *)

Section StrFacts.

Lemma app_nil_str (s : string) : "" +:+ s = s.
Proof. reflexivity. Qed.

Lemma app_cons_str (c : ascii) (a b : string) : String c a +:+ b = String c (a +:+ b).
Proof. reflexivity. Qed.

Lemma prefix_nil (s : string) : String.prefix "" s = true.
Proof. by destruct s. Qed.

Lemma prefix_cons (a b : ascii) (p s : string) :
  String.prefix (String a p) (String b s) = Ascii.eqb a b && String.prefix p s.
Proof.
  simpl. destruct (ascii_dec a b) as [->|Hne].
  - by rewrite Ascii.eqb_refl.
  - apply Ascii.eqb_neq in Hne. by rewrite Hne.
Qed.

Lemma prefix_iff (p s : string) :
  String.prefix p s = true <-> exists r, s = p +:+ r.
Proof.
  revert s. induction p as [|a p IH]; intros s.
  - rewrite prefix_nil. split; [intros _; by exists s | done].
  - destruct s as [|b s].
    + split; [done | by intros [r Hr]].
    + rewrite prefix_cons, andb_true_iff, Ascii.eqb_eq, IH. split.
      * intros [-> [r ->]]. by exists r.
      * intros [r Hr]. rewrite app_cons_str in Hr. inversion Hr. eauto.
Qed.

Lemma contains_cons (n : string) (c : ascii) (h : string) :
  Str.contains n (String c h) = String.prefix n (String c h) || Str.contains n h.
Proof. reflexivity. Qed.

Lemma contains_nil (n : string) : Str.contains n "" = String.prefix n "".
Proof. simpl. by rewrite orb_false_r. Qed.

Lemma contains_iff (n h : string) :
  Str.contains n h = true <-> exists a b, h = a +:+ n +:+ b.
Proof.
  induction h as [|c h IH].
  - rewrite contains_nil, prefix_iff. split.
    + intros [r Hr]. by exists "", r.
    + intros [a [b Hab]]. destruct a; [by exists b | done].
  - rewrite contains_cons, orb_true_iff, prefix_iff, IH. split.
    + intros [[r Hr]|[a [b Hab]]].
      * by exists "", r.
      * exists (String c a), b. by rewrite app_cons_str, Hab.
    + intros [a [b Hab]]. destruct a as [|c' a].
      * left. by exists b.
      * right. exists a, b. rewrite app_cons_str in Hab. by inversion Hab.
Qed.

Lemma app_assoc_str (a b c : string) : (a +:+ b) +:+ c = a +:+ (b +:+ c).
Proof. induction a as [|x a IH]; [done|]. by rewrite !app_cons_str, IH. Qed.

Lemma contains_app_l (n a b : string) :
  Str.contains n a = true -> Str.contains n (a +:+ b) = true.
Proof.
  rewrite !contains_iff. intros [x [y ->]].
  exists x, (y +:+ b). by rewrite !app_assoc_str.
Qed.

Lemma contains_app_r (n a b : string) :
  Str.contains n b = true -> Str.contains n (a +:+ b) = true.
Proof.
  rewrite !contains_iff. intros [x [y ->]].
  exists (a +:+ x), y. by rewrite !app_assoc_str.
Qed.

(** A needle without a slash does not straddle a slash. *)
Lemma prefix_slash (m a b : string) :
  Str.contains "/" m = false ->
  String.prefix m (a +:+ String "/" b) = String.prefix m a.
Proof.
  revert m. induction a as [|x a IH]; intros m Hm.
  - rewrite app_nil_str. destruct m as [|c m]; [done|].
    rewrite contains_cons, prefix_cons, prefix_nil, andb_true_r in Hm.
    apply orb_false_elim in Hm as [Hc _].
    rewrite prefix_cons, Ascii.eqb_sym, Hc. done.
  - rewrite app_cons_str. destruct m as [|c m]; [done|].
    rewrite !prefix_cons. f_equal. apply IH.
    rewrite contains_cons in Hm. by apply orb_false_elim in Hm as [_ ?].
Qed.

Lemma contains_slash (m a b : string) :
  Str.contains "/" m = false ->
  Str.contains m (a +:+ String "/" b) = Str.contains m a || Str.contains m b.
Proof.
  intros Hm. induction a as [|x a IH].
  - rewrite app_nil_str, contains_cons, contains_nil.
    by rewrite <- (prefix_slash m "" b Hm).
  - rewrite app_cons_str, !contains_cons, IH, <- app_cons_str.
    by rewrite (prefix_slash m (String x a) b Hm), orb_assoc.
Qed.

Lemma lower_app (a b : string) : Str.lower (a +:+ b) = Str.lower a +:+ Str.lower b.
Proof. induction a as [|x a IH]; [done|]. rewrite app_cons_str. simpl. by rewrite IH. Qed.

End StrFacts.

(** ** Lists *)

Section ListFacts.
Context {A : Type}.

Lemma elem_of_lfilter (f : A -> bool) (l : list A) (x : A) :
  x ∈ List.filter f l <-> f x = true /\ x ∈ l.
Proof. rewrite !list_elem_of_In, filter_In. tauto. Qed.

Lemma lfilter_perm (f : A -> bool) (l l' : list A) :
  l ≡ₚ l' -> List.filter f l ≡ₚ List.filter f l'.
Proof.
  induction 1 as [|x l l' _ IH|x y l|l l' l'' _ IH1 _ IH2]; simpl.
  - done.
  - destruct (f x); [by constructor | done].
  - destruct (f x), (f y); try done. apply perm_swap.
  - by etrans.
Qed.

Lemma NoDup_lfilter (f : A -> bool) (l : list A) :
  NoDup l -> NoDup (List.filter f l).
Proof.
  induction 1 as [|x l Hx _ IH]; simpl; [constructor|].
  destruct (f x); [|done]. constructor; [|done].
  rewrite elem_of_lfilter. tauto.
Qed.

Lemma fold_left_perm {B : Type} (f : B -> A -> B) (l l' : list A) (b : B) :
  (forall b x y, f (f b x) y = f (f b y) x) ->
  l ≡ₚ l' -> fold_left f l b = fold_left f l' b.
Proof.
  intros Hf Hp. revert b.
  induction Hp as [|x l l' _ IH|x y l|l l' l'' _ IH1 _ IH2]; intros b; simpl.
  - done.
  - apply IH.
  - by rewrite Hf.
  - by rewrite IH1.
Qed.

Lemma fold_left_id {B : Type} (f : B -> A -> B) (l : list A) (b : B) :
  (forall x, x ∈ l -> forall b, f b x = b) -> fold_left f l b = b.
Proof.
  revert b. induction l as [|x l IH]; intros b Hf; simpl; [done|].
  rewrite Hf; [|by left]. apply IH. intros y Hy. apply Hf. by right.
Qed.

End ListFacts.

(** ** Paths and the file system *)

Section PathFacts.

Lemma relative_to_app (root rel : path) :
  PurePath.relative_to root (root ++ rel) = Some rel.
Proof. induction root as [|r root IH]; simpl; [done|]. by rewrite String.eqb_refl. Qed.

Lemma relative_to_Some (root p rel : path) :
  PurePath.relative_to root p = Some rel -> p = root ++ rel.
Proof.
  revert p. induction root as [|r root IH]; intros p; simpl.
  - by intros [= ->].
  - destruct p as [|c p]; [done|].
    destruct (String.eqb_spec r c) as [->|]; [|done].
    intros H. by rewrite (IH _ H).
Qed.

Lemma is_descendant_iff (dir p : path) :
  FS.is_descendant dir p = true <-> exists c rel, p = dir ++ c :: rel.
Proof.
  unfold FS.is_descendant. split.
  - destruct (PurePath.relative_to dir p) as [[|c rel]|] eqn:E; try done.
    intros _. exists c, rel. by apply relative_to_Some.
  - intros [c [rel ->]]. by rewrite relative_to_app.
Qed.

Lemma is_child_iff (dir p : path) :
  FS.is_child dir p = true <-> exists c, p = dir ++ [c].
Proof.
  unfold FS.is_child. split.
  - destruct (PurePath.relative_to dir p) as [[|c [|? ?]]|] eqn:E; try done.
    intros _. exists c. by apply relative_to_Some.
  - intros [c ->]. by rewrite relative_to_app.
Qed.

Lemma name_snoc (p : path) (c : string) : PurePath.name (p ++ [c]) = c.
Proof. apply last_last. Qed.

Lemma parent_snoc (p : path) (c : string) : PurePath.parent (p ++ [c]) = p.
Proof. apply removelast_last. Qed.

Lemma app_nil_r_str (s : string) : s +:+ "" = s.
Proof. induction s as [|c s IH]; [done|]. by rewrite app_cons_str, IH. Qed.

Lemma str_parts_app (a b : path) :
  PurePath.str_parts (a ++ b) = PurePath.str_parts a +:+ PurePath.str_parts b.
Proof.
  induction a as [|c a IH]; simpl; [done|].
  by rewrite IH, !app_assoc_str.
Qed.

Lemma str_snoc (p : path) (c : string) :
  PurePath.str (p ++ [c]) = PurePath.str_parts p +:+ String "/" c.
Proof.
  transitivity (PurePath.str_parts (p ++ [c])); [by destruct p|].
  rewrite str_parts_app. simpl. by rewrite app_nil_r_str.
Qed.

Lemma str_cons (c : string) (p : path) :
  PurePath.str (c :: p) = PurePath.str_parts (c :: p).
Proof. done. Qed.

Lemma lookup_node_snoc (fs : fsys) (p : path) (c : string) :
  FS.lookup_node fs (p ++ [c]) = fs !! (p ++ [c]).
Proof. by destruct p. Qed.

Lemma elem_of_paths (fs : fsys) (p : path) :
  p ∈ FS.paths fs <-> is_Some (fs !! p).
Proof.
  unfold FS.paths. rewrite list_elem_of_fmap. split.
  - intros [[q n] [-> H]]. apply elem_of_map_to_list in H. by exists n.
  - intros [n Hn]. exists (p, n). split; [done|]. by apply elem_of_map_to_list.
Qed.

Lemma NoDup_paths (fs : fsys) : NoDup (FS.paths fs).
Proof. apply NoDup_fst_map_to_list. Qed.

Lemma elem_of_rglob (dir : path) (suf : string) (fs : fsys) (p : path) :
  p ∈ FS.rglob dir suf fs <->
  is_Some (fs !! p) /\ FS.is_descendant dir p = true
  /\ Str.endswith suf (PurePath.name p) = true.
Proof.
  unfold FS.rglob. rewrite elem_of_lfilter, andb_true_iff, elem_of_paths. tauto.
Qed.

Lemma NoDup_rglob (dir : path) (suf : string) (fs : fsys) : NoDup (FS.rglob dir suf fs).
Proof. apply NoDup_lfilter, NoDup_paths. Qed.

Lemma endswith_nil (s : string) : Str.endswith "" s = true.
Proof. induction s as [|c s IH]; [done|]. simpl. by rewrite IH. Qed.

End PathFacts.
(** ** The exclusion rule *)

Section Exclusion.
Import CodeAnalyzer.

Lemma is_excluded_iff (p : path) :
  _is_excluded p = true <->
  exists m, m ∈ excluded_patterns /\ exists a b, PurePath.str p = a +:+ m +:+ b.
Proof.
  unfold _is_excluded. rewrite existsb_exists. split.
  - intros [m [Hin Hm]]. exists m. split; [by apply list_elem_of_In|].
    by apply contains_iff.
  - intros [m [Hin Hm]]. exists m. split; [by apply list_elem_of_In|].
    by apply contains_iff.
Qed.

Lemma str_descendant (root : path) (c : string) (rel : path) :
  root <> [] ->
  PurePath.str (root ++ c :: rel) = PurePath.str root +:+ PurePath.str_parts (c :: rel).
Proof.
  intros Hroot. destruct root as [|r root]; [done|].
  change (PurePath.str ((r :: root) ++ c :: rel))
    with (PurePath.str_parts ((r :: root) ++ c :: rel)).
  by rewrite str_parts_app.
Qed.

Lemma excluded_descendant (root : path) (c : string) (rel : path) :
  _is_excluded root = true -> _is_excluded (root ++ c :: rel) = true.
Proof.
  intros H. destruct root as [|r root]; [by vm_compute in H|].
  unfold _is_excluded in *. apply existsb_exists in H as [m [Hin Hm]].
  apply existsb_exists. exists m. split; [done|].
  rewrite str_descendant by done. by apply contains_app_l.
Qed.

Lemma scanned_not_excluded (fs : fsys) (file : path) :
  scanned fs file = true -> FS.is_file fs file = true /\ _is_excluded file = false.
Proof.
  unfold scanned. rewrite andb_true_iff, negb_true_iff. tauto.
Qed.

Lemma excluded_root_scans_nothing (root : path) (fs : fsys) (file : path) :
  _is_excluded root = true -> file ∈ FS.rglob root "" fs -> scanned fs file = false.
Proof.
  intros Hroot Hfile. apply elem_of_rglob in Hfile as (_ & Hdesc & _).
  apply is_descendant_iff in Hdesc as [c [rel ->]].
  unfold scanned. by rewrite excluded_descendant, andb_false_r.
Qed.

End Exclusion.

(** C10: exclusion is substring containment over the whole path text.  A
    path is excluded exactly when one of the nine marker strings occurs
    somewhere in [str(path)]; so a file is excluded when only its own name
    contains a marker (distance.py contains dist, and no component of
    /proj/distance.py is a marker), and when the path of the scanned root
    contains a marker every path below it is excluded: the counting loop
    counts nothing and the pattern search returns nothing. *)
Theorem C10_exclusion_by_substring :
  (forall p : path,
      CodeAnalyzer._is_excluded p = true <->
      exists m, m ∈ CodeAnalyzer.excluded_patterns
                /\ exists a b, PurePath.str p = a +:+ m +:+ b)
  /\ CodeAnalyzer.excluded_patterns =
       [".git"; ".venv"; "venv"; "node_modules"; "__pycache__"; ".pytest_cache";
        "dist"; "build"; ".business-logic"]
  /\ (forall dir : path, CodeAnalyzer._is_excluded (dir ++ ["distance.py"]) = true)
  /\ Forall (fun c => c ∉ CodeAnalyzer.excluded_patterns) ["proj"; "distance.py"]
  /\ (forall (root : path) (fs : fsys),
         CodeAnalyzer._is_excluded root = true ->
         (forall file, file ∈ FS.rglob root "" fs ->
                       CodeAnalyzer._is_excluded file = true)
         /\ CodeAnalyzer._count_files root fs = mk_counts 0 0 0 0
         /\ forall pattern,
             CodeAnalyzer._search_pattern_in_files root fs pattern = []).
Proof.
  split; [exact is_excluded_iff|]. split; [done|]. split; [|split].
  - intros dir. apply is_excluded_iff. exists "dist". split.
    + unfold CodeAnalyzer.excluded_patterns. set_solver.
    + rewrite str_snoc. exists (PurePath.str_parts dir +:+ "/"), "ance.py".
      by rewrite !app_assoc_str.
  - repeat constructor; unfold CodeAnalyzer.excluded_patterns;
      rewrite list_elem_of_In; simpl; intros H; decompose [or] H; done.
  - intros root fs Hroot. split; [|split].
    + intros file Hfile. apply elem_of_rglob in Hfile as (_ & Hdesc & _).
      apply is_descendant_iff in Hdesc as [c [rel ->]].
      by apply excluded_descendant.
    + unfold CodeAnalyzer._count_files. apply fold_left_id.
      intros file Hfile counts. unfold CodeAnalyzer.count_file.
      by rewrite (excluded_root_scans_nothing root fs file).
    + intros pattern. unfold CodeAnalyzer._search_pattern_in_files.
      apply fold_left_id. intros file Hfile matches.
      unfold CodeAnalyzer.search_file.
      by rewrite (excluded_root_scans_nothing root fs file).
Qed.

(** C9: on an initialized store, [initialize] without [force] raises the
    already-initialized error and the file system, [config.json] included,
    is what it was. *)
Theorem C9_initialize_without_force
    (index_template : string -> string -> string) (project_root : path)
    (project_name : option string) (now : clock) (fs : fsys) :
  WorkflowManager.is_initialized project_root fs = true ->
  WorkflowManager.initialize index_template project_root project_name false now fs
  = (Raise AlreadyInitialized, fs).
Proof.
  intros Hinit. unfold WorkflowManager.initialize. by rewrite Hinit.
Qed.

(** ** File-system operations *)

Section FsFacts.
Implicit Types (fs : fsys) (p q : path).

Lemma is_dir_lookup fs p : FS.is_dir fs p = true <-> FS.lookup_node fs p = Some Dir.
Proof. unfold FS.is_dir. destruct (FS.lookup_node fs p) as [[|c]|]; split; done. Qed.

Lemma mkdir_dir fs p : FS.is_dir fs p = true -> FS.mkdir p fs = (Ok tt, fs).
Proof. rewrite is_dir_lookup. unfold FS.mkdir. by intros ->. Qed.

Lemma write_text_ok fs p c :
  FS.is_dir fs p = false -> FS.is_dir fs (PurePath.parent p) = true ->
  FS.write_text p c fs = (Ok tt, <[p := File c]> fs).
Proof.
  rewrite is_dir_lookup. unfold FS.write_text, FS.is_dir.
  intros Hp ->. by destruct (FS.lookup_node fs p) as [[|c']|].
Qed.

(** A successful write is an insertion of a regular file below an existing
    directory. *)
Lemma write_text_inv fs fs' p c r :
  FS.write_text p c fs = (r, fs') ->
  (r = Ok tt /\ fs' = <[p := File c]> fs /\ FS.is_dir fs p = false
   /\ FS.is_dir fs (PurePath.parent p) = true)
  \/ (exists e, r = Raise e /\ fs' = fs).
Proof.
  unfold FS.write_text, FS.is_dir.
  destruct (FS.lookup_node fs p) as [[|c']|];
    destruct (FS.lookup_node fs (PurePath.parent p)) as [[|c'']|];
    intros [= <- <-]; eauto 10.
Qed.

Lemma lookup_node_insert_ne fs p q n :
  p <> q -> FS.lookup_node (<[p := n]> fs) q = FS.lookup_node fs q.
Proof.
  intros Hne. destruct q as [|c q]; [done|]. simpl. by rewrite lookup_insert_ne.
Qed.

Lemma is_dir_insert_ne fs p q n :
  p <> q -> FS.is_dir (<[p := n]> fs) q = FS.is_dir fs q.
Proof. intros Hne. unfold FS.is_dir. by rewrite lookup_node_insert_ne. Qed.

(** Writing a file keeps every directory. *)
Lemma is_dir_insert_file fs p q c :
  FS.is_dir fs p = false -> FS.is_dir fs q = true ->
  FS.is_dir (<[p := File c]> fs) q = true.
Proof.
  intros Hp Hq. destruct (decide (p = q)) as [->|Hne]; [congruence|].
  by rewrite is_dir_insert_ne.
Qed.

Lemma exists_at_insert fs p n : p <> [] -> FS.exists_at (<[p := n]> fs) p = true.
Proof.
  intros Hp. unfold FS.exists_at. destruct p as [|c p]; [done|].
  simpl. by rewrite lookup_insert_eq.
Qed.

Lemma exists_at_insert_mono fs p q n :
  FS.exists_at fs q = true -> FS.exists_at (<[p := n]> fs) q = true.
Proof.
  unfold FS.exists_at. destruct q as [|c q]; [done|]. simpl.
  destruct (decide (p = c :: q)) as [->|Hne].
  - by rewrite lookup_insert_eq.
  - by rewrite lookup_insert_ne.
Qed.

End FsFacts.

(** Distinctness of the store's paths. *)
Ltac path_ne :=
  let H := fresh in
  intros H;
  unfold WorkflowManager.index_path, WorkflowManager.config_path,
    WorkflowManager.workflows_path, WorkflowManager.buslog_path in H;
  repeat rewrite <- app_assoc in H; simpl in H;
  try (apply app_inv_head in H); try discriminate;
  apply (f_equal length) in H; repeat rewrite length_app in H; simpl in H; lia.

Section StoreFacts.
Import WorkflowManager.
Variable project_root : path.

Lemma parent_config : PurePath.parent (config_path project_root) = buslog_path project_root.
Proof. apply parent_snoc. Qed.

Lemma parent_index : PurePath.parent (index_path project_root) = buslog_path project_root.
Proof. apply parent_snoc. Qed.

Lemma config_ne_index : config_path project_root <> index_path project_root.
Proof. path_ne. Qed.

Lemma config_ne_buslog : config_path project_root <> buslog_path project_root.
Proof. path_ne. Qed.

Lemma index_ne_buslog : index_path project_root <> buslog_path project_root.
Proof. path_ne. Qed.

Lemma config_ne_workflows : config_path project_root <> workflows_path project_root.
Proof. path_ne. Qed.

Lemma index_ne_workflows : index_path project_root <> workflows_path project_root.
Proof. path_ne. Qed.

Lemma config_not_document (p : path) :
  FS.is_descendant (workflows_path project_root) p = true ->
  config_path project_root <> p.
Proof. intros [c [rel ->]]%is_descendant_iff. path_ne. Qed.

Lemma index_not_document (p : path) :
  FS.is_descendant (workflows_path project_root) p = true ->
  index_path project_root <> p.
Proof. intros [c [rel ->]]%is_descendant_iff. path_ne. Qed.

Lemma config_path_not_root : config_path project_root <> [].
Proof. path_ne. Qed.

End StoreFacts.

(** C4: on a store laid out as [initialize] leaves it, whatever documents
    its [workflows] folder holds, [initialize] with [force] succeeds, the
    config it writes is a fresh one whose [workflows] array is empty (nothing
    of the old index is kept, nothing is rebuilt from the documents), and
    every path below [workflows/] is what it was. *)
Theorem C4_force_initialize
    (index_template : string -> string -> string) (project_root : path)
    (project_name : option string) (now : clock) (fs : fsys) :
  Store.layout project_root fs = true ->
  exists (fs' : fsys) (name : string),
    WorkflowManager.initialize index_template project_root project_name true now fs
    = (Ok tt, fs')
    /\ WorkflowManager.get_config project_root fs'
       = (Ok (WorkflowManager.fresh_config name now
                (WorkflowManager._detect_languages project_root fs)), fs')
    /\ Store.config_array project_root "workflows" fs' = Some []
    /\ forall p : path,
        FS.is_descendant (WorkflowManager.workflows_path project_root) p = true ->
        fs' !! p = fs !! p.
Proof.
  unfold Store.layout. rewrite !andb_true_iff, negb_true_iff.
  intros [[[Hbus Hwf] Hcfg] Hidx].
  assert (Hcfg_dir : FS.is_dir fs (WorkflowManager.config_path project_root) = false).
  { unfold FS.is_file in Hcfg. unfold FS.is_dir.
    by destruct (FS.lookup_node fs (WorkflowManager.config_path project_root))
      as [[|c]|]. }
  set (name := match project_name with
               | Some (String c n) => String c n
               | _ => PurePath.name project_root
               end).
  set (cfg := WorkflowManager.fresh_config name now
                (WorkflowManager._detect_languages project_root fs)).
  set (fs1 := <[WorkflowManager.config_path project_root := File (JsonDoc cfg)]> fs).
  exists (<[WorkflowManager.index_path project_root :=
              File (Text (WorkflowManager._generate_index index_template name now))]> fs1),
    name.
  assert (Hinit :
    WorkflowManager.initialize index_template project_root project_name true now fs
    = (Ok tt, <[WorkflowManager.index_path project_root :=
                  File (Text (WorkflowManager._generate_index index_template name now))]> fs1)).
  { unfold WorkflowManager.initialize. rewrite andb_false_r.
    unfold bind at 1. rewrite (mkdir_dir _ _ Hbus).
    unfold bind at 1. rewrite (mkdir_dir _ _ Hwf).
    unfold bind at 1, gets. fold name. fold cfg.
    unfold bind. rewrite write_text_ok; [|done|by rewrite parent_config].
    fold fs1. rewrite write_text_ok; [done| |].
    - unfold fs1. rewrite is_dir_insert_ne; [done | apply config_ne_index].
    - rewrite parent_index. unfold fs1.
      rewrite is_dir_insert_ne; [done | apply config_ne_buslog]. }
  assert (Hread : FS.lookup_node
            (<[WorkflowManager.index_path project_root :=
                 File (Text (WorkflowManager._generate_index index_template name now))]> fs1)
            (WorkflowManager.config_path project_root) = Some (File (JsonDoc cfg))).
  { rewrite lookup_node_insert_ne; [|by intros H; apply (config_ne_index project_root)].
    unfold fs1, WorkflowManager.config_path. rewrite lookup_node_snoc.
    apply lookup_insert_eq. }
  split; [done|]. split; [|split].
  - unfold WorkflowManager.get_config, FS.exists_at, FS.read_json. by rewrite Hread.
  - unfold Store.config_array, FS.read_json. by rewrite Hread.
  - intros p Hp. rewrite lookup_insert_ne by by apply index_not_document.
    unfold fs1. rewrite lookup_insert_ne by by apply config_not_document.
    done.
Qed.

(** ** Adding a workflow *)

Section AddWorkflow.
Import WorkflowManager.
Variable workflow_template : string -> string -> string.
Variable project_root : path.

Lemma dirs_kept_refl fs : dirs_kept fs fs.
Proof. by intros q. Qed.

Lemma dirs_kept_trans fs1 fs2 fs3 :
  dirs_kept fs1 fs2 -> dirs_kept fs2 fs3 -> dirs_kept fs1 fs3.
Proof. intros H1 H2 q Hq. by apply H2, H1. Qed.

Lemma dirs_kept_write fs p c :
  FS.is_dir fs p = false -> dirs_kept fs (<[p := File c]> fs).
Proof. intros Hp q Hq. by apply is_dir_insert_file. Qed.

Lemma walk_dirs_kept fs fs' cur comps r :
  dirs_kept fs fs' -> FS.walk fs cur comps = inr r -> FS.walk fs' cur comps = inr r.
Proof.
  intros Hk. revert cur. induction comps as [|c comps IH]; intros cur; simpl; [done|].
  destruct (FS.lookup_node fs cur) as [[|c']|] eqn:E; try done.
  apply is_dir_lookup, Hk, is_dir_lookup in E. rewrite E. apply IH.
Qed.

Lemma resolve_dirs_kept fs fs' base s r :
  dirs_kept fs fs' -> FS.resolve fs base s = inr r -> FS.resolve fs' base s = inr r.
Proof. unfold FS.resolve. apply walk_dirs_kept. Qed.

Lemma get_config_state fs r fs' :
  get_config project_root fs = (r, fs') -> fs' = fs.
Proof.
  unfold get_config.
  destruct (negb _); [by intros [= _ <-]|].
  by destruct (FS.read_json _ _); intros [= _ <-].
Qed.

(** The config update either leaves the file system alone or rewrites
    [config.json]. *)
Lemma add_to_config_inv name fs r fs' :
  _add_workflow_to_config project_root name fs = (r, fs') ->
  fs' = fs \/
  exists j, r = Ok tt /\ fs' = <[config_path project_root := File (JsonDoc j)]> fs
            /\ FS.is_dir fs (config_path project_root) = false.
Proof.
  unfold _add_workflow_to_config, bind.
  destruct (get_config project_root fs) as [[config|e] fs0] eqn:Hg;
    apply get_config_state in Hg as ->; [|by intros [= _ <-]; left].
  unfold write_config, ret, raise. intros H.
  repeat (match type of H with
          | context [if ?b then _ else _] => destruct b eqn:?
          | context [match ?x with _ => _ end] => destruct x eqn:?
          end; simplify_eq; eauto);
    try (apply write_text_inv in H as [(-> & -> & ? & ?)|(e & -> & ->)]; eauto 10).
Qed.

Lemma add_workflow_inv name now fs r fs' :
  add_workflow workflow_template project_root name now fs = (Ok r, fs') ->
  exists workflow_path c,
    FS.resolve fs (workflows_path project_root) (safe_name_of name +:+ ".md")
    = inr workflow_path
    /\ FS.exists_at fs workflow_path = false
    /\ FS.is_dir fs (PurePath.parent workflow_path) = true
    /\ _add_workflow_to_config project_root (safe_name_of name)
         (<[workflow_path := File c]> fs) = (Ok tt, fs').
Proof.
  unfold add_workflow.
  destruct (FS.resolve fs _ _) as [e|workflow_path] eqn:Hres; [done|].
  destruct (FS.exists_at fs workflow_path) eqn:Hex; [done|].
  unfold bind at 1.
  destruct (FS.write_text workflow_path _ fs) as [r1 fs1] eqn:Hw.
  apply write_text_inv in Hw as [(-> & -> & Hd & Hp)|(e & -> & ->)]; [|done].
  unfold bind, ret.
  destruct (_add_workflow_to_config _ _ _) as [[[]|e] fs2] eqn:Hc; [|done].
  intros [= <- <-]. eauto 10.
Qed.

End AddWorkflow.

(** C8: when [add_workflow] has created the document for a name, a second
    call with a name that normalises to the same identifier raises the
    document-already-exists error and leaves the file system as it was: the
    document and the [workflows] array of the config are untouched. *)
Theorem C8_add_workflow_twice
    (workflow_template : string -> string -> string) (project_root : path)
    (name1 name2 : string) (now1 now2 : clock) (fs fs1 : fsys) (created : path) :
  WorkflowManager.safe_name_of name1 = WorkflowManager.safe_name_of name2 ->
  WorkflowManager.add_workflow workflow_template project_root name1 now1 fs
  = (Ok created, fs1) ->
  WorkflowManager.add_workflow workflow_template project_root name2 now2 fs1
  = (Raise (WorkflowAlreadyExists (WorkflowManager.safe_name_of name2)), fs1).
Proof.
  intros Hsame Hfirst.
  apply add_workflow_inv in Hfirst as (wp & c & Hres & Hex & Hparent & Hcfg).
  assert (Hwp : wp <> []) by (by intros ->).
  assert (Hnd : FS.is_dir fs wp = false).
  { unfold FS.is_dir, FS.exists_at in *. by destruct (FS.lookup_node fs wp). }
  assert (Hk : dirs_kept fs fs1 /\ FS.exists_at fs1 wp = true).
  { apply add_to_config_inv in Hcfg as [->|(j & _ & -> & Hcd)].
    - split; [by apply dirs_kept_write | by apply exists_at_insert].
    - split.
      + eapply dirs_kept_trans; [by apply dirs_kept_write|].
        by apply dirs_kept_write.
      + by apply exists_at_insert_mono, exists_at_insert. }
  destruct Hk as [Hk Hex1].
  unfold WorkflowManager.add_workflow. rewrite <- Hsame.
  by rewrite (resolve_dirs_kept _ _ _ _ _ Hk Hres), Hex1.
Qed.

(** ** Sorting *)

Section SortFacts.
Context {A : Type} (leb : A -> A -> bool).
Hypothesis leb_total : forall x y, leb x y = true \/ leb y x = true.

#[local] Abbreviation R := (fun x y : A => leb x y = true).

Lemma insert_perm (x : A) (l : list A) : Sort.insert leb x l ≡ₚ x :: l.
Proof.
  induction l as [|y l IH]; simpl; [done|].
  destruct (leb x y); [done|]. rewrite IH. apply perm_swap.
Qed.

Lemma sorted_perm (l : list A) : Sort.sorted leb l ≡ₚ l.
Proof.
  induction l as [|x l IH]; simpl; [done|]. by rewrite insert_perm, IH.
Qed.

Lemma insert_HdRel (a x : A) (l : list A) :
  R a x -> HdRel R a l -> HdRel R a (Sort.insert leb x l).
Proof.
  intros Hax Hal. destruct l as [|y l]; simpl; [by constructor|].
  destruct (leb x y); constructor; [done|]. by inversion Hal.
Qed.

Lemma insert_Sorted (x : A) (l : list A) :
  Sorted R l -> Sorted R (Sort.insert leb x l).
Proof.
  induction 1 as [|y l Hl IH Hy]; simpl.
  - by repeat constructor.
  - destruct (leb x y) eqn:Hxy.
    + constructor; [by constructor|]. by constructor.
    + constructor; [done|]. apply insert_HdRel; [|done].
      destruct (leb_total x y) as [H|H]; [congruence | done].
Qed.

Lemma sorted_Sorted (l : list A) : Sorted R (Sort.sorted leb l).
Proof.
  induction l as [|x l IH]; simpl; [constructor | by apply insert_Sorted].
Qed.

Lemma sortedb_Sorted (l : list A) : Title.sortedb leb l = true <-> Sorted R l.
Proof.
  induction l as [|x l IH]; [by split; [constructor|]|].
  change (Title.sortedb leb (x :: l))
    with (match l with [] => true | y :: _ => leb x y && Title.sortedb leb l end).
  destruct l as [|y l].
  - split; [by repeat constructor | done].
  - rewrite andb_true_iff, IH. split.
    + intros [Hxy Hs]. constructor; [done | by constructor].
    + intros Hs. inversion Hs as [|? ? Hs' Hd]; subst. by inversion Hd.
Qed.

End SortFacts.

Lemma elem_of_glob (dir : path) (suf : string) (fs : fsys) (p : path) :
  p ∈ FS.glob dir suf fs <->
  FS.is_dir fs dir = true /\ is_Some (fs !! p) /\ FS.is_child dir p = true
  /\ Str.endswith suf (PurePath.name p) = true.
Proof.
  unfold FS.glob. destruct (FS.is_dir fs dir).
  - rewrite elem_of_lfilter, andb_true_iff, elem_of_paths. tauto.
  - split; [by intros ?%elem_of_nil | by intros [? _]].
Qed.

Lemma NoDup_glob (dir : path) (suf : string) (fs : fsys) : NoDup (FS.glob dir suf fs).
Proof.
  unfold FS.glob. destruct (FS.is_dir fs dir); [|constructor].
  apply NoDup_lfilter, NoDup_paths.
Qed.

Lemma list_workflows_perm (project_root : path) (fs : fsys) :
  WorkflowManager.list_workflows project_root fs
  ≡ₚ List.map WorkflowManager.info_of
       (FS.glob (WorkflowManager.workflows_path project_root) ".md" fs).
Proof.
  unfold WorkflowManager.list_workflows.
  destruct (FS.exists_at fs _) eqn:Hex; simpl; [apply sorted_perm|].
  unfold FS.glob, FS.is_dir, FS.exists_at in *.
  by destruct (FS.lookup_node fs _).
Qed.

Lemma ascii_compare_lt_trans (a b c : ascii) :
  Ascii.compare a b = Lt -> Ascii.compare b c = Lt -> Ascii.compare a c = Lt.
Proof.
  unfold Ascii.compare. rewrite !N.compare_lt_iff. lia.
Qed.

Lemma string_leb_trans (s1 s2 s3 : string) :
  String.leb s1 s2 = true -> String.leb s2 s3 = true -> String.leb s1 s3 = true.
Proof.
  unfold String.leb. revert s2 s3.
  induction s1 as [|a s1 IH]; intros s2 s3.
  - by destruct s3.
  - destruct s2 as [|b s2]; [done|]. destruct s3 as [|c s3]; [by destruct (Ascii.compare a b)|].
    simpl.
    destruct (Ascii.compare a b) eqn:Hab; [| |done].
    + apply Ascii.compare_eq_iff in Hab as ->.
      destruct (Ascii.compare b c) eqn:Hbc; [|done|done].
      apply IH.
    + destruct (Ascii.compare b c) eqn:Hbc; [| |done].
      * apply Ascii.compare_eq_iff in Hbc as <-. by rewrite Hab.
      * by rewrite (ascii_compare_lt_trans a b c).
Qed.

(** C5 (as the code has it): [list_workflows] builds its records from the
    entries of the document folder whose name ends in .md, one record per
    entry, without reading the config, and returns them sorted by display
    title in ascending code-point order: a plain comparison of the
    title-cased names, not a case-insensitive one. *)
Theorem C5_list_workflows_sorted (project_root : path) (fs : fsys) :
  StronglySorted Title.le (WorkflowManager.list_workflows project_root fs)
  /\ forall info : workflow_info,
      info ∈ WorkflowManager.list_workflows project_root fs <->
      FS.is_dir fs (WorkflowManager.workflows_path project_root) = true
      /\ exists file_name : string,
          is_Some (fs !! (WorkflowManager.workflows_path project_root ++ [file_name]))
          /\ Str.endswith ".md" file_name = true
          /\ info = WorkflowManager.info_of
                      (WorkflowManager.workflows_path project_root ++ [file_name]).
Proof.
  split.
  - apply Sorted_StronglySorted.
    { intros x y z. apply string_leb_trans. }
    unfold WorkflowManager.list_workflows.
    destruct (negb _); [constructor|].
    apply (sorted_Sorted (fun a b => String.leb (wf_name a) (wf_name b))).
    intros x y. apply String.leb_total.
  - intros info. rewrite list_workflows_perm, list_elem_of_In, in_map_iff. split.
    + intros (file & <- & Hfile%list_elem_of_In).
      apply elem_of_glob in Hfile as (Hdir & Hsome & Hchild & Hsuf).
      apply is_child_iff in Hchild as [c ->]. rewrite name_snoc in Hsuf. eauto 10.
    + intros (Hdir & c & Hsome & Hsuf & ->). eexists. split; [done|].
      apply list_elem_of_In, elem_of_glob. rewrite name_snoc.
      repeat split; try done. apply is_child_iff. eauto.
Qed.

(** C5, the claim as stated, fails: with a_.md, aa.md, z.md and _.md in the
    document folder the titles come back as A_, Aa, Z, _, which is sorted
    neither after lower-casing nor after upper-casing. *)
Lemma C5_counterexample :
  List.map wf_name (WorkflowManager.list_workflows Sample.root Sample.titles)
  = ["A_"; "Aa"; "Z"; "_"]
  /\ ~ Sorted (Title.le_folded Str.lower)
         (WorkflowManager.list_workflows Sample.root Sample.titles)
  /\ ~ Sorted (Title.le_folded Str.upper)
         (WorkflowManager.list_workflows Sample.root Sample.titles).
Proof.
  split; [by vm_compute|]. split.
  - intros H.
    apply (sortedb_Sorted
             (fun a b => String.leb (Str.lower (wf_name a)) (Str.lower (wf_name b)))) in H.
    by vm_compute in H.
  - intros H.
    apply (sortedb_Sorted
             (fun a b => String.leb (Str.upper (wf_name a)) (Str.upper (wf_name b)))) in H.
    by vm_compute in H.
Qed.

(** ** Moving a tree to another root *)

Lemma name_descendant (root : path) (c : string) (rel : path) :
  PurePath.name (root ++ c :: rel) = PurePath.name (c :: rel).
Proof.
  unfold PurePath.name. induction root as [|r root IH]; [done|].
  rewrite <- IH. simpl. by destruct (root ++ c :: rel) eqn:E; [destruct root|].
Qed.

Section Mounted.
Variables (root : path) (tree fs : fsys).
Hypothesis Hm : Scenario.mounted root tree fs.

Lemma rglob_mounted (suf : string) :
  FS.rglob root suf fs ≡ₚ List.map (app root) (FS.rglob [] suf tree).
Proof.
  apply NoDup_Permutation.
  - apply NoDup_rglob.
  - apply (NoDup_fmap_2 (app root)), NoDup_rglob.
  - intros p. rewrite elem_of_rglob. split.
    + intros (Hsome & [c [rel ->]]%is_descendant_iff & Hsuf).
      apply list_elem_of_In, in_map_iff.
      exists (c :: rel). split; [done|]. apply list_elem_of_In, elem_of_rglob.
      rewrite <- (Hm (c :: rel)) by done.
      by rewrite <- (name_descendant root).
    + intros (rel & <- & Hrel%list_elem_of_In)%list_elem_of_In%in_map_iff.
      apply elem_of_rglob in Hrel as (Hsome & [c [rel' ->]]%is_descendant_iff & Hsuf).
      simpl in *. rewrite (Hm (c :: rel')) by done.
      rewrite name_descendant. split; [done|]. split; [|done].
      apply is_descendant_iff. eauto.
Qed.

Lemma is_file_mounted (rel : path) :
  rel <> [] -> FS.is_file fs (root ++ rel) = FS.is_file tree rel.
Proof.
  intros Hrel. unfold FS.is_file, FS.lookup_node.
  destruct rel as [|c rel]; [done|].
  destruct (root ++ c :: rel) eqn:E; [by destruct root|].
  by rewrite <- E, (Hm (c :: rel)).
Qed.

End Mounted.

Lemma mounted_at_root (root : path) (tree : fsys) :
  Scenario.mounted root tree (Scenario.at_root root tree).
Proof.
  intros rel _. unfold Scenario.at_root.
  apply (lookup_kmap (app root)).
Qed.

(** ** The language ranking depends on the tree through match counts only *)

Section Detected.
Import CodeAnalyzer.

Lemma detected_counts (root root' : path) (fs fs' : fsys) :
  (forall ext, length (FS.rglob root ext fs) = length (FS.rglob root' ext fs')) ->
  detected root fs = detected root' fs'.
Proof.
  intros Hlen. unfold detected. generalize (@nil (string * nat)).
  induction language_extensions as [|[ext lang] table IH]; intros acc; simpl; [done|].
  specialize (Hlen ext).
  destruct (FS.rglob root ext fs), (FS.rglob root' ext fs'); simpl in Hlen;
    try done; rewrite ?IH; try done.
  simpl. by rewrite Hlen.
Qed.

Lemma detected_mounted (root : path) (tree fs : fsys) :
  Scenario.mounted root tree fs -> detected root fs = detected [] tree.
Proof.
  intros Hm. apply detected_counts. intros ext.
  by rewrite (rglob_mounted root tree fs Hm), length_map.
Qed.

End Detected.

(** ** Paths below a root that is itself not excluded *)

Section BelowRoot.
Import CodeAnalyzer.

Lemma existsb_orb {A} (h f g : A -> bool) (l : list A) :
  Forall (fun x => h x = f x || g x) l ->
  existsb h l = existsb f l || existsb g l.
Proof.
  induction 1 as [|x l Hx _ IH]; simpl; [done|].
  rewrite Hx, IH. by destruct (f x), (g x), (existsb f l).
Qed.

Lemma markers_slash (a b : string) :
  existsb (fun m => Str.contains m (a +:+ String "/" b)) excluded_patterns
  = existsb (fun m => Str.contains m a) excluded_patterns
    || existsb (fun m => Str.contains m b) excluded_patterns.
Proof.
  apply existsb_orb. unfold excluded_patterns.
  repeat constructor; by apply contains_slash.
Qed.

Lemma str_parts_join (c : string) (rel : path) :
  PurePath.str_parts (c :: rel) = String "/" (Str.join_slash (c :: rel)).
Proof.
  revert c. induction rel as [|d rel IH]; intros c.
  - simpl. by rewrite app_nil_r_str.
  - change (PurePath.str_parts (c :: d :: rel))
      with ("/" +:+ c +:+ PurePath.str_parts (d :: rel)).
    rewrite IH. done.
Qed.

Lemma str_below (root : path) (c : string) (rel : path) :
  PurePath.str (root ++ c :: rel)
  = PurePath.str_parts root +:+ String "/" (Str.join_slash (c :: rel)).
Proof.
  transitivity (PurePath.str_parts (root ++ c :: rel)); [by destruct root|].
  by rewrite str_parts_app, str_parts_join.
Qed.

Lemma parts_not_excluded (root : path) :
  _is_excluded root = false ->
  existsb (fun m => Str.contains m (PurePath.str_parts root)) excluded_patterns = false.
Proof. by destruct root. Qed.

Lemma is_excluded_below (root : path) (c : string) (rel : path) :
  _is_excluded root = false ->
  _is_excluded (root ++ c :: rel)
  = existsb (fun m => Str.contains m (Str.join_slash (c :: rel))) excluded_patterns.
Proof.
  intros Hroot. unfold _is_excluded at 1.
  by rewrite str_below, markers_slash, parts_not_excluded.
Qed.

Lemma lower_parts_no_test (root : path) :
  Str.contains "test" (Str.lower (PurePath.str root)) = false ->
  Str.contains "test" (Str.lower (PurePath.str_parts root)) = false.
Proof. by destruct root. Qed.

Lemma test_below (root : path) (c : string) (rel : path) :
  Str.contains "test" (Str.lower (PurePath.str root)) = false ->
  Str.contains "test" (Str.lower (PurePath.str (root ++ c :: rel)))
  = Str.contains "test" (Str.lower (Str.join_slash (c :: rel))).
Proof.
  intros Hroot. rewrite str_below, lower_app.
  change (Str.lower (String "/" (Str.join_slash (c :: rel))))
    with (String "/" (Str.lower (Str.join_slash (c :: rel)))).
  by rewrite contains_slash, lower_parts_no_test.
Qed.

Lemma count_file_comm (fs : fsys) (counts : file_counts) (x y : path) :
  count_file fs (count_file fs counts x) y = count_file fs (count_file fs counts y) x.
Proof.
  unfold count_file. destruct (scanned fs x), (scanned fs y); try done.
  simpl. unfold bump. f_equal; repeat case_match; done.
Qed.

End BelowRoot.

(** ** The ranking of languages *)

Section Ranking.
Context {A : Type} (leb : A -> A -> bool) (same : A -> bool).

(** [sorted] is stable: elements the order does not separate keep their
  relative position. *)
Lemma insert_stable (x : A) (l : list A) :
(forall y, same x = true -> same y = true -> leb x y = true) ->
List.filter same (Sort.insert leb x l)
= if same x then x :: List.filter same l else List.filter same l.
Proof.
intros Hsame. induction l as [|y l IH]; simpl; [done|].
destruct (leb x y) eqn:Hxy; simpl; [done|].
rewrite IH. destruct (same x) eqn:Hx, (same y) eqn:Hy; try done.
by rewrite Hsame in Hxy.
Qed.

Lemma sorted_stable (l : list A) :
(forall x y, same x = true -> same y = true -> leb x y = true) ->
List.filter same (Sort.sorted leb l) = List.filter same l.
Proof.
intros Hsame. induction l as [|x l IH]; simpl; [done|].
rewrite insert_stable by (intros y; apply Hsame). by rewrite IH.
Qed.

End Ranking.

Lemma dict_set_keys {V : Type} (k : string) (v : V) (d : Dict.t V) :
  (Dict.set k v d).*1 = if bool_decide (k ∈ d.*1) then d.*1 else d.*1 ++ [k].
Proof.
  induction d as [|[k0 v0] d IH]; [done|].
  change (Dict.set k v ((k0, v0) :: d))
    with (if String.eqb k k0 then (k, v) :: d else (k0, v0) :: Dict.set k v d).
  destruct (String.eqb_spec k k0) as [->|Hne].
  - rewrite bool_decide_eq_true_2; [done | by left].
  - rewrite !fmap_cons, IH. simpl. destruct (decide (k ∈ d.*1)) as [Hin|Hin].
    + rewrite !bool_decide_eq_true_2; [done | by right | done].
    + rewrite !bool_decide_eq_false_2; [done | | done].
      by intros [?|?]%elem_of_cons.
Qed.

(** The dict of the language pass lists its labels in table order. *)
Lemma detected_table_order (project_root : path) (fs : fsys) :
  sublist (CodeAnalyzer.detected project_root fs).*1
    (CodeAnalyzer.language_extensions).*2.
Proof.
  unfold CodeAnalyzer.detected.
  assert (Hgen : forall table seen acc,
    sublist acc.*1 seen ->
    sublist (fold_left
      (fun detected '(ext, lang) =>
         let files := FS.rglob project_root ext fs in
         match files with
         | [] => detected
         | _ => Dict.set lang (length files) detected
         end) table acc).*1 (seen ++ table.*2)).
  { induction table as [|[ext lang] table IH]; intros seen acc Hacc; simpl.
    - by rewrite app_nil_r.
    - rewrite (cons_middle lang), app_assoc. apply IH.
      destruct (FS.rglob project_root ext fs); [by apply sublist_inserts_r|].
      rewrite dict_set_keys. case_bool_decide; [by apply sublist_inserts_r|].
      by apply sublist_app. }
  apply (Hgen _ [] []). constructor.
Qed.

(** The languages are ranked by descending match count, labels with equal
    counts in the order of the extension table. *)
Lemma language_ranking (project_root : path) (fs : fsys) :
  let ranked :=
    Sort.sorted (fun x y => (snd y <=? snd x)%nat)
      (CodeAnalyzer.detected project_root fs) in
  CodeAnalyzer._detect_languages project_root fs = ranked.*1
  /\ Sorted (fun x y => (snd y <=? snd x)%nat = true) ranked
  /\ (forall n, List.filter (fun x => (snd x =? n)%nat) ranked
                = List.filter (fun x => (snd x =? n)%nat)
                    (CodeAnalyzer.detected project_root fs))
  /\ sublist (CodeAnalyzer.detected project_root fs).*1
       (CodeAnalyzer.language_extensions).*2.
Proof.
  split; [done|]. split; [|split].
  - apply (sorted_Sorted (fun x y => (snd y <=? snd x)%nat)).
    intros x y. rewrite !Nat.leb_le. lia.
  - intros n. apply sorted_stable. intros x y Hx%Nat.eqb_eq Hy%Nat.eqb_eq.
    apply Nat.leb_le. lia.
  - apply detected_table_order.
Qed.

(** C7 (as the code has it): whatever file system holds exactly a.py, b.js
    and tests/c.py below a root whose path contains no exclusion marker and,
    in any mix of cases, no occurrence of test, the counts are total 3,
    source 3, test 1, config 0 and the languages are ranked Python (2
    matches), JavaScript (1 match): by descending match count, labels with
    equal counts staying in the order of the extension table. *)
Theorem C7_three_file_scenario (root : path) (a b c : content) (fs : fsys) :
  Scenario.mounted root (Scenario.tree a b c) fs ->
  CodeAnalyzer._is_excluded root = false ->
  Str.contains "test" (Str.lower (PurePath.str root)) = false ->
  CodeAnalyzer._count_files root fs = mk_counts 3 3 1 0
  /\ CodeAnalyzer._detect_languages root fs = ["Python"; "JavaScript"]
  /\ CodeAnalyzer.detected root fs = [("Python", 2); ("JavaScript", 1)]
  /\ (let ranked :=
        Sort.sorted (fun x y => (snd y <=? snd x)%nat) (CodeAnalyzer.detected root fs) in
      CodeAnalyzer._detect_languages root fs = ranked.*1
      /\ Sorted (fun x y => (snd y <=? snd x)%nat = true) ranked
      /\ (forall n, List.filter (fun x => (snd x =? n)%nat) ranked
                    = List.filter (fun x => (snd x =? n)%nat)
                        (CodeAnalyzer.detected root fs))
      /\ sublist (CodeAnalyzer.detected root fs).*1
           (CodeAnalyzer.language_extensions).*2).
Proof.
  intros Hm Hroot Htest. split; [|split; [|split]].
  - unfold CodeAnalyzer._count_files.
    rewrite (fold_left_perm _ _ _ _ (count_file_comm fs) (rglob_mounted _ _ _ Hm "")).
    assert (Hfile : forall rel, rel <> [] ->
              FS.is_file fs (root ++ rel) = FS.is_file (Scenario.tree a b c) rel)
      by (intros rel; by apply is_file_mounted).
    replace (FS.rglob [] "" (Scenario.tree a b c))
      with [["tests"; "c.py"]; ["a.py"]; ["tests"]; ["b.js"]] by by vm_compute.
    simpl. unfold CodeAnalyzer.count_file, CodeAnalyzer.scanned, PurePath.suffix,
      PurePath.parent.
    rewrite !Hfile by done.
    change (root ++ ["tests"; "c.py"]) with (root ++ "tests" :: ["c.py"]).
    rewrite !is_excluded_below by done.
    rewrite !name_descendant.
    rewrite (removelast_app root (l' := ["tests"; "c.py"])) by done.
    rewrite (removelast_app root (l' := ["a.py"])) by done.
    rewrite (removelast_app root (l' := ["b.js"])) by done.
    simpl removelast. rewrite app_nil_r.
    rewrite (test_below root "tests" []) by done.
    rewrite Htest.
    by vm_compute.
  - unfold CodeAnalyzer._detect_languages.
    rewrite (detected_mounted _ _ _ Hm). by vm_compute.
  - rewrite (detected_mounted _ _ _ Hm). by vm_compute.
  - apply language_ranking.
Qed.

(** ** The two language passes *)

Lemma rglob_insert_other (dir : path) (suf : string) (fs : fsys) (p : path) (n : node) :
  Str.endswith suf (PurePath.name p) = false ->
  FS.rglob dir suf (<[p := n]> fs) ≡ₚ FS.rglob dir suf fs.
Proof.
  intros Hp. apply NoDup_Permutation; [apply NoDup_rglob..|].
  intros q. rewrite !elem_of_rglob.
  destruct (decide (p = q)) as [->|Hne].
  - rewrite Hp. split; intros (_ & _ & ?); done.
  - by rewrite lookup_insert_ne.
Qed.

Lemma mkdir_inv (p : path) (fs fs' : fsys) :
  FS.mkdir p fs = (Ok tt, fs') -> fs' = fs \/ fs' = <[p := Dir]> fs.
Proof.
  unfold FS.mkdir.
  destruct (FS.lookup_node fs p) as [[|c]|]; [by intros [= <-]; left|done|].
  destruct (FS.lookup_node fs (PurePath.parent p)) as [[|c]|]; try done.
  intros [= <-]. by right.
Qed.

Lemma fold_left_ext_in {A B : Type} (f g : B -> A -> B) (l : list A) (b : B) :
  (forall x b, x ∈ l -> f b x = g b x) -> fold_left f l b = fold_left g l b.
Proof.
  revert b. induction l as [|x l IH]; intros b Hfg; simpl; [done|].
  rewrite Hfg by by left. apply IH. intros y b' Hy. apply Hfg. by right.
Qed.

Section Languages.
Variable project_root : path.

(** The store's pass sees a tree through match counts only. *)
Lemma wm_detected_counts (fs fs' : fsys) :
  Forall (fun entry => length (FS.rglob project_root (fst entry) fs)
                       = length (FS.rglob project_root (fst entry) fs'))
    WorkflowManager.language_extensions ->
  WorkflowManager.detected project_root fs = WorkflowManager.detected project_root fs'.
Proof.
  unfold WorkflowManager.detected. intros H.
  apply fold_left_ext_in. intros [ext lang] acc Hin.
  rewrite Forall_forall in H. specialize (H _ Hin). simpl in H.
  by destruct (FS.rglob project_root ext fs), (FS.rglob project_root ext fs').
Qed.

(** Creating the store's two folders does not change what the pass finds. *)
Lemma wm_detected_insert (fs : fsys) (p : path) (n : node) :
  PurePath.name p = WorkflowManager.BUSLOG_DIR
  \/ PurePath.name p = WorkflowManager.WORKFLOWS_DIR ->
  WorkflowManager.detected project_root (<[p := n]> fs)
  = WorkflowManager.detected project_root fs.
Proof.
  intros Hname. apply wm_detected_counts.
  unfold WorkflowManager.language_extensions.
  repeat constructor; simpl; apply Permutation_length, rglob_insert_other;
    by destruct Hname as [-> | ->].
Qed.

Lemma wm_detected_mkdir (fs fs' : fsys) (p : path) :
  PurePath.name p = WorkflowManager.BUSLOG_DIR
  \/ PurePath.name p = WorkflowManager.WORKFLOWS_DIR ->
  FS.mkdir p fs = (Ok tt, fs') ->
  WorkflowManager.detected project_root fs' = WorkflowManager.detected project_root fs.
Proof.
  intros Hname [-> | ->]%mkdir_inv; [done | by apply wm_detected_insert].
Qed.






End Languages.

Section Initialize.
Import WorkflowManager.
Variable index_template : string -> string -> string.
Variable project_root : path.

Lemma initialize_inv (project_name : option string) (force : bool) (now : clock)
    (fs fs' : fsys) :
  initialize index_template project_root project_name force now fs = (Ok tt, fs') ->
  exists fs1 fs2 name,
    FS.mkdir (buslog_path project_root) fs = (Ok tt, fs1)
    /\ FS.mkdir (workflows_path project_root) fs1 = (Ok tt, fs2)
    /\ fs' = <[index_path project_root :=
                 File (Text (_generate_index index_template name now))]>
               (<[config_path project_root :=
                    File (JsonDoc (fresh_config name now
                                     (_detect_languages project_root fs2)))]> fs2).
Proof.
  unfold initialize. destruct (is_initialized _ _ && negb force); [done|].
  unfold bind at 1.
  destruct (FS.mkdir (buslog_path project_root) fs) as [[[]|e] fs1] eqn:H1; [|done].
  unfold bind at 1.
  destruct (FS.mkdir (workflows_path project_root) fs1) as [[[]|e] fs2] eqn:H2; [|done].
  unfold bind at 1, gets. unfold bind.
  destruct (FS.write_text (config_path project_root) _ fs2) as [r3 fs3] eqn:H3.
  apply write_text_inv in H3 as [(-> & -> & _ & _)|(e & -> & ->)]; [|done].
  intros [(_ & -> & _ & _)|(e & ? & _)]%write_text_inv; [|done].
  eauto 10.
Qed.

Lemma detect_languages_after_mkdirs (fs fs1 fs2 : fsys) :
  FS.mkdir (buslog_path project_root) fs = (Ok tt, fs1) ->
  FS.mkdir (workflows_path project_root) fs1 = (Ok tt, fs2) ->
  _detect_languages project_root fs2 = _detect_languages project_root fs.
Proof.
  intros H1 H2. unfold _detect_languages. f_equal.
  rewrite (wm_detected_mkdir project_root fs1 fs2 _ (or_intror (name_snoc _ _)) H2).
  apply (wm_detected_mkdir project_root fs fs1 _ (or_introl (name_snoc _ _)) H1).
Qed.

End Initialize.



(** ** Enumeration of entry points *)

Section Enumeration.
Import CodeAnalyzer.

Lemma fold_left_app_flat_map {A B : Type} (g : A -> list B) (l : list A) (acc : list B) :
  fold_left (fun acc x => acc ++ g x) l acc = acc ++ flat_map g l.
Proof.
  revert acc. induction l as [|x l IH]; intros acc; simpl.
  - by rewrite app_nil_r.
  - by rewrite IH, app_assoc.
Qed.

Lemma fold_left_snoc_map {A B : Type} (g : A -> B) (l : list A) (acc : list B) :
  fold_left (fun acc x => acc ++ [g x]) l acc = acc ++ List.map g l.
Proof.
  revert acc. induction l as [|x l IH]; intros acc; simpl.
  - by rewrite app_nil_r.
  - by rewrite IH, <- app_assoc.
Qed.

(** The search loop appends, file after file, one pair per match. *)
Lemma search_as_flat_map (project_root : path) (fs : fsys) (pattern : Re.regex) :
  _search_pattern_in_files project_root fs pattern
  = flat_map
      (fun file =>
         if scanned fs file then
           match FS.read_text fs file with
           | Ok content => List.map (fun m => (file, m)) (Re.finditer pattern content)
           | Raise _ => []
           end
         else [])
      (FS.rglob project_root "" fs).
Proof.
  unfold _search_pattern_in_files.
  rewrite <- (app_nil_l (flat_map _ _)), <- fold_left_app_flat_map.
  apply fold_left_ext_in. intros file acc _. unfold search_file.
  destruct (scanned fs file); [|by rewrite app_nil_r].
  destruct (FS.read_text fs file); [done | by rewrite app_nil_r].
Qed.

Lemma lfilter_none {A : Type} (f : A -> bool) (l : list A) :
  (forall x, x ∈ l -> f x = false) -> List.filter f l = [].
Proof.
  induction l as [|x l IH]; intros Hf; simpl; [done|].
  rewrite Hf by by left. apply IH. intros y Hy. apply Hf. by right.
Qed.

Lemma lfilter_all {A : Type} (f : A -> bool) (l : list A) :
  (forall x, x ∈ l -> f x = true) -> List.filter f l = l.
Proof.
  induction l as [|x l IH]; intros Hf; simpl; [done|].
  rewrite Hf by by left. f_equal. apply IH. intros y Hy. apply Hf. by right.
Qed.

Lemma count_in_flat_map {A B : Type} `{EqDecision A} (g : A -> list (A * B))
    (l : list A) (x : A) :
  (forall y hit, hit ∈ g y -> hit.1 = y) ->
  NoDup l -> x ∈ l ->
  length (List.filter (fun hit => bool_decide (hit.1 = x)) (flat_map g l))
  = length (g x).
Proof.
  intros Hg Hnd. induction Hnd as [|y l Hy Hnd IH]; [by intros ?%elem_of_nil|].
  simpl. rewrite List.filter_app, length_app.
  intros [->|Hx]%elem_of_cons.
  - rewrite lfilter_all.
    + rewrite lfilter_none; [simpl; lia|].
      intros hit (z & Hz & Hhit)%list_elem_of_In%in_flat_map.
      apply bool_decide_eq_false. intros Heq.
      apply list_elem_of_In, Hg in Hhit. apply list_elem_of_In in Hz. congruence.
    + intros hit Hhit. apply bool_decide_eq_true. by apply Hg.
  - rewrite lfilter_none; [by apply IH|].
    intros hit Hhit. apply bool_decide_eq_false. intros Heq.
    apply Hg in Hhit. congruence.
Qed.

Lemma entry_points_as_flat_map (project_root : path) (fs : fsys) :
  _find_entry_points project_root fs
  = flat_map
      (fun group : string * list Re.regex =>
         flat_map
           (fun pattern =>
              List.map
                (fun hit : path * string =>
                   {| ep_type := fst group;
                      ep_file := relative_str project_root (fst hit);
                      ep_match := snd hit |})
                (_search_pattern_in_files project_root fs pattern))
           (snd group))
      patterns.
Proof.
  unfold _find_entry_points.
  rewrite <- (app_nil_l (flat_map _ _)), <- fold_left_app_flat_map.
  apply fold_left_ext_in. intros [entry_type pattern_list] acc _.
  rewrite <- fold_left_app_flat_map.
  apply fold_left_ext_in. intros pattern acc1 _.
  rewrite <- fold_left_snoc_map.
  apply fold_left_ext_in. by intros [file m] acc2 _.
Qed.

End Enumeration.

(** C1 (as the code has it): enumeration keeps every match.  For every
    project tree and every pattern, a regular, non-excluded, decodable file
    below the root contributes one (file, match) pair per non-overlapping
    match of the pattern in its text; [_find_entry_points] turns each pair of
    each pattern of each group into one record, in table order, without
    dropping later matches of a file.  With a.py holding the pattern twice
    and cli.py once, the list has 3 records. *)
Theorem C1_every_match_is_a_record (project_root : path) (fs : fsys) :
  (forall (pattern : Re.regex) (file : path) (c : content) (text : string),
      fs !! file = Some (File c) ->
      FS.is_descendant project_root file = true ->
      CodeAnalyzer._is_excluded file = false ->
      FS.decode c = Ok text ->
      length (List.filter (fun hit => bool_decide (hit.1 = file))
                (CodeAnalyzer._search_pattern_in_files project_root fs pattern))
      = length (Re.finditer pattern text))
  /\ CodeAnalyzer._find_entry_points project_root fs
     = flat_map
         (fun group : string * list Re.regex =>
            flat_map
              (fun pattern =>
                 List.map
                   (fun hit : path * string =>
                      {| ep_type := fst group;
                         ep_file := CodeAnalyzer.relative_str project_root (fst hit);
                         ep_match := snd hit |})
                   (CodeAnalyzer._search_pattern_in_files project_root fs pattern))
              (snd group))
         CodeAnalyzer.patterns
  /\ length (CodeAnalyzer._find_entry_points Sample.root Sample.two_mains) = 3.
Proof.
  split; [|split; [apply entry_points_as_flat_map | by vm_compute]].
  intros pattern file c text Hfile Hdesc Hexcl Hdec.
  assert (Hnode : FS.lookup_node fs file = Some (File c)).
  { apply is_descendant_iff in Hdesc as (x & rel & ->).
    rewrite <- Hfile. by destruct project_root. }
  rewrite search_as_flat_map, count_in_flat_map.
  - unfold CodeAnalyzer.scanned, FS.is_file, FS.read_text.
    rewrite Hnode, Hexcl, Hdec. simpl. by rewrite length_map.
  - intros y hit. destruct (CodeAnalyzer.scanned fs y); [|by intros ?%elem_of_nil].
    destruct (FS.read_text fs y); [|by intros ?%elem_of_nil].
    by intros (m & <- & _)%list_elem_of_In%in_map_iff.
  - apply NoDup_rglob.
  - apply elem_of_rglob. by rewrite endswith_nil.
Qed.

(** C1, the claim as stated, fails: one pattern group, a.py with the pattern
    twice and cli.py with it once give 3 records, 2 of them for a.py. *)
Lemma C1_counterexample :
  length (CodeAnalyzer._find_entry_points Sample.root Sample.two_mains) = 3
  /\ List.map ep_type (CodeAnalyzer._find_entry_points Sample.root Sample.two_mains)
     = ["CLI Command"; "CLI Command"; "CLI Command"]
  /\ length
       (List.filter
          (fun e => String.eqb (ep_type e) "CLI Command" && String.eqb (ep_file e) "a.py")
          (CodeAnalyzer._find_entry_points Sample.root Sample.two_mains)) = 2.
Proof. by vm_compute. Qed.

(** ** What the guarded loops scan *)

Lemma component_in_str (p : path) (c : string) :
  c ∈ p -> Str.contains c (PurePath.str p) = true.
Proof.
  intros (a & b & ->)%list_elem_of_split. apply contains_iff.
  exists (PurePath.str_parts a +:+ "/"), (PurePath.str_parts b).
  transitivity (PurePath.str_parts (a ++ c :: b)); [by destruct a|].
  rewrite str_parts_app. simpl. by rewrite !app_assoc_str.
Qed.

(** The loops guarded by [is_file() and not _is_excluded(file)] (counting,
    framework and pattern search) only handle regular files below the root
    none of whose components is an exclusion marker. *)
Lemma scanned_files_sound (project_root : path) (fs : fsys) (file : path) :
  file ∈ FS.rglob project_root "" fs ->
  CodeAnalyzer.scanned fs file = true ->
  (exists c rel, file = project_root ++ c :: rel)
  /\ FS.is_file fs file = true
  /\ forall marker, marker ∈ CodeAnalyzer.excluded_patterns -> marker ∉ file.
Proof.
  intros (_ & Hdesc%is_descendant_iff & _)%elem_of_rglob
         [Hfile Hexcl]%scanned_not_excluded.
  split; [done|]. split; [done|]. intros marker Hmarker Hin.
  apply component_in_str in Hin.
  assert (CodeAnalyzer._is_excluded file = true); [|congruence].
  unfold CodeAnalyzer._is_excluded. apply existsb_exists.
  exists marker. split; [by apply list_elem_of_In | done].
Qed.

(** C3, where the code departs from it: the language pass enumerates with
    [rglob] and no exclusion test.  With lib.js under node_modules as the
    only file, the guarded counting loop counts nothing, yet the language
    pass finds the file and reports JavaScript. *)
Theorem C3_language_pass_without_exclusion :
  Sample.vendored !! (Sample.root ++ ["node_modules"; "lib.js"])
  = Some (File (Text "module.exports = {}"))
  /\ CodeAnalyzer._is_excluded (Sample.root ++ ["node_modules"; "lib.js"]) = true
  /\ FS.rglob Sample.root ".js" Sample.vendored
     = [Sample.root ++ ["node_modules"; "lib.js"]]
  /\ CodeAnalyzer._detect_languages Sample.root Sample.vendored = ["JavaScript"]
  /\ CodeAnalyzer._count_files Sample.root Sample.vendored = mk_counts 0 0 0 0.
Proof. by vm_compute. Qed.

(** ** The store layout is what the operations establish and keep *)

Section Layout.
Import WorkflowManager.
Variable project_root : path.

Lemma layout_write (fs : fsys) (p : path) (c : content) :
FS.is_dir fs p = false ->
Store.layout project_root fs = true ->
Store.layout project_root (<[p := File c]> fs) = true.
Proof.
unfold Store.layout. rewrite !andb_true_iff, !negb_true_iff.
intros Hp [[[Hb Hw] Hc] Hi].
repeat split; try by apply is_dir_insert_file.
- unfold FS.is_file in *. destruct (decide (p = config_path project_root)) as [->|Hne].
  + unfold config_path. by rewrite lookup_node_snoc, lookup_insert_eq.
  + by rewrite lookup_node_insert_ne.
- unfold FS.is_dir in *. destruct (decide (p = index_path project_root)) as [->|Hne].
  + unfold index_path. by rewrite lookup_node_snoc, lookup_insert_eq.
  + by rewrite lookup_node_insert_ne.
Qed.

Lemma mkdir_is_dir (p : path) (fs fs' : fsys) :
FS.mkdir p fs = (Ok tt, fs') -> FS.is_dir fs' p = true /\ dirs_kept fs fs'.
Proof.
unfold FS.mkdir, dirs_kept, FS.is_dir.
destruct (FS.lookup_node fs p) as [[|c]|] eqn:Hp; [|done|].
- intros [= <-]. by rewrite Hp.
- destruct (FS.lookup_node fs (PurePath.parent p)) as [[|c]|]; try done.
  intros [= <-]. destruct p as [|x p]; [done|]. split.
  + simpl. by rewrite lookup_insert_eq.
  + intros q. destruct (decide (x :: p = q)) as [<-|Hne].
    * by rewrite Hp.
    * by rewrite lookup_node_insert_ne.
Qed.

(** A successful [initialize] leaves the store laid out. *)
Lemma initialize_layout (index_template : string -> string -> string)
  (project_name : option string) (force : bool) (now : clock) (fs fs' : fsys) :
initialize index_template project_root project_name force now fs = (Ok tt, fs') ->
Store.layout project_root fs' = true /\ is_initialized project_root fs' = true.
Proof.
intros (fs1 & fs2 & name & [Hb Hk1]%mkdir_is_dir & [Hw Hk2]%mkdir_is_dir & ->)
       %initialize_inv.
apply Hk2 in Hb.
assert (Hl : Store.layout project_root
  (<[index_path project_root := File (Text (_generate_index index_template name now))]>
     (<[config_path project_root :=
          File (JsonDoc (fresh_config name now (_detect_languages project_root fs2)))]>
        fs2)) = true).
{ unfold Store.layout. rewrite !andb_true_iff, negb_true_iff.
  rewrite !is_dir_insert_ne
    by (apply index_ne_buslog || apply config_ne_buslog || apply index_ne_workflows
        || apply config_ne_workflows).
  repeat split; try done.
  - unfold FS.is_file.
    rewrite lookup_node_insert_ne by (intros H; by apply (config_ne_index project_root)).
    unfold config_path. by rewrite lookup_node_snoc, lookup_insert_eq.
  - unfold FS.is_dir, index_path. by rewrite lookup_node_snoc, lookup_insert_eq. }
split; [done|]. revert Hl. unfold Store.layout, is_initialized, FS.is_dir, FS.is_file,
  FS.exists_at. rewrite !andb_true_iff.
intros [[[H1 H2] H3] _]. repeat split.
- by destruct (FS.lookup_node _ (buslog_path project_root)).
- by destruct (FS.lookup_node _ (config_path project_root)).
- by destruct (FS.lookup_node _ (workflows_path project_root)).
Qed.

(** [add_workflow], whatever its outcome, keeps the store laid out. *)
Lemma add_workflow_layout (workflow_template : string -> string -> string)
  (name : string) (now : clock) (fs fs' : fsys) (r : outcome path) :
Store.layout project_root fs = true ->
add_workflow workflow_template project_root name now fs = (r, fs') ->
Store.layout project_root fs' = true.
Proof.
intros Hl. unfold add_workflow.
destruct (FS.resolve fs _ _) as [e|p]; [by intros [= _ <-]|].
destruct (FS.exists_at fs p); [by intros [= _ <-]|].
unfold bind at 1.
destruct (FS.write_text p _ fs) as [r1 fs1] eqn:Hw.
apply write_text_inv in Hw as [(-> & -> & Hd & _)|(e & -> & ->)];
  [|by intros [= _ <-]].
pose proof (fun c => layout_write fs p c Hd Hl) as Hl1.
unfold bind.
destruct (_add_workflow_to_config _ _ _) as [r2 fs2] eqn:Hc.
assert (Store.layout project_root fs2 = true).
{ apply add_to_config_inv in Hc as [->|(j & _ & -> & Hcd)]; [apply Hl1|].
  apply layout_write; [done | apply Hl1]. }
destruct r2; by intros [= _ <-].
Qed.

End Layout.

(** ** Names without a path separator *)

Section FlatNames.

Lemma contains_char_cons (ch c : ascii) (s : string) :
Str.contains (String ch "") (String c s)
= Ascii.eqb ch c || Str.contains (String ch "") s.
Proof. by rewrite contains_cons, prefix_cons, prefix_nil, andb_true_r. Qed.

Lemma contains_char_app (ch : ascii) (a b : string) :
Str.contains (String ch "") (a +:+ b)
= Str.contains (String ch "") a || Str.contains (String ch "") b.
Proof.
induction a as [|c a IH]; [done|].
by rewrite app_cons_str, !contains_char_cons, IH, orb_assoc.
Qed.

Lemma split_no_slash (s : string) :
Str.contains "/" s = false -> Str.split_slash s = [s].
Proof.
induction s as [|c s IH]; [done|].
rewrite contains_char_cons. intros [Hc Hs]%orb_false_elim.
simpl. rewrite Ascii.eqb_sym, Hc. by rewrite IH.
Qed.

Lemma length_app_str (a b : string) :
String.length (a +:+ b) = String.length a + String.length b.
Proof. induction a as [|c a IH]; [done|]. rewrite app_cons_str. simpl. by rewrite IH. Qed.

Lemma endswith_refl (s : string) : Str.endswith s s = true.
Proof. destruct s; simpl; by rewrite ?String.eqb_refl, ?Ascii.eqb_refl. Qed.

Lemma endswith_app (a suf : string) : Str.endswith suf (a +:+ suf) = true.
Proof.
induction a as [|c a IH]; [apply endswith_refl|].
rewrite app_cons_str. simpl. rewrite IH. apply orb_true_r.
Qed.

Lemma eqb_short (s t : string) :
  String.length t < String.length s -> String.eqb s t = false.
Proof. intros Hlen. apply String.eqb_neq. intros ->. lia. Qed.

Lemma parse_flat (s : string) :
  Str.contains "/" s = false -> 3 <= String.length s -> PurePath.parse s = [s].
Proof.
  intros Hs Hlen. unfold PurePath.parse. rewrite split_no_slash by done.
  cbn [List.filter]. by rewrite !eqb_short by (simpl; lia).
Qed.

Lemma not_absolute (s : string) :
  Str.contains "/" s = false -> PurePath.is_absolute s = false.
Proof.
  unfold PurePath.is_absolute. destruct s as [|c s]; [done|].
  rewrite contains_char_cons, prefix_cons, prefix_nil, andb_true_r.
  by intros [? _]%orb_false_elim.
Qed.

(** The document of a flat name is an entry of the document folder. *)
Lemma resolve_flat (fs : fsys) (dir : path) (name : string) :
  Store.flat name = true ->
  FS.resolve fs dir (name +:+ ".md")
  = match FS.lookup_node fs dir with
    | Some Dir => inr (dir ++ [name +:+ ".md"])
    | Some (File _) => inl NotADirectoryError
    | None => inl FileNotFoundError
    end.
Proof.
  unfold Store.flat. rewrite negb_true_iff. intros Hflat.
  assert (Hfile : Str.contains "/" (name +:+ ".md") = false)
    by by rewrite contains_char_app, Hflat.
  assert (Hlen : 3 <= String.length (name +:+ ".md"))
    by (rewrite length_app_str; simpl; lia).
  unfold FS.resolve. rewrite not_absolute, parse_flat by done.
  cbn [FS.walk]. by rewrite eqb_short by (simpl; lia).
Qed.

Lemma occurrences_perm {A B : Type} (eqb : A -> B -> bool) (x : A) (l l' : list B) :
l ≡ₚ l' -> Store.occurrences eqb x l = Store.occurrences eqb x l'.
Proof. intros H. unfold Store.occurrences. by rewrite (lfilter_perm _ _ _ H). Qed.

Lemma occurrences_once {A B : Type} (eqb : B -> B -> bool) (f : A -> B)
  (l : list A) (x : A) :
(forall a b, eqb a b = true <-> a = b) ->
(forall y, y ∈ l -> f y = f x -> y = x) ->
NoDup l -> x ∈ l ->
Store.occurrences eqb (f x) (List.map f l) = 1.
Proof.
intros Heqb Hinj Hnd. unfold Store.occurrences.
induction Hnd as [|y l Hy Hnd IH]; [by intros ?%elem_of_nil|].
intros [Heq|Hx]%elem_of_cons; simpl.
- subst y. rewrite (proj2 (Heqb _ _) eq_refl). simpl. f_equal.
  rewrite lfilter_none; [done|].
  intros b (z & <- & Hz%list_elem_of_In)%list_elem_of_In%in_map_iff.
  destruct (eqb (f x) (f z)) eqn:E; [|done].
  apply Heqb in E. rewrite (Hinj z) in Hz; [done | by right | done].
- destruct (eqb (f x) (f y)) eqn:E.
  + apply Heqb in E. rewrite (Hinj y) in Hy; [done | by left | done].
  + apply IH; [|done]. intros z Hz. apply Hinj. by right.
Qed.

End FlatNames.

Section AddFlat.
Import WorkflowManager.
Variable workflow_template : string -> string -> string.
Variable project_root : path.

Lemma get_config_insert_other (fs : fsys) (p : path) (n : node) :
p <> config_path project_root ->
fst (get_config project_root (<[p := n]> fs)) = fst (get_config project_root fs).
Proof.
intros Hp. unfold get_config, FS.exists_at, FS.read_json.
rewrite lookup_node_insert_ne by done.
destruct (FS.lookup_node fs (config_path project_root)) as [[|[?|?|]]|]; done.
Qed.

Lemma dict_get_set {V : Type} (k : string) (v : V) (d : Dict.t V) :
Dict.get k (Dict.set k v d) = Some v.
Proof.
induction d as [|[k0 v0] d IH]; simpl; [by rewrite String.eqb_refl|].
destruct (String.eqb_spec k k0) as [->|Hne]; simpl.
- by rewrite String.eqb_refl.
- by rewrite (proj2 (String.eqb_neq k k0) Hne).
Qed.

Lemma config_array_written (fs : fsys) (members : Dict.t json) (names : list json) :
Store.config_array project_root "workflows"
  (<[config_path project_root :=
       File (JsonDoc (JObj (Dict.set "workflows" (JArr names) members)))]> fs)
= Some names.
Proof.
unfold Store.config_array, FS.read_json, config_path.
by rewrite lookup_node_snoc, lookup_insert_eq, dict_get_set.
Qed.

Lemma occurrences_is_str_snoc (name : string) (names : list json) :
Store.occurrences is_str name (names ++ [JStr name])
= S (Store.occurrences is_str name names).
Proof.
unfold Store.occurrences. rewrite List.filter_app, length_app. simpl.
rewrite String.eqb_refl. simpl. lia.
Qed.

Lemma existsb_occurrences (name : string) (names : list json) :
existsb (is_str name) names = false <-> Store.occurrences is_str name names = 0.
Proof.
unfold Store.occurrences. induction names as [|j names IH]; simpl; [done|].
destruct (is_str name j); simpl; [split; done | done].
Qed.

(** The config update leaves the identifier in the index exactly once when
  it was there at most once before. *)
Lemma add_to_config_once (name : string) (fs fs' : fsys) (names : list json) :
Store.index_entries project_root fs = Some names ->
Store.occurrences is_str name names <= 1 ->
_add_workflow_to_config project_root name fs = (Ok tt, fs') ->
exists names', Store.config_array project_root "workflows" fs' = Some names'
               /\ Store.occurrences is_str name names' = 1.
Proof.
unfold Store.index_entries, _add_workflow_to_config, bind.
destruct (get_config project_root fs) as [[config|e] fs0] eqn:Hg; [|done].
pose proof (get_config_state _ _ _ _ Hg) as ->.
destruct config as [| | | | |members]; try done.
destruct (Dict.get "workflows" members) as [[| | | |old|]|] eqn:Hget; try done.
- intros [= ->] Hle. destruct (existsb (is_str name) names) eqn:Hex.
  + intros [= <-]. exists names. split.
    * unfold Store.config_array. unfold get_config in Hg.
      destruct (negb _) eqn:Hneg.
      { injection Hg as <-. simpl in Hget. done. }
      destruct (FS.read_json fs (config_path project_root)); [|done].
      injection Hg as ->. by rewrite Hget.
    * assert (Store.occurrences is_str name names <> 0); [|lia].
      intros H0%existsb_occurrences. congruence.
  + unfold write_config.
    intros [(_ & -> & _)|(e & ? & _)]%write_text_inv; [|done].
    eexists. split; [apply config_array_written|].
    rewrite occurrences_is_str_snoc. apply existsb_occurrences in Hex. lia.
- intros [= <-] _. unfold write_config.
  intros [(_ & -> & _)|(e & ? & _)]%write_text_inv; [|done].
  eexists. split; [apply config_array_written|].
  unfold Store.occurrences. simpl. by rewrite String.eqb_refl.
Qed.

(** For a name without a path separator the claim of C6 holds: after a
  successful [add_workflow] the document is reported once by
  [list_workflows], and the identifier is in the config index once if it
  was there at most once before. *)
Lemma add_workflow_flat_once (name : string) (now : clock) (fs fs' : fsys)
  (created : path) :
Store.flat (safe_name_of name) = true ->
add_workflow workflow_template project_root name now fs = (Ok created, fs') ->
Store.occurrences String.eqb (safe_name_of name +:+ ".md")
  (List.map wf_file (list_workflows project_root fs')) = 1
/\ forall names,
    Store.index_entries project_root fs = Some names ->
    Store.occurrences is_str (safe_name_of name) names <= 1 ->
    exists names',
      Store.config_array project_root "workflows" fs' = Some names'
      /\ Store.occurrences is_str (safe_name_of name) names' = 1.
Proof.
intros Hflat (p & c & Hres & Hex & Hparent & Hcfg)%add_workflow_inv.
rewrite resolve_flat in Hres by done.
destruct (FS.lookup_node fs (workflows_path project_root)) as [[|?]|] eqn:Hdir;
  try done.
injection Hres as <-.
set (file := safe_name_of name +:+ ".md") in *.
set (doc := workflows_path project_root ++ [file]) in *.
assert (Hnd : FS.is_dir fs doc = false).
{ unfold FS.is_dir, FS.exists_at in *. by destruct (FS.lookup_node fs doc). }
assert (Hdoc_cfg : doc <> config_path project_root).
{ unfold doc. intros H. symmetry in H. revert H. path_ne. }
split.
- assert (Hin : doc ∈ FS.glob (workflows_path project_root) ".md" fs').
  { apply elem_of_glob.
    replace (PurePath.name doc) with file by (symmetry; apply name_snoc).
    assert (Hk : dirs_kept fs fs' /\ is_Some (fs' !! doc)).
    { apply add_to_config_inv in Hcfg as [->|(j & _ & -> & Hcd)].
      - split; [by apply dirs_kept_write | by rewrite lookup_insert_eq].
      - split.
        + eapply dirs_kept_trans; by apply dirs_kept_write.
        + rewrite lookup_insert_ne by done. by rewrite lookup_insert_eq. }
    destruct Hk as [Hk Hsome].
    split; [by apply Hk, is_dir_lookup|]. split; [done|].
    split; [apply is_child_iff; by exists file | apply endswith_app]. }
  rewrite (occurrences_perm _ _ _ _
             (Permutation_map wf_file (list_workflows_perm project_root fs'))).
  rewrite map_map.
  pose proof (occurrences_once String.eqb (fun p => wf_file (info_of p))
                (FS.glob (workflows_path project_root) ".md" fs') doc) as Honce.
  simpl in Honce.
  replace (PurePath.name doc) with file in Honce by (symmetry; apply name_snoc).
  apply Honce.
  + apply String.eqb_eq.
  + intros q (_ & _ & [cq ->]%is_child_iff & _)%elem_of_glob.
    rewrite name_snoc. by intros ->.
  + apply NoDup_glob.
  + done.
- intros names Hidx Hle.
  apply (add_to_config_once (safe_name_of name) (<[doc := File c]> fs) fs' names);
    [|done|done].
  unfold Store.index_entries in *.
  pose proof (get_config_insert_other fs doc (File c) Hdoc_cfg) as Hfst.
  destruct (get_config project_root (<[doc := File c]> fs)) as [r1 s1].
  destruct (get_config project_root fs) as [r2 s2]. simpl in Hfst. by subst.
Qed.

End AddFlat.

(** C6, where the code departs from it: the name is lower-cased and its
    spaces replaced, but a path separator in it is kept.  On the initialized
    sample store, [add_workflow] with the name ../x succeeds, writes x.md
    next to the document folder and appends ../x to the config, so the
    identifier is in the index once and in the output of [list_workflows]
    not at all. *)
Theorem C6_path_separator_in_name :
  let result :=
    WorkflowManager.add_workflow Sample.workflow_md Sample.root "../x" Sample.now
      Sample.initialized in
  WorkflowManager.is_initialized Sample.root Sample.initialized = true
  /\ fst result = Ok (WorkflowManager.workflows_path Sample.root ++ [".."; "x.md"])
  /\ snd result !! (WorkflowManager.buslog_path Sample.root ++ ["x.md"])
     = Some (File (Text (Sample.workflow_md "../X" "2024-05-01")))
  /\ Store.config_array Sample.root "workflows" (snd result) = Some [JStr "../x"]
  /\ WorkflowManager.list_workflows Sample.root (snd result) = [].
Proof. by vm_compute. Qed.

(** C7, the claim as stated, fails: /srv/latest contains no exclusion marker,
    but its text contains test, so every file counts as a test file. *)
Lemma C7_counterexample :
  let root := ["srv"; "latest"] in
  let fs := Scenario.at_root root (Scenario.tree (Text "") (Text "") (Text "")) in
  CodeAnalyzer._is_excluded root = false
  /\ FS.rglob root "" fs
     = [root ++ ["tests"; "c.py"]; root ++ ["a.py"]; root ++ ["tests"]; root ++ ["b.js"]]
  /\ CodeAnalyzer._count_files root fs = mk_counts 3 3 3 0.
Proof. by vm_compute. Qed.

(** ** The theorems at sample inputs *)

Lemma outcome_pair {A : Type} (r : outcome A * fsys) (o : outcome A) :
  fst r = o -> r = (o, snd r).
Proof. destruct r as [o' fs]. simpl. by intros ->. Qed.

Lemma C1_witness :
  Sample.two_mains !! (Sample.root ++ ["a.py"])
  = Some (File (Text "def main(argv): return 0;  def main(): return main(None)"))
  /\ length (List.filter (fun hit => bool_decide (hit.1 = Sample.root ++ ["a.py"]))
               (CodeAnalyzer._search_pattern_in_files Sample.root Sample.two_mains
                  (Re.Lit "def main(")))
     = length (Re.finditer (Re.Lit "def main(")
                 "def main(argv): return 0;  def main(): return main(None)").
Proof.
  split; [by vm_compute|].
  apply (proj1 (C1_every_match_is_a_record Sample.root Sample.two_mains)
           (Re.Lit "def main(") (Sample.root ++ ["a.py"])
           (Text "def main(argv): return 0;  def main(): return main(None)"));
    by vm_compute.
Defined.


Lemma C4_witness :
  Store.layout Sample.root Sample.with_workflow = true
  /\ exists fs' name,
      WorkflowManager.initialize Sample.index_md Sample.root None true Sample.now
        Sample.with_workflow = (Ok tt, fs')
      /\ WorkflowManager.get_config Sample.root fs'
         = (Ok (WorkflowManager.fresh_config name Sample.now
                  (WorkflowManager._detect_languages Sample.root Sample.with_workflow)),
            fs')
      /\ Store.config_array Sample.root "workflows" fs' = Some []
      /\ forall p,
          FS.is_descendant (WorkflowManager.workflows_path Sample.root) p = true ->
          fs' !! p = Sample.with_workflow !! p.
Proof.
  split; [by vm_compute|].
  apply (C4_force_initialize Sample.index_md Sample.root None Sample.now
           Sample.with_workflow).
  by vm_compute.
Defined.

Lemma C7_witness :
  CodeAnalyzer._is_excluded Sample.root = false
  /\ Str.contains "test" (Str.lower (PurePath.str Sample.root)) = false
  /\ CodeAnalyzer._count_files Sample.root
       (Scenario.at_root Sample.root (Scenario.tree (Text "x = 1") (Text "y = 2") Undecodable))
     = mk_counts 3 3 1 0
  /\ CodeAnalyzer._detect_languages Sample.root
       (Scenario.at_root Sample.root (Scenario.tree (Text "x = 1") (Text "y = 2") Undecodable))
     = ["Python"; "JavaScript"].
Proof.
  assert (H1 : CodeAnalyzer._is_excluded Sample.root = false) by (vm_compute; reflexivity).
  assert (H2 : Str.contains "test" (Str.lower (PurePath.str Sample.root)) = false)
    by (vm_compute; reflexivity).
  pose proof (C7_three_file_scenario Sample.root (Text "x = 1") (Text "y = 2") Undecodable
                _ (mounted_at_root _ _) H1 H2) as (Hc & Hl & _).
  split; [exact H1|]. split; [exact H2|]. split; [exact Hc | exact Hl].
Defined.

Lemma C8_witness :
  WorkflowManager.safe_name_of "User Authentication"
  = WorkflowManager.safe_name_of "user-authentication"
  /\ WorkflowManager.add_workflow Sample.workflow_md Sample.root "User Authentication"
       Sample.now Sample.initialized
     = (Ok (WorkflowManager.workflows_path Sample.root ++ ["user-authentication.md"]),
        Sample.with_workflow)
  /\ WorkflowManager.add_workflow Sample.workflow_md Sample.root "user-authentication"
       Sample.now Sample.with_workflow
     = (Raise (WorkflowAlreadyExists "user-authentication"), Sample.with_workflow).
Proof.
  assert (Hsame : WorkflowManager.safe_name_of "User Authentication"
                  = WorkflowManager.safe_name_of "user-authentication")
    by (vm_compute; reflexivity).
  assert (Hfirst :
    WorkflowManager.add_workflow Sample.workflow_md Sample.root "User Authentication"
      Sample.now Sample.initialized
    = (Ok (WorkflowManager.workflows_path Sample.root ++ ["user-authentication.md"]),
       Sample.with_workflow))
    by (apply outcome_pair; vm_compute; reflexivity).
  split; [exact Hsame|]. split; [exact Hfirst|].
  exact (C8_add_workflow_twice Sample.workflow_md Sample.root "User Authentication"
           "user-authentication" Sample.now Sample.now Sample.initialized
           Sample.with_workflow _ Hsame Hfirst).
Defined.

Lemma C9_witness :
  WorkflowManager.is_initialized Sample.root Sample.initialized = true
  /\ WorkflowManager.initialize Sample.index_md Sample.root None false Sample.now
       Sample.initialized
     = (Raise AlreadyInitialized, Sample.initialized).
Proof.
  split; [by vm_compute|].
  apply C9_initialize_without_force. by vm_compute.
Defined.

Lemma C10_witness :
  CodeAnalyzer._is_excluded ["opt"; "build"; "shop"] = true
  /\ CodeAnalyzer._count_files ["opt"; "build"; "shop"]
       (Scenario.at_root ["opt"; "build"; "shop"]
          (Scenario.tree (Text "x = 1") (Text "y = 2") (Text "z = 3")))
     = mk_counts 0 0 0 0.
Proof.
  split; [by vm_compute|].
  apply (proj2 (proj2 (proj2 (proj2 C10_exclusion_by_substring)))).
  by vm_compute.
Defined.

(** * Further properties of the code *)

(** ** Framework detection *)

Lemma search_files_iff (fs : fsys) (patterns : list string) (files : list path) :
  CodeAnalyzer.search_files fs patterns files = true <->
  exists file content pattern,
    file ∈ files /\ CodeAnalyzer.scanned fs file = true
    /\ FS.read_text fs file = Ok content
    /\ pattern ∈ patterns /\ Str.contains pattern content = true.
Proof.
  induction files as [|f files IH]; simpl.
  - split; [discriminate|]. intros (file & ? & ? & Hin & _). inversion Hin.
  - destruct (CodeAnalyzer.scanned fs f) eqn:Hs.
    + destruct (FS.read_text fs f) as [content|e] eqn:Hr.
      * destruct (existsb _ patterns) eqn:Hex.
        -- split; [intros _|reflexivity].
           apply existsb_exists in Hex as (pattern & Hin & Hc).
           exists f, content, pattern. repeat split; try assumption.
           ++ left.
           ++ now apply list_elem_of_In.
        -- rewrite IH. split.
           ++ intros (file & c & p & Hin & H). exists file, c, p. split; [now right|exact H].
           ++ intros (file & c & p & Hin & Hsc & Hrd & Hp & Hc).
              apply elem_of_cons in Hin as [->|Hin].
              ** rewrite Hr in Hrd. injection Hrd as <-.
                 assert (existsb (fun pattern => Str.contains pattern content) patterns = true)
                   as Hex'.
                 { apply existsb_exists. exists p. split; [now apply list_elem_of_In|exact Hc]. }
                 congruence.
              ** exists file, c, p. auto.
      * rewrite IH. split.
        -- intros (file & c & p & Hin & H). exists file, c, p. split; [now right|exact H].
        -- intros (file & c & p & Hin & Hsc & Hrd & H).
           apply elem_of_cons in Hin as [->|Hin]; [congruence|].
           exists file, c, p. auto.
    + rewrite IH. split.
      * intros (file & c & p & Hin & H). exists file, c, p. split; [now right|exact H].
      * intros (file & c & p & Hin & Hsc & H).
        apply elem_of_cons in Hin as [->|Hin]; [congruence|].
        exists file, c, p. auto.
Qed.

(** A scanned, readable file below the root, as the file system has it. *)
Lemma scanned_readable (project_root : path) (fs : fsys) (file : path) (text : string) :
  (file ∈ FS.rglob project_root "" fs /\ CodeAnalyzer.scanned fs file = true
   /\ FS.read_text fs file = Ok text) <->
  exists c, fs !! file = Some (File c)
            /\ FS.is_descendant project_root file = true
            /\ CodeAnalyzer._is_excluded file = false
            /\ FS.decode c = Ok text.
Proof.
  split.
  - intros (Hin & Hs & Hr).
    apply elem_of_rglob in Hin as (Hsome & Hd & _).
    apply scanned_not_excluded in Hs as (Hf & Hx).
    apply is_descendant_iff in Hd as Hd'. destruct Hd' as (c0 & rel & ->).
    unfold FS.is_file, FS.read_text in *.
    assert (FS.lookup_node fs (project_root ++ c0 :: rel) = fs !! (project_root ++ c0 :: rel))
      as Hl by (destruct project_root; reflexivity).
    rewrite Hl in *.
    destruct (fs !! (project_root ++ c0 :: rel)) as [[|c]|]; try discriminate.
    exists c. auto.
  - intros (c & Hl & Hd & Hx & Hdec).
    apply is_descendant_iff in Hd as Hd'. destruct Hd' as (c0 & rel & ->).
    assert (FS.lookup_node fs (project_root ++ c0 :: rel) = Some (File c)) as Hn.
    { rewrite <- Hl. destruct project_root; reflexivity. }
    split; [|split].
    + apply elem_of_rglob. rewrite Hl. split; [eauto|]. split; [exact Hd|apply endswith_nil].
    + unfold CodeAnalyzer.scanned, FS.is_file. rewrite Hn, Hx. reflexivity.
    + unfold FS.read_text. rewrite Hn. exact Hdec.
Qed.

(** X1: the presence test answers true exactly when some regular file below
    the root that no exclusion marker hits and that decodes holds one of the
    indicator texts as a substring. *)
Theorem search_patterns_iff (project_root : path) (fs : fsys) (patterns : list string) :
  CodeAnalyzer._search_patterns project_root fs patterns = true <->
  exists (file : path) (c : content) (text pattern : string),
    fs !! file = Some (File c)
    /\ FS.is_descendant project_root file = true
    /\ CodeAnalyzer._is_excluded file = false
    /\ FS.decode c = Ok text
    /\ pattern ∈ patterns
    /\ exists a b, text = a +:+ pattern +:+ b.
Proof.
  unfold CodeAnalyzer._search_patterns. rewrite search_files_iff. split.
  - intros (file & text & pattern & Hin & Hs & Hr & Hp & Hc).
    destruct (proj1 (scanned_readable project_root fs file text)) as (c & H1 & H2 & H3 & H4);
      [auto|].
    exists file, c, text, pattern. repeat split; try assumption.
    now apply contains_iff.
  - intros (file & c & text & pattern & H1 & H2 & H3 & H4 & Hp & Hc).
    destruct (proj2 (scanned_readable project_root fs file text)) as (Hin & Hs & Hr);
      [eauto|].
    exists file, text, pattern. repeat split; try assumption.
    now apply contains_iff.
Qed.

Lemma fold_left_filter_map {A B : Type} (keep : A -> bool) (g : A -> B) (l : list A)
    (acc : list B) :
  fold_left (fun acc x => if keep x then acc ++ [g x] else acc) l acc
  = acc ++ List.map g (List.filter keep l).
Proof.
  revert acc. induction l as [|x l IH]; intros acc; simpl.
  - now rewrite app_nil_r.
  - rewrite IH. destruct (keep x); simpl; [now rewrite <- app_assoc|reflexivity].
Qed.

Lemma detect_frameworks_filter (project_root : path) (fs : fsys) :
  CodeAnalyzer._detect_frameworks project_root fs
  = List.map fst
      (List.filter (fun entry => CodeAnalyzer._search_patterns project_root fs (snd entry))
         CodeAnalyzer.indicators).
Proof.
  unfold CodeAnalyzer._detect_frameworks.
  rewrite <- (app_nil_l (List.map _ _)), <- fold_left_filter_map.
  apply fold_left_ext_in. intros [fw pats] acc _. reflexivity.
Qed.

Lemma sublist_map_filter {A B : Type} (keep : A -> bool) (g : A -> B) (l : list A) :
  sublist (List.map g (List.filter keep l)) (List.map g l).
Proof.
  induction l as [|x l IH]; simpl; [constructor|].
  destruct (keep x); simpl; [now apply sublist_skip|now apply sublist_cons].
Qed.

(** X2: the detected frameworks come in the order of the indicator table,
    each at most once, and a framework is detected exactly when one of its
    indicator texts occurs literally in a scanned, decodable file. *)
Theorem detect_frameworks_spec (project_root : path) (fs : fsys) :
  sublist (CodeAnalyzer._detect_frameworks project_root fs)
    (List.map fst CodeAnalyzer.indicators)
  /\ NoDup (CodeAnalyzer._detect_frameworks project_root fs)
  /\ forall framework : string,
      framework ∈ CodeAnalyzer._detect_frameworks project_root fs <->
      exists (indicator_texts : list string) (file : path) (c : content)
             (text pattern : string),
        (framework, indicator_texts) ∈ CodeAnalyzer.indicators
        /\ fs !! file = Some (File c)
        /\ FS.is_descendant project_root file = true
        /\ CodeAnalyzer._is_excluded file = false
        /\ FS.decode c = Ok text
        /\ pattern ∈ indicator_texts
        /\ exists a b, text = a +:+ pattern +:+ b.
Proof.
  rewrite detect_frameworks_filter.
  assert (sublist
            (List.map fst
               (List.filter
                  (fun entry => CodeAnalyzer._search_patterns project_root fs (snd entry))
                  CodeAnalyzer.indicators))
            (List.map fst CodeAnalyzer.indicators)) as Hsub
    by apply sublist_map_filter.
  split; [exact Hsub|]. split.
  - eapply sublist_NoDup; [|exact Hsub].
    apply NoDup_ListNoDup. repeat constructor; simpl; intuition discriminate.
  - intros framework. split.
    + intros Hin. apply list_elem_of_In, in_map_iff in Hin as ([fw pats] & Heq & Hin).
      simpl in Heq. subst fw.
      apply filter_In in Hin as (Hin & Hs). simpl in Hs.
      apply search_patterns_iff in Hs as (file & c & text & pattern & H).
      exists pats, file, c, text, pattern. split; [now apply list_elem_of_In|exact H].
    + intros (pats & file & c & text & pattern & Hin & H).
      apply list_elem_of_In, in_map_iff. exists (framework, pats). split; [reflexivity|].
      apply filter_In. split; [now apply list_elem_of_In|]. simpl.
      apply search_patterns_iff. exists file, c, text, pattern. exact H.
Qed.

(** ** File counts *)

Lemma suffix_lists_disjoint (s : string) :
  existsb (String.eqb s) CodeAnalyzer.source_suffixes = true ->
  existsb (String.eqb s) CodeAnalyzer.config_suffixes = false.
Proof.
  intros H. apply existsb_exists in H as (s' & Hin & Heq).
  apply String.eqb_eq in Heq. subst s'.
  simpl in Hin. intuition (subst; reflexivity).
Qed.

Lemma count_file_step (fs : fsys) (counts : file_counts) (file : path) :
  let result := CodeAnalyzer.count_file fs counts file in
  let k := if CodeAnalyzer.scanned fs file then 1 else 0 in
  total result = total counts + k
  /\ source result + config result <= source counts + config counts + k
  /\ test result <= test counts + k.
Proof.
  unfold CodeAnalyzer.count_file.
  destruct (CodeAnalyzer.scanned fs file); cbn [total source test config]; [|lia].
  pose proof (suffix_lists_disjoint (PurePath.suffix file)) as Hdisj.
  unfold CodeAnalyzer.bump.
  destruct (existsb _ CodeAnalyzer.source_suffixes);
    [rewrite (Hdisj eq_refl)|];
    destruct (existsb _ CodeAnalyzer.config_suffixes);
    destruct (_ || _); lia.
Qed.

Lemma count_files_from (fs : fsys) (files : list path) (counts : file_counts) :
  let result := fold_left (CodeAnalyzer.count_file fs) files counts in
  let n := length (List.filter (CodeAnalyzer.scanned fs) files) in
  total result = total counts + n
  /\ source result + config result <= source counts + config counts + n
  /\ test result <= test counts + n.
Proof.
  revert counts. induction files as [|f files IH]; intros counts;
    cbn [fold_left List.filter].
  - cbn [length]. lia.
  - specialize (IH (CodeAnalyzer.count_file fs counts f)).
    pose proof (count_file_step fs counts f) as Hs.
    cbv zeta in IH, Hs |- *.
    destruct (CodeAnalyzer.scanned fs f); cbn [length]; lia.
Qed.

(** X3: [total] counts every regular, non-excluded file below the root once;
    no category exceeds it, and since no suffix is both a source and a
    config suffix, source and config files together do not exceed it
    either. *)
Theorem count_files_bounds (project_root : path) (fs : fsys) :
  let counts := CodeAnalyzer._count_files project_root fs in
  total counts
  = length (List.filter (CodeAnalyzer.scanned fs) (FS.rglob project_root "" fs))
  /\ source counts + config counts <= total counts
  /\ test counts <= total counts.
Proof.
  pose proof (count_files_from fs (FS.rglob project_root "" fs) (mk_counts 0 0 0 0)) as H.
  cbv zeta in H |- *. unfold CodeAnalyzer._count_files.
  cbn [total source test config] in H. lia.
Qed.

(** ** What a match is *)

Lemma strip_app (lit s rest : string) : Re.strip lit s = Some rest -> s = lit +:+ rest.
Proof.
  revert s. induction lit as [|a lit IH]; intros s; simpl.
  - intros [= ->]. reflexivity.
  - destruct s as [|b s]; [discriminate|].
    destruct (Ascii.eqb_spec a b) as [->|]; [|discriminate].
    intros H. rewrite app_cons_str. f_equal. now apply IH.
Qed.

Lemma plus_ends_suffix (negated : bool) (cs : list ascii) (s rest : string) :
  rest ∈ Re.plus_ends negated cs s -> exists m, m <> "" /\ s = m +:+ rest.
Proof.
  revert rest. induction s as [|c s IH]; intros rest; simpl.
  - intros H. inversion H.
  - destruct (Re.in_class negated cs c); [|intros H; inversion H].
    intros H. apply elem_of_app in H as [H|H].
    + destruct (IH _ H) as (m & _ & ->). exists (String c m). split; [discriminate|].
      now rewrite app_cons_str.
    + apply list_elem_of_singleton in H as ->. exists (String c ""). split; [discriminate|].
      reflexivity.
Qed.

Lemma app_empty_str (a b : string) : a +:+ b = "" -> a = "" /\ b = "".
Proof. destruct a; [rewrite app_nil_str; auto|rewrite app_cons_str; discriminate]. Qed.

Lemma ends_suffix (r : Re.regex) (s rest : string) :
  rest ∈ Re.ends r s ->
  exists m, s = m +:+ rest /\ (CodeAnalyzer.consumes r = true -> m <> "").
Proof.
  revert s rest. induction r as [l|neg cs|neg cs|r1 IH1 r2 IH2|r1 IH1 r2 IH2|r IH];
    intros s rest; simpl.
  - destruct (Re.strip l s) as [rest'|] eqn:Hs; [|intros H; inversion H].
    intros H. apply list_elem_of_singleton in H as ->.
    exists l. split; [now apply strip_app|].
    destruct (String.eqb_spec l ""); [discriminate|auto].
  - destruct s as [|c s]; [intros H; inversion H|].
    destruct (Re.in_class neg cs c); [|intros H; inversion H].
    intros H. apply list_elem_of_singleton in H as ->.
    exists (String c ""). split; [reflexivity|discriminate].
  - intros H. destruct (plus_ends_suffix _ _ _ _ H) as (m & Hm & ->). exists m. auto.
  - intros H. apply list_elem_of_In, in_flat_map in H as (mid & H1 & H2).
    apply list_elem_of_In in H1, H2.
    destruct (IH1 _ _ H1) as (m1 & -> & Hc1). destruct (IH2 _ _ H2) as (m2 & -> & Hc2).
    exists (m1 +:+ m2). split; [now rewrite app_assoc_str|].
    intros Hc Hempty. apply app_empty_str in Hempty as [-> ->].
    apply orb_true_iff in Hc as [Hc|Hc]; [now apply Hc1|now apply Hc2].
  - intros H. apply elem_of_app in H as [H|H].
    + destruct (IH1 _ _ H) as (m & -> & Hc). exists m. split; [reflexivity|].
      intros Hc'. apply andb_true_iff in Hc' as [? ?]. auto.
    + destruct (IH2 _ _ H) as (m & -> & Hc). exists m. split; [reflexivity|].
      intros Hc'. apply andb_true_iff in Hc' as [? ?]. auto.
  - apply IH.
Qed.

Lemma substring_prefix (m rest : string) :
  String.substring 0 (String.length (m +:+ rest) - String.length rest) (m +:+ rest) = m.
Proof.
  rewrite length_app_str.
  replace (String.length m + String.length rest - String.length rest)
    with (String.length m) by lia.
  induction m as [|c m IH].
  - rewrite app_nil_str. destruct rest; reflexivity.
  - rewrite app_cons_str. simpl. now rewrite IH.
Qed.

Lemma match_at_prefix (r : Re.regex) (s m : string) :
  Re.match_at r s = Some m ->
  exists rest, s = m +:+ rest /\ (CodeAnalyzer.consumes r = true -> m <> "").
Proof.
  unfold Re.match_at. destruct (Re.ends r s) as [|rest l] eqn:He; [discriminate|].
  intros [= <-].
  destruct (ends_suffix r s rest) as (m & -> & Hc); [rewrite He; left|].
  rewrite substring_prefix. eauto.
Qed.

Lemma finditer_from_sound (r : Re.regex) (s : string) (skip : nat) (m : string) :
  m ∈ Re.finditer_from r skip s ->
  (exists a b, s = a +:+ m +:+ b) /\ (CodeAnalyzer.consumes r = true -> m <> "").
Proof.
  revert skip. induction s as [|c s IH]; intros skip.
  - destruct skip as [|k]; cbn [Re.finditer_from]; [|intros H; inversion H].
    destruct (Re.match_at r "") as [m'|] eqn:Hm; [|intros H; inversion H].
    intros H. apply list_elem_of_singleton in H as ->.
    destruct (match_at_prefix _ _ _ Hm) as (rest & Hs & Hc).
    split; [|exact Hc]. exists "", rest. now rewrite app_nil_str.
  - assert (forall k, m ∈ Re.finditer_from r k s ->
              (exists a b, String c s = a +:+ m +:+ b)
              /\ (CodeAnalyzer.consumes r = true -> m <> "")) as Hrest.
    { intros k H. destruct (IH _ H) as ((a & b & ->) & Hc). split; [|exact Hc].
      exists (String c a), b. now rewrite app_cons_str. }
    destruct skip as [|k]; cbn [Re.finditer_from]; [|apply Hrest].
    destruct (Re.match_at r (String c s)) as [m'|] eqn:Hm; [|apply Hrest].
    intros H. apply elem_of_cons in H as [->|H]; [|eapply Hrest; exact H].
    destruct (match_at_prefix _ _ _ Hm) as (rest & Hs & Hc).
    split; [|exact Hc]. exists "", rest. now rewrite app_nil_str.
Qed.

(** X4: every entry-point record is backed by the code base: its type and
    pattern are a row of the pattern table, its file is a regular,
    non-excluded, decodable file below the root, named relative to the
    root, and its match is a non-empty piece of that file's text. *)
Theorem find_entry_points_sound (project_root : path) (fs : fsys) (e : entry_point) :
  e ∈ CodeAnalyzer._find_entry_points project_root fs ->
  exists (pattern_list : list Re.regex) (pattern : Re.regex) (file : path) (c : content)
         (text : string),
    (ep_type e, pattern_list) ∈ CodeAnalyzer.patterns
    /\ pattern ∈ pattern_list
    /\ fs !! file = Some (File c)
    /\ FS.is_descendant project_root file = true
    /\ CodeAnalyzer._is_excluded file = false
    /\ FS.decode c = Ok text
    /\ ep_file e = CodeAnalyzer.relative_str project_root file
    /\ ep_match e ∈ Re.finditer pattern text
    /\ ep_match e <> ""
    /\ exists a b, text = a +:+ ep_match e +:+ b.
Proof.
  rewrite entry_points_as_flat_map. intros H.
  apply list_elem_of_In, in_flat_map in H as ([entry_type pattern_list] & Hg & H).
  apply in_flat_map in H as (pattern & Hp & H).
  apply in_map_iff in H as ([file m] & <- & H). cbn [fst snd ep_type ep_file ep_match].
  rewrite search_as_flat_map in H.
  apply in_flat_map in H as (file' & Hin & H).
  destruct (CodeAnalyzer.scanned fs file') eqn:Hs; [|destruct H].
  destruct (FS.read_text fs file') as [text|] eqn:Hr; [|destruct H].
  apply in_map_iff in H as (m' & [= <- <-] & Hm).
  destruct (proj1 (scanned_readable project_root fs file' text)) as (c & H1 & H2 & H3 & H4).
  { split; [now apply list_elem_of_In|auto]. }
  apply list_elem_of_In in Hm.
  destruct (finditer_from_sound pattern text 0 m' Hm) as (Hsub & Hne).
  exists pattern_list, pattern, file', c, text.
  repeat split; try assumption; try (now apply list_elem_of_In).
  apply Hne.
  assert (forallb (fun g : string * list Re.regex => forallb CodeAnalyzer.consumes (snd g))
            CodeAnalyzer.patterns = true) as Hall by reflexivity.
  rewrite forallb_forall in Hall. specialize (Hall _ Hg). cbn [snd] in Hall.
  rewrite forallb_forall in Hall. now apply Hall.
Qed.

Lemma find_entry_points_sound_witness :
  mk_entry_point "CLI Command" "a.py" "def main("
  ∈ CodeAnalyzer._find_entry_points Sample.root Sample.project
  /\ exists (pattern_list : list Re.regex) (pattern : Re.regex) (file : path) (c : content)
         (text : string),
    ("CLI Command", pattern_list) ∈ CodeAnalyzer.patterns
    /\ pattern ∈ pattern_list
    /\ Sample.project !! file = Some (File c)
    /\ FS.is_descendant Sample.root file = true
    /\ CodeAnalyzer._is_excluded file = false
    /\ FS.decode c = Ok text
    /\ "a.py" = CodeAnalyzer.relative_str Sample.root file
    /\ "def main(" ∈ Re.finditer pattern text
    /\ "def main(" <> ""
    /\ exists a b, text = a +:+ "def main(" +:+ b.
Proof.
  assert (mk_entry_point "CLI Command" "a.py" "def main("
          ∈ CodeAnalyzer._find_entry_points Sample.root Sample.project) as Hin.
  { apply list_elem_of_In. vm_compute. tauto. }
  split; [exact Hin|].
  exact (find_entry_points_sound Sample.root Sample.project _ Hin).
Defined.

(** ** The whole analysis *)

Lemma lfilter_nil_inv {A : Type} (f : A -> bool) (l : list A) (x : A) :
  List.filter f l = [] -> x ∈ l -> f x = false.
Proof.
  intros Hnil Hin. destruct (f x) eqn:Hf; [|reflexivity].
  assert (x ∈ List.filter f l) as H by (apply elem_of_lfilter; auto).
  rewrite Hnil in H. inversion H.
Qed.

Lemma flat_map_nil {A B : Type} (g : A -> list B) (l : list A) :
  (forall x, x ∈ l -> g x = []) -> flat_map g l = [].
Proof.
  induction l as [|x l IH]; intros H; simpl; [reflexivity|].
  rewrite (H x) by left. apply IH. intros y Hy. apply H. now right.
Qed.

(** X5: when the file count is zero, that is when no regular, non-excluded
    file lies below the root, the analysis reports no framework and no
    entry point. *)
Theorem analyze_structure_nothing_scanned (project_root : path) (fs : fsys) :
  total (CodeAnalyzer.st_file_count (CodeAnalyzer.analyze_structure project_root fs)) = 0 ->
  CodeAnalyzer.st_frameworks (CodeAnalyzer.analyze_structure project_root fs) = []
  /\ CodeAnalyzer.st_entry_points (CodeAnalyzer.analyze_structure project_root fs) = [].
Proof.
  cbn [CodeAnalyzer.analyze_structure CodeAnalyzer.st_file_count
       CodeAnalyzer.st_frameworks CodeAnalyzer.st_entry_points].
  intros Hz.
  destruct (count_files_bounds project_root fs) as (Ht & _). cbv zeta in Ht.
  rewrite Hz in Ht. symmetry in Ht. apply length_zero_iff_nil in Ht.
  assert (forall file, file ∈ FS.rglob project_root "" fs ->
                       CodeAnalyzer.scanned fs file = false) as Hnone.
  { intros file. now apply lfilter_nil_inv. }
  split.
  - rewrite detect_frameworks_filter. rewrite lfilter_none; [reflexivity|].
    intros [fw pats] _. cbn [snd].
    destruct (CodeAnalyzer._search_patterns project_root fs pats) eqn:Hs; [|reflexivity].
    apply search_files_iff in Hs as (file & ? & ? & Hin & Hsc & _).
    rewrite (Hnone _ Hin) in Hsc. discriminate.
  - rewrite entry_points_as_flat_map.
    apply flat_map_nil. intros group _. apply flat_map_nil. intros pattern _.
    rewrite search_as_flat_map, flat_map_nil; [reflexivity|].
    intros file Hin. now rewrite (Hnone _ Hin).
Qed.

Lemma analyze_structure_nothing_scanned_witness :
  total (CodeAnalyzer.st_file_count
           (CodeAnalyzer.analyze_structure Sample.root Sample.vendored)) = 0
  /\ CodeAnalyzer.st_frameworks (CodeAnalyzer.analyze_structure Sample.root Sample.vendored)
     = []
  /\ CodeAnalyzer.st_entry_points (CodeAnalyzer.analyze_structure Sample.root Sample.vendored)
     = [].
Proof.
  assert (total (CodeAnalyzer.st_file_count
                   (CodeAnalyzer.analyze_structure Sample.root Sample.vendored)) = 0) as H
    by (vm_compute; reflexivity).
  split; [exact H|].
  exact (analyze_structure_nothing_scanned Sample.root Sample.vendored H).
Defined.

(** ** The prompt generator's entry points *)

(** The file the loop for one keyword stops at. *)
Lemma scan_keyword_find (project_root : path) (fs : fsys) (pattern_name keyword : string)
    (files : list path) (entry_points : list prompt_entry) :
  PromptGenerator.scan_keyword project_root fs pattern_name keyword files entry_points
  = entry_points ++
    match
      List.find
        (fun file =>
           PromptGenerator.eligible fs file
           && match FS.read_text fs file with
              | Ok content => Str.contains keyword content
              | Raise _ => false
              end)
        files
    with
    | Some file =>
        [{| pe_type := pattern_name;
            pe_file := CodeAnalyzer.relative_str project_root file;
            pe_pattern := keyword |}]
    | None => []
    end.
Proof.
  induction files as [|f files IH]; simpl.
  - now rewrite app_nil_r.
  - destruct (PromptGenerator.eligible fs f); simpl; [|exact IH].
    destruct (FS.read_text fs f) as [content|]; [|exact IH].
    destruct (Str.contains keyword content); [reflexivity|exact IH].
Qed.

Lemma detect_entry_points_flat_map (project_root : path) (fs : fsys) :
  PromptGenerator._detect_entry_points project_root fs
  = flat_map
      (fun row : string * list string =>
         flat_map
           (fun keyword =>
              PromptGenerator.scan_keyword project_root fs (fst row) keyword
                (FS.rglob project_root ".py" fs) [])
           (snd row))
      PromptGenerator.patterns.
Proof.
  unfold PromptGenerator._detect_entry_points.
  rewrite <- (app_nil_l (flat_map _ _)), <- fold_left_app_flat_map.
  apply fold_left_ext_in. intros [pattern_name keywords] acc _. cbn [fst snd].
  rewrite <- fold_left_app_flat_map.
  apply fold_left_ext_in. intros keyword acc' _.
  rewrite scan_keyword_find, (scan_keyword_find _ _ _ _ _ []). reflexivity.
Qed.

Lemma sublist_flat_map {A B : Type} (f g : A -> list B) (l : list A) :
  (forall x, sublist (f x) (g x)) -> sublist (flat_map f l) (flat_map g l).
Proof.
  intros H. induction l as [|x l IH]; simpl; [constructor|].
  now apply sublist_app.
Qed.

Lemma map_flat_map {A B C : Type} (h : B -> C) (f : A -> list B) (l : list A) :
  List.map h (flat_map f l) = flat_map (fun x => List.map h (f x)) l.
Proof.
  induction l as [|x l IH]; simpl; [reflexivity|]. now rewrite map_app, IH.
Qed.

Lemma map_as_flat_map {A B : Type} (f : A -> B) (l : list A) :
  List.map f l = flat_map (fun x => [f x]) l.
Proof. induction l as [|x l IH]; simpl; [reflexivity|now rewrite IH]. Qed.

(** A Python file the keyword search looks into, as the file system has it. *)
Lemma eligible_readable (project_root : path) (fs : fsys) (file : path) (text : string) :
  (file ∈ FS.rglob project_root ".py" fs /\ PromptGenerator.eligible fs file = true
   /\ FS.read_text fs file = Ok text) <->
  exists c, fs !! file = Some (File c)
            /\ FS.is_descendant project_root file = true
            /\ Str.endswith ".py" (PurePath.name file) = true
            /\ Str.contains ".venv" (PurePath.str file) = false
            /\ FS.decode c = Ok text.
Proof.
  unfold PromptGenerator.eligible. split.
  - intros (Hin & He & Hr).
    apply elem_of_rglob in Hin as (Hsome & Hd & Hsuf).
    apply andb_true_iff in He as (Hf & Hv). apply negb_true_iff in Hv.
    apply is_descendant_iff in Hd as Hd'. destruct Hd' as (c0 & rel & ->).
    unfold FS.is_file, FS.read_text in *.
    assert (FS.lookup_node fs (project_root ++ c0 :: rel) = fs !! (project_root ++ c0 :: rel))
      as Hl by (destruct project_root; reflexivity).
    rewrite Hl in *.
    destruct (fs !! (project_root ++ c0 :: rel)) as [[|c]|]; try discriminate.
    exists c. auto.
  - intros (c & Hl & Hd & Hsuf & Hv & Hdec).
    apply is_descendant_iff in Hd as Hd'. destruct Hd' as (c0 & rel & ->).
    assert (FS.lookup_node fs (project_root ++ c0 :: rel) = Some (File c)) as Hn.
    { rewrite <- Hl. destruct project_root; reflexivity. }
    split; [|split].
    + apply elem_of_rglob. rewrite Hl. eauto.
    + unfold FS.is_file. rewrite Hn, Hv. reflexivity.
    + unfold FS.read_text. rewrite Hn. exact Hdec.
Qed.

(** The records follow the keyword table. *)
Lemma detect_entry_points_table (project_root : path) (fs : fsys) :
  sublist
    (List.map (fun e => (pe_type e, pe_pattern e))
       (PromptGenerator._detect_entry_points project_root fs))
    (flat_map (fun row => List.map (pair (fst row)) (snd row)) PromptGenerator.patterns).
Proof.
  rewrite detect_entry_points_flat_map.
  rewrite map_flat_map. apply sublist_flat_map. intros [pattern_name keywords].
  cbn [fst snd]. rewrite map_flat_map.
  rewrite (map_as_flat_map (pair pattern_name)).
  apply sublist_flat_map. intros keyword.
  rewrite scan_keyword_find, app_nil_l.
  destruct (List.find _ _); simpl; [reflexivity|apply sublist_nil_l].
Qed.

(** X6: the keyword search yields at most one record per keyword for the
    whole tree, in table order (so at most 19 records): a keyword has a
    record exactly when some regular, decodable Python file below the root
    whose path does not hold .venv contains it, and the record names one
    such file. *)
Theorem detect_entry_points_spec (project_root : path) (fs : fsys) :
  let found := PromptGenerator._detect_entry_points project_root fs in
  let holds (keyword : string) (file : path) :=
    exists (c : content) (text : string),
      fs !! file = Some (File c)
      /\ FS.is_descendant project_root file = true
      /\ Str.endswith ".py" (PurePath.name file) = true
      /\ Str.contains ".venv" (PurePath.str file) = false
      /\ FS.decode c = Ok text
      /\ Str.contains keyword text = true in
  sublist (List.map (fun e => (pe_type e, pe_pattern e)) found)
    (flat_map (fun row => List.map (pair (fst row)) (snd row)) PromptGenerator.patterns)
  /\ NoDup (List.map pe_pattern found)
  /\ length found <= 19
  /\ (forall e, e ∈ found ->
        exists file, holds (pe_pattern e) file
                     /\ pe_file e = CodeAnalyzer.relative_str project_root file)
  /\ (forall pattern_name keywords keyword file,
        (pattern_name, keywords) ∈ PromptGenerator.patterns ->
        keyword ∈ keywords ->
        holds keyword file ->
        exists e, e ∈ found /\ pe_type e = pattern_name /\ pe_pattern e = keyword).
Proof.
  cbv zeta.
  pose proof (detect_entry_points_table project_root fs) as Hsub.
  rewrite detect_entry_points_flat_map in Hsub |- *.
  set (hit := fun keyword file =>
         PromptGenerator.eligible fs file
         && match FS.read_text fs file with
            | Ok content => Str.contains keyword content
            | Raise _ => false
            end).
  split; [exact Hsub|].
  assert (forall l : list prompt_entry,
            List.map pe_pattern l
            = List.map snd (List.map (fun e => (pe_type e, pe_pattern e)) l)) as Hsnd.
  { intros l. rewrite List.map_map. reflexivity. }
  split; [|split; [|split]].
  - rewrite Hsnd. eapply sublist_NoDup; [|apply (fmap_sublist snd); exact Hsub].
    apply NoDup_ListNoDup. vm_compute. repeat constructor; simpl; intuition discriminate.
  - apply sublist_length in Hsub. rewrite length_map in Hsub.
    etransitivity; [exact Hsub|]. vm_compute. lia.
  - intros e He.
    apply list_elem_of_In, in_flat_map in He as ([pattern_name keywords] & Hrow & He).
    apply in_flat_map in He as (keyword & Hk & He). cbn [fst snd] in *.
    rewrite scan_keyword_find, app_nil_l in He.
    destruct (List.find _ _) as [file|] eqn:Hfind; [|destruct He].
    destruct He as [<-|[]]. cbn [pe_pattern pe_file].
    apply find_some in Hfind as (Hin & Hhit).
    apply andb_true_iff in Hhit as (Hel & Hc).
    destruct (FS.read_text fs file) as [text|] eqn:Hr; [|discriminate].
    destruct (proj1 (eligible_readable project_root fs file text))
      as (c & H1 & H2 & H3 & H4 & H5).
    { split; [now apply list_elem_of_In|auto]. }
    exists file. split; [|reflexivity]. exists c, text. repeat split; assumption.
  - intros pattern_name keywords keyword file Hrow Hk (c & text & H1 & H2 & H3 & H4 & H5 & H6).
    destruct (proj2 (eligible_readable project_root fs file text)) as (Hin & Hel & Hr);
      [eauto 6|].
    destruct (List.find (hit keyword) (FS.rglob project_root ".py" fs)) as [file'|] eqn:Hfind.
    + exists {| pe_type := pattern_name;
                pe_file := CodeAnalyzer.relative_str project_root file';
                pe_pattern := keyword |}.
      split; [|split; reflexivity].
      apply list_elem_of_In, in_flat_map. exists (pattern_name, keywords).
      split; [now apply list_elem_of_In|].
      apply in_flat_map. exists keyword. split; [now apply list_elem_of_In|].
      cbn [fst]. rewrite scan_keyword_find, app_nil_l.
      unfold hit in Hfind. rewrite Hfind. now left.
    + exfalso. apply list_elem_of_In in Hin.
      pose proof (find_none _ _ Hfind _ Hin) as Hno. unfold hit in Hno.
      rewrite Hel, Hr, H6 in Hno. discriminate.
Qed.

(** ** The entry-point listing *)

Lemma first_seen_fresh (seen l : list string) (x : string) :
  x ∈ Listing.first_seen seen l -> existsb (String.eqb x) seen = false.
Proof.
  revert seen. induction l as [|y l IH]; intros seen; simpl.
  - intros H. inversion H.
  - destruct (existsb (String.eqb y) seen) eqn:Hy; [apply IH|].
    intros H. apply elem_of_cons in H as [->|H]; [exact Hy|].
    apply IH in H. simpl in H. now apply orb_false_iff in H as [_ H].
Qed.

Lemma first_seen_ext (seen seen' l : list string) :
  (forall x, existsb (String.eqb x) seen = existsb (String.eqb x) seen') ->
  Listing.first_seen seen l = Listing.first_seen seen' l.
Proof.
  revert seen seen'. induction l as [|y l IH]; intros seen seen' H; simpl; [reflexivity|].
  rewrite <- (H y). destruct (existsb (String.eqb y) seen).
  - now apply IH.
  - f_equal. apply IH. intros x. simpl. now rewrite H.
Qed.

Lemma existsb_eqb_elem (x : string) (l : list string) :
  existsb (String.eqb x) l = true <-> x ∈ l.
Proof.
  rewrite existsb_exists. split.
  - intros (y & Hin & Heq). apply String.eqb_eq in Heq as ->. now apply list_elem_of_In.
  - intros Hin. exists x. split; [now apply list_elem_of_In|apply String.eqb_refl].
Qed.

Lemma files_of_cons (ep_type : string) (ep : prompt_entry) (l : list prompt_entry) :
  Listing.files_of ep_type (ep :: l)
  = if String.eqb (pe_type ep) ep_type then pe_file ep :: Listing.files_of ep_type l
    else Listing.files_of ep_type l.
Proof. unfold Listing.files_of. simpl. now destruct (String.eqb _ _). Qed.

(** One round of the grouping loop. *)
Lemma group_step (d : Dict.t (list string)) (t f : string) :
  NoDup d.*1 ->
  Dict.set t (match Dict.get t d with Some files => files | None => [] end ++ [f]) d
  = if existsb (String.eqb t) d.*1
    then List.map
           (fun kv => (fst kv, if String.eqb t (fst kv) then snd kv ++ [f] else snd kv)) d
    else d ++ [(t, [f])].
Proof.
  induction d as [|[k v] d IH]; intros Hnd; [reflexivity|].
  apply NoDup_cons in Hnd as (Hk & Hnd). cbn [Dict.get Dict.set fmap list_fmap existsb fst].
  destruct (String.eqb_spec t k) as [->|Hne]; cbn [orb].
  - cbn [List.map fst snd]. rewrite String.eqb_refl. f_equal.
    rewrite <- (map_id d) at 1. apply map_ext_in. intros [k' v'] Hin. cbn [fst snd].
    destruct (String.eqb_spec k k') as [Heq|]; [|reflexivity].
    exfalso. apply Hk. rewrite Heq. apply list_elem_of_In, in_map_iff.
    exists (k', v'). auto.
  - rewrite (IH Hnd). destruct (existsb _ _); cbn [List.map fst snd].
    + destruct (String.eqb_spec t k); [contradiction|reflexivity].
    + reflexivity.
Qed.

Lemma grouped_from (entry_points : list prompt_entry) (d : Dict.t (list string)) :
  NoDup d.*1 ->
  fold_left
    (fun grouped ep =>
       let files := match Dict.get (pe_type ep) grouped with
                    | Some files => files
                    | None => []
                    end in
       Dict.set (pe_type ep) (files ++ [pe_file ep]) grouped)
    entry_points d
  = List.map (fun kv => (fst kv, snd kv ++ Listing.files_of (fst kv) entry_points)) d
    ++ List.map (fun t => (t, Listing.files_of t entry_points))
         (Listing.first_seen d.*1 (List.map pe_type entry_points)).
Proof.
  revert d. induction entry_points as [|ep l IH]; intros d Hnd; cbn [fold_left].
  - cbn [List.map Listing.first_seen]. rewrite app_nil_r.
    rewrite <- (map_id d) at 1. apply map_ext. intros [k v]. cbn [fst snd].
    unfold Listing.files_of. simpl. now rewrite app_nil_r.
  - cbv zeta. rewrite (group_step d (pe_type ep) (pe_file ep) Hnd).
    cbn [List.map Listing.first_seen].
    destruct (existsb (String.eqb (pe_type ep)) d.*1) eqn:Hex.
    + set (d' := List.map _ d).
      assert (d'.*1 = d.*1) as Hkeys.
      { change (List.map fst d' = List.map fst d). unfold d'.
        rewrite List.map_map. reflexivity. }
      rewrite IH by (rewrite Hkeys; exact Hnd). rewrite Hkeys. f_equal.
      * unfold d'. rewrite List.map_map. apply map_ext. intros [k v]. cbn [fst snd].
        rewrite files_of_cons. destruct (String.eqb (pe_type ep) k); [|reflexivity].
        now rewrite <- app_assoc.
      * apply map_ext_in. intros t Hin. rewrite files_of_cons.
        apply list_elem_of_In, first_seen_fresh in Hin.
        destruct (String.eqb_spec (pe_type ep) t) as [<-|]; [congruence|reflexivity].
    + assert (pe_type ep ∉ d.*1) as Hnot.
      { intros Hin. apply existsb_eqb_elem in Hin. congruence. }
      rewrite IH.
      2:{ rewrite fmap_app. cbn [fmap list_fmap fst].
          apply NoDup_app. split; [exact Hnd|]. split.
          - intros x Hx Hx'. apply list_elem_of_singleton in Hx' as ->. contradiction.
          - apply NoDup_singleton. }
      rewrite map_app. cbn [List.map fst snd]. rewrite <- app_assoc. f_equal.
      * apply map_ext_in. intros [k v] Hin. cbn [fst snd]. rewrite files_of_cons.
        destruct (String.eqb_spec (pe_type ep) k) as [Heq|]; [|reflexivity].
        exfalso. apply Hnot. rewrite Heq. apply list_elem_of_In, in_map_iff.
        exists (k, v). auto.
      * cbn [app]. rewrite files_of_cons, String.eqb_refl. f_equal.
        rewrite (first_seen_ext (d ++ [(pe_type ep, [pe_file ep])]).*1 (pe_type ep :: d.*1)).
        2:{ intros x. rewrite fmap_app, existsb_app. simpl.
            rewrite orb_false_r. apply orb_comm. }
        apply map_ext_in. intros t Hin. rewrite files_of_cons.
        apply list_elem_of_In, first_seen_fresh in Hin. simpl in Hin.
        apply orb_false_iff in Hin as [Hin _].
        destruct (String.eqb_spec (pe_type ep) t) as [<-|]; [|reflexivity].
        rewrite String.eqb_refl in Hin. discriminate.
Qed.

Lemma format_group_section (formatted : list string) (group : string * list string) :
  PromptGenerator.format_group formatted group
  = formatted ++ Listing.section (fst group) (snd group).
Proof.
  destruct group as [ep_type files]. unfold PromptGenerator.format_group, Listing.section.
  cbn [fst snd].
  rewrite (fold_left_snoc_map Listing.bullet).
  destruct (5 <? length files)%nat; now rewrite <- ?app_assoc.
Qed.

Lemma flat_map_map {A B C : Type} (f : B -> list C) (g : A -> B) (l : list A) :
  flat_map f (List.map g l) = flat_map (fun x => f (g x)) l.
Proof. induction l as [|x l IH]; simpl; [reflexivity|now rewrite IH]. Qed.

Lemma format_entry_points_sections (entry_points : list prompt_entry) :
  fold_left PromptGenerator.format_group (PromptGenerator.grouped entry_points) []
  = flat_map (fun t => Listing.section t (Listing.files_of t entry_points))
      (Listing.first_seen [] (List.map pe_type entry_points)).
Proof.
  unfold PromptGenerator.grouped. rewrite grouped_from by constructor.
  cbn [List.map app fmap list_fmap].
  rewrite (fold_left_ext_in PromptGenerator.format_group
             (fun acc g => acc ++ Listing.section (fst g) (snd g)))
    by (intros; apply format_group_section).
  rewrite fold_left_app_flat_map, app_nil_l, flat_map_map. reflexivity.
Qed.

(** X7: the listing is a placeholder line when there is no record;
    otherwise it has one section per type, in the order in which the types
    first occur among the records, each with a heading, the first five
    files of the type in record order, a line counting the remaining files
    when there are more than five, and an empty line. *)
Theorem format_entry_points_spec (entry_points : list prompt_entry) :
  PromptGenerator._format_entry_points entry_points
  = match entry_points with
    | [] => "_No entry points detected. You'll need to explore the codebase manually._"
    | _ =>
        Json.join (String Json.newline "")
          (flat_map (fun t => Listing.section t (Listing.files_of t entry_points))
             (Listing.first_seen [] (List.map pe_type entry_points)))
    end.
Proof.
  destruct entry_points as [|ep l]; [reflexivity|].
  unfold PromptGenerator._format_entry_points.
  now rewrite format_entry_points_sections.
Qed.

Lemma sublist_lfilter {A : Type} (f : A -> bool) (l1 l2 : list A) :
  sublist l1 l2 -> sublist (List.filter f l1) (List.filter f l2).
Proof.
  induction 1 as [|x l1 l2 _ IH|x l1 l2 _ IH]; simpl; [constructor| |].
  - destruct (f x); [now apply sublist_skip|exact IH].
  - destruct (f x); [now apply sublist_cons|exact IH].
Qed.

Lemma length_lfilter_map {A B : Type} (f : B -> bool) (g : A -> B) (l : list A) :
  length (List.filter f (List.map g l)) = length (List.filter (fun x => f (g x)) l).
Proof.
  induction l as [|x l IH]; simpl; [reflexivity|].
  destruct (f (g x)); simpl; now rewrite IH.
Qed.

Lemma keywords_per_type (ep_type : string) :
  length
    (List.filter (fun row : string * string => String.eqb (fst row) ep_type)
       (flat_map (fun row => List.map (pair (fst row)) (snd row)) PromptGenerator.patterns))
  <= 4.
Proof.
  destruct (existsb (String.eqb ep_type) (List.map fst PromptGenerator.patterns)) eqn:Hex.
  - apply existsb_exists in Hex as (n & Hin & Heq). apply String.eqb_eq in Heq. subst n.
    cbn [List.map fst PromptGenerator.patterns In] in Hin.
    repeat (destruct Hin as [<-|Hin]; [vm_compute; lia|]). destruct Hin.
  - rewrite lfilter_none; [cbn [length]; lia|].
    intros row Hin.
    apply list_elem_of_In, in_flat_map in Hin as (r & Hr & Hin).
    apply in_map_iff in Hin as (k & <- & _). cbn [fst].
    destruct (String.eqb_spec (fst r) ep_type) as [Heq|]; [|reflexivity].
    assert (existsb (String.eqb ep_type) (List.map fst PromptGenerator.patterns) = true)
      as Hyes.
    { apply existsb_exists. exists (fst r). split; [now apply in_map|].
      rewrite Heq. apply String.eqb_refl. }
    congruence.
Qed.

(** X8: the prompt's listing never truncates: the keyword search gives a
    type at most four files (one per keyword), so every detected file is
    shown and the line counting further files never appears. *)
Theorem prompt_listing_never_truncates (project_root : path) (fs : fsys)
    (ep_type : string) :
  let files :=
    Listing.files_of ep_type (PromptGenerator._detect_entry_points project_root fs) in
  length files <= 4
  /\ Listing.section ep_type files
     = ["### " +:+ ep_type] ++ List.map Listing.bullet files ++ [""].
Proof.
  cbv zeta.
  assert (length (Listing.files_of ep_type
                    (PromptGenerator._detect_entry_points project_root fs)) <= 4) as Hlen.
  { unfold Listing.files_of. rewrite length_map.
    rewrite <- (length_lfilter_map (fun row : string * string => String.eqb (fst row) ep_type)
                  (fun e => (pe_type e, pe_pattern e))).
    etransitivity; [|apply (keywords_per_type ep_type)].
    apply sublist_length, sublist_lfilter, detect_entry_points_table. }
  split; [exact Hlen|].
  unfold Listing.section.
  rewrite firstn_all2 by lia.
  destruct (Nat.ltb_spec 5 (length (Listing.files_of ep_type
              (PromptGenerator._detect_entry_points project_root fs)))); [lia|reflexivity].
Qed.

(** ** The prompt after [initialize] *)

Lemma initialize_result (index_template : string -> string -> string) (project_root : path)
    (project_name : option string) (force : bool) (now : clock) (fs fs' : fsys) :
  WorkflowManager.initialize index_template project_root project_name force now fs
  = (Ok tt, fs') ->
  let name := match project_name with
              | Some (String c n) => String c n
              | _ => PurePath.name project_root
              end in
  exists fs1 fs2,
    FS.mkdir (WorkflowManager.buslog_path project_root) fs = (Ok tt, fs1)
    /\ FS.mkdir (WorkflowManager.workflows_path project_root) fs1 = (Ok tt, fs2)
    /\ fs' = <[WorkflowManager.index_path project_root :=
                 File (Text (WorkflowManager._generate_index index_template name now))]>
               (<[WorkflowManager.config_path project_root :=
                    File (JsonDoc (WorkflowManager.fresh_config name now
                                     (WorkflowManager._detect_languages project_root fs)))]>
                  fs2).
Proof.
  intros Hinit. cbv zeta. revert Hinit.
  unfold WorkflowManager.initialize.
  destruct (WorkflowManager.is_initialized _ _ && negb force); [done|].
  unfold bind at 1.
  destruct (FS.mkdir (WorkflowManager.buslog_path project_root) fs)
    as [[[]|e] fs1] eqn:H1; [|done].
  unfold bind at 1.
  destruct (FS.mkdir (WorkflowManager.workflows_path project_root) fs1)
    as [[[]|e] fs2] eqn:H2; [|done].
  unfold bind at 1, gets. unfold bind.
  rewrite (detect_languages_after_mkdirs project_root fs fs1 fs2 H1 H2).
  destruct (FS.write_text (WorkflowManager.config_path project_root) _ fs2)
    as [r3 fs3] eqn:H3.
  apply write_text_inv in H3 as [(-> & -> & _ & _)|(e & -> & ->)]; [|done].
  intros [(_ & -> & _ & _)|(e & ? & _)]%write_text_inv; [|done].
  eauto.
Qed.

Lemma config_after_initialize (index_template : string -> string -> string)
    (project_root : path) (project_name : option string) (force : bool) (now : clock)
    (fs fs' : fsys) :
  WorkflowManager.initialize index_template project_root project_name force now fs
  = (Ok tt, fs') ->
  FS.lookup_node fs' (WorkflowManager.config_path project_root)
  = Some (File (JsonDoc
       (WorkflowManager.fresh_config
          match project_name with
          | Some (String c n) => String c n
          | _ => PurePath.name project_root
          end now (WorkflowManager._detect_languages project_root fs)))).
Proof.
  intros (fs1 & fs2 & _ & _ & ->)%initialize_result.
  rewrite lookup_node_insert_ne by apply not_eq_sym, config_ne_index.
  unfold WorkflowManager.config_path. rewrite lookup_node_snoc.
  apply lookup_insert_eq.
Qed.

Lemma all_str_map (l : list string) : PromptGenerator.all_str (List.map JStr l) = Some l.
Proof. induction l as [|x l IH]; simpl; [reflexivity|now rewrite IH]. Qed.

(** X9: after a successful [initialize], the analysis prompt is produced and
    shows what the store recorded: the given project name, or the root
    folder's name when none or an empty one was given, twice; the languages
    the store's language pass found, joined by a comma and a space, or
    Auto-detect when it found none; and the number and the listing of the
    keyword search's records. *)
Theorem prompt_after_initialize (py_str : json -> string)
    (index_template : string -> string -> string) (project_root : path)
    (project_name : option string) (force : bool) (now : clock) (fs fs' : fsys) :
  WorkflowManager.initialize index_template project_root project_name force now fs
  = (Ok tt, fs') ->
  let name := match project_name with
              | Some (String c n) => String c n
              | _ => PurePath.name project_root
              end in
  let languages := WorkflowManager._detect_languages project_root fs in
  let entry_points := PromptGenerator._detect_entry_points project_root fs' in
  PromptGenerator.generate_analysis_prompt py_str project_root fs'
  = Ok (PromptGenerator.prompt_head +:+ name
        +:+ PromptGenerator.prompt_after_title +:+ name
        +:+ PromptGenerator.prompt_before_languages
        +:+ match languages with
            | [] => "Auto-detect"
            | _ => Json.join ", " languages
            end
        +:+ PromptGenerator.prompt_before_count
        +:+ PromptGenerator.decimal (length entry_points)
        +:+ PromptGenerator.prompt_before_entry_points
        +:+ PromptGenerator._format_entry_points entry_points
        +:+ PromptGenerator.prompt_tail).
Proof.
  intros Hinit. cbv zeta.
  pose proof (config_after_initialize _ _ _ _ _ _ _ Hinit) as Hcfg.
  unfold PromptGenerator.generate_analysis_prompt, PromptGenerator.load_context.
  change (PromptGenerator.buslog_path project_root ++ ["config.json"])
    with (WorkflowManager.config_path project_root).
  unfold FS.exists_at, FS.read_json. rewrite Hcfg.
  unfold WorkflowManager.fresh_config.
  cbn [Dict.get String.eqb Ascii.eqb Bool.eqb PromptGenerator.display].
  destruct (WorkflowManager._detect_languages project_root fs) as [|lang rest] eqn:Hl.
  - reflexivity.
  - cbn [List.map PromptGenerator.truthy]. rewrite <- Hl.
    unfold PromptGenerator.join_languages.
    change (JStr lang :: List.map JStr rest) with (List.map JStr (lang :: rest)).
    rewrite <- Hl, all_str_map. reflexivity.
Qed.

Lemma prompt_after_initialize_witness :
  WorkflowManager.initialize Sample.index_md Sample.root None false Sample.now
    Sample.project = (Ok tt, Sample.initialized)
  /\ PromptGenerator.generate_analysis_prompt Json.dumps Sample.root
       Sample.initialized
     = Ok (PromptGenerator.prompt_head +:+ "shop"
           +:+ PromptGenerator.prompt_after_title +:+ "shop"
           +:+ PromptGenerator.prompt_before_languages
           +:+ "JavaScript, Python"
           +:+ PromptGenerator.prompt_before_count
           +:+ "0"
           +:+ PromptGenerator.prompt_before_entry_points
           +:+ PromptGenerator.no_entry_points
           +:+ PromptGenerator.prompt_tail).
Proof.
  assert (WorkflowManager.initialize Sample.index_md Sample.root None false Sample.now
            Sample.project = (Ok tt, Sample.initialized)) as H
    by (apply outcome_pair; vm_compute; reflexivity).
  split; [exact H|].
  etransitivity;
    [exact (prompt_after_initialize Json.dumps Sample.index_md Sample.root
              None false Sample.now Sample.project Sample.initialized H)|].
  vm_compute. reflexivity.
Defined.

(** ** [initialize] on a project without a store *)

Lemma workflows_ne_buslog (project_root : path) :
  WorkflowManager.workflows_path project_root <> WorkflowManager.buslog_path project_root.
Proof. path_ne. Qed.

Lemma buslog_not_root (project_root : path) : WorkflowManager.buslog_path project_root <> [].
Proof. unfold WorkflowManager.buslog_path. now destruct project_root. Qed.

Lemma lookup_node_ne_nil (fs : fsys) (p : path) :
  p <> [] -> FS.lookup_node fs p = fs !! p.
Proof. now destruct p. Qed.

Lemma below_buslog (project_root : path) (c : string) (rel : path) :
  FS.is_descendant (WorkflowManager.buslog_path project_root)
    (WorkflowManager.buslog_path project_root ++ c :: rel) = true.
Proof. apply is_descendant_iff. eauto. Qed.

(** X10: in an existing project folder with nothing at or below
    .business-logic, [initialize] succeeds whatever [force] is and adds
    exactly four entries: the store folder, its workflows folder, a fresh
    config with the detected languages and the index; nothing else
    changes, the store counts as initialized and lists no workflow. *)
Theorem initialize_fresh (index_template : string -> string -> string)
    (project_root : path) (project_name : option string) (force : bool) (now : clock)
    (fs : fsys) :
  FS.is_dir fs project_root = true ->
  fs !! WorkflowManager.buslog_path project_root = None ->
  (forall p, FS.is_descendant (WorkflowManager.buslog_path project_root) p = true ->
             fs !! p = None) ->
  let name := match project_name with
              | Some (String c n) => String c n
              | _ => PurePath.name project_root
              end in
  let fs' :=
    <[WorkflowManager.index_path project_root :=
        File (Text (index_template name (ymd_hm now)))]>
      (<[WorkflowManager.config_path project_root :=
           File (JsonDoc (WorkflowManager.fresh_config name now
                            (WorkflowManager._detect_languages project_root fs)))]>
         (<[WorkflowManager.workflows_path project_root := Dir]>
            (<[WorkflowManager.buslog_path project_root := Dir]> fs))) in
  WorkflowManager.initialize index_template project_root project_name force now fs
  = (Ok tt, fs')
  /\ WorkflowManager.is_initialized project_root fs' = true
  /\ WorkflowManager.list_workflows project_root fs' = [].
Proof.
  intros Hroot Hbus Hbelow name fs'.
  assert (fs !! WorkflowManager.workflows_path project_root = None) as Hw0
    by exact (Hbelow _ (below_buslog project_root WorkflowManager.WORKFLOWS_DIR [])).
  assert (fs !! WorkflowManager.config_path project_root = None) as Hc0
    by exact (Hbelow _ (below_buslog project_root WorkflowManager.CONFIG_FILE [])).
  assert (fs !! WorkflowManager.index_path project_root = None) as Hi0
    by exact (Hbelow _ (below_buslog project_root WorkflowManager.INDEX_FILE [])).
  set (fs1 := <[WorkflowManager.buslog_path project_root := Dir]> fs).
  set (fs2 := <[WorkflowManager.workflows_path project_root := Dir]> fs1).
  assert (FS.mkdir (WorkflowManager.buslog_path project_root) fs = (Ok tt, fs1)) as H1.
  { unfold FS.mkdir. rewrite lookup_node_ne_nil by apply buslog_not_root. rewrite Hbus.
    unfold WorkflowManager.buslog_path. rewrite parent_snoc.
    apply is_dir_lookup in Hroot. now rewrite Hroot. }
  assert (FS.is_dir fs1 (WorkflowManager.buslog_path project_root) = true) as Hd1.
  { unfold FS.is_dir, fs1. rewrite lookup_node_ne_nil by apply buslog_not_root.
    now rewrite lookup_insert_eq. }
  assert (FS.mkdir (WorkflowManager.workflows_path project_root) fs1 = (Ok tt, fs2)) as H2.
  { unfold FS.mkdir. unfold WorkflowManager.workflows_path at 1.
    rewrite lookup_node_snoc. fold (WorkflowManager.workflows_path project_root).
    unfold fs1 at 1. rewrite lookup_insert_ne by apply not_eq_sym, workflows_ne_buslog.
    rewrite Hw0.
    unfold WorkflowManager.workflows_path at 1. rewrite parent_snoc.
    apply is_dir_lookup in Hd1. now rewrite Hd1. }
  assert (FS.is_dir fs2 (WorkflowManager.buslog_path project_root) = true) as Hd2.
  { unfold fs2. rewrite is_dir_insert_ne by apply workflows_ne_buslog. exact Hd1. }
  assert (fs2 !! WorkflowManager.config_path project_root = None) as Hc2.
  { unfold fs2, fs1.
    rewrite lookup_insert_ne by apply not_eq_sym, config_ne_workflows.
    rewrite lookup_insert_ne by apply not_eq_sym, config_ne_buslog.
    exact Hc0. }
  assert (fs2 !! WorkflowManager.index_path project_root = None) as Hi2.
  { unfold fs2, fs1.
    rewrite lookup_insert_ne by apply not_eq_sym, index_ne_workflows.
    rewrite lookup_insert_ne by apply not_eq_sym, index_ne_buslog.
    exact Hi0. }
  assert (WorkflowManager.initialize index_template project_root project_name force now fs
          = (Ok tt, fs')) as Hinit.
  { unfold WorkflowManager.initialize.
    assert (WorkflowManager.is_initialized project_root fs = false) as ->.
    { unfold WorkflowManager.is_initialized, FS.exists_at.
      rewrite lookup_node_ne_nil by apply buslog_not_root. now rewrite Hbus. }
    cbn [andb]. unfold bind at 1. rewrite H1. unfold bind at 1. rewrite H2.
    unfold bind at 1, gets.
    rewrite (detect_languages_after_mkdirs project_root fs fs1 fs2 H1 H2).
    fold name. unfold bind.
    rewrite write_text_ok.
    - rewrite write_text_ok; [reflexivity| |].
      + rewrite is_dir_insert_ne by apply config_ne_index.
        unfold FS.is_dir, WorkflowManager.index_path. rewrite lookup_node_snoc.
        fold (WorkflowManager.index_path project_root). now rewrite Hi2.
      + rewrite parent_index, is_dir_insert_ne by apply config_ne_buslog. exact Hd2.
    - unfold FS.is_dir, WorkflowManager.config_path. rewrite lookup_node_snoc.
      fold (WorkflowManager.config_path project_root). now rewrite Hc2.
    - rewrite parent_config. exact Hd2. }
  split; [exact Hinit|].
  split; [exact (proj2 (initialize_layout project_root _ _ _ _ _ _ Hinit))|].
  unfold WorkflowManager.list_workflows.
  destruct (FS.exists_at fs' (WorkflowManager.workflows_path project_root)); [|reflexivity].
  cbn [negb].
  assert (FS.glob (WorkflowManager.workflows_path project_root) ".md" fs' = []) as ->;
    [|reflexivity].
  destruct (FS.glob _ _ fs') as [|p l] eqn:Hg; [reflexivity|exfalso].
  assert (p ∈ FS.glob (WorkflowManager.workflows_path project_root) ".md" fs') as Hp
    by (rewrite Hg; left).
  apply elem_of_glob in Hp as (_ & Hsome & Hchild & _).
  apply is_child_iff in Hchild as (c & ->).
  assert (FS.is_descendant (WorkflowManager.workflows_path project_root)
            (WorkflowManager.workflows_path project_root ++ [c]) = true) as Hdesc
    by (apply is_descendant_iff; eauto).
  unfold fs' in Hsome.
  rewrite lookup_insert_ne in Hsome by now apply index_not_document.
  rewrite lookup_insert_ne in Hsome by now apply config_not_document.
  rewrite lookup_insert_ne in Hsome by path_ne.
  rewrite lookup_insert_ne in Hsome by path_ne.
  rewrite Hbelow in Hsome; [now destruct Hsome|].
  unfold WorkflowManager.workflows_path. rewrite <- app_assoc. apply below_buslog.
Qed.

Lemma initialize_fresh_witness :
  FS.is_dir Sample.project Sample.root = true
  /\ WorkflowManager.initialize Sample.index_md Sample.root (Some "Shop") false Sample.now
       Sample.project
     = (Ok tt,
        <[WorkflowManager.index_path Sample.root :=
            File (Text (Sample.index_md "Shop" "2024-05-01 09:30"))]>
          (<[WorkflowManager.config_path Sample.root :=
               File (JsonDoc (WorkflowManager.fresh_config "Shop" Sample.now
                                (WorkflowManager._detect_languages Sample.root
                                   Sample.project)))]>
             (<[WorkflowManager.workflows_path Sample.root := Dir]>
                (<[WorkflowManager.buslog_path Sample.root := Dir]> Sample.project)))).
Proof.
  assert (FS.is_dir Sample.project Sample.root = true) as H1 by (vm_compute; reflexivity).
  assert (Sample.project !! WorkflowManager.buslog_path Sample.root = None) as H2
    by (vm_compute; reflexivity).
  assert (forall p, FS.is_descendant (WorkflowManager.buslog_path Sample.root) p = true ->
                    Sample.project !! p = None) as H3.
  { intros p Hp. destruct (Sample.project !! p) as [n|] eqn:Hl; [|reflexivity].
    exfalso.
    assert (p ∈ FS.paths Sample.project) as Hin by (apply elem_of_paths; eauto).
    assert (forallb (fun q => negb (FS.is_descendant (WorkflowManager.buslog_path Sample.root) q))
              (FS.paths Sample.project) = true) as Hall by (vm_compute; reflexivity).
    rewrite forallb_forall in Hall. apply list_elem_of_In in Hin.
    specialize (Hall _ Hin). rewrite Hp in Hall. discriminate. }
  split; [exact H1|].
  exact (proj1 (initialize_fresh Sample.index_md Sample.root (Some "Shop") false Sample.now
                  Sample.project H1 H2 H3)).
Defined.

(** ** What [initialize] and [add_workflow] write *)

Lemma mkdir_any (p : path) (fs fs' : fsys) (r : outcome unit) :
  FS.mkdir p fs = (r, fs') -> fs' = fs \/ fs' = <[p := Dir]> fs.
Proof.
  unfold FS.mkdir.
  destruct (FS.lookup_node fs p) as [[|c]|]; [intros [= _ <-]; auto..|].
  destruct (FS.lookup_node fs (PurePath.parent p)) as [[|c]|]; intros [= _ <-]; auto.
Qed.

Lemma write_text_any (p : path) (c : content) (fs fs' : fsys) (r : outcome unit) :
  FS.write_text p c fs = (r, fs') -> fs' = fs \/ fs' = <[p := File c]> fs.
Proof.
  intros [(_ & -> & _)|(e & _ & ->)]%write_text_inv; auto.
Qed.

(** X11: whatever its outcome, [initialize] leaves every path other than
    the store folder, the workflows folder, config.json and index.md as it
    was: no document, annotation or project file is ever touched. *)
Theorem initialize_frame (index_template : string -> string -> string)
    (project_root : path) (project_name : option string) (force : bool) (now : clock)
    (fs fs' : fsys) (r : outcome unit) (p : path) :
  WorkflowManager.initialize index_template project_root project_name force now fs
  = (r, fs') ->
  p <> WorkflowManager.buslog_path project_root ->
  p <> WorkflowManager.workflows_path project_root ->
  p <> WorkflowManager.config_path project_root ->
  p <> WorkflowManager.index_path project_root ->
  fs' !! p = fs !! p.
Proof.
  intros Hinit Hb Hw Hc Hi. revert Hinit. unfold WorkflowManager.initialize.
  destruct (WorkflowManager.is_initialized _ _ && negb force); [now intros [= _ <-]|].
  unfold bind at 1.
  destruct (FS.mkdir (WorkflowManager.buslog_path project_root) fs) as [r1 fs1] eqn:H1.
  assert (fs1 !! p = fs !! p) as E1.
  { apply mkdir_any in H1 as [->| ->]; [reflexivity|]. now rewrite lookup_insert_ne. }
  destruct r1 as [[]|e]; [|now intros [= _ <-]].
  unfold bind at 1.
  destruct (FS.mkdir (WorkflowManager.workflows_path project_root) fs1) as [r2 fs2] eqn:H2.
  assert (fs2 !! p = fs !! p) as E2.
  { rewrite <- E1. apply mkdir_any in H2 as [->| ->]; [reflexivity|].
    now rewrite lookup_insert_ne. }
  destruct r2 as [[]|e]; [|now intros [= _ <-]].
  unfold bind at 1, gets. unfold bind.
  destruct (FS.write_text (WorkflowManager.config_path project_root) _ fs2)
    as [r3 fs3] eqn:H3.
  assert (fs3 !! p = fs !! p) as E3.
  { rewrite <- E2. apply write_text_any in H3 as [->| ->]; [reflexivity|].
    now rewrite lookup_insert_ne. }
  destruct r3 as [[]|e]; [|now intros [= _ <-]].
  intros H4. rewrite <- E3. apply write_text_any in H4 as [->| ->]; [reflexivity|].
  now rewrite lookup_insert_ne.
Qed.

Lemma initialize_frame_witness :
  snd (WorkflowManager.initialize Sample.index_md Sample.root None true Sample.now
         Sample.with_workflow)
  !! (WorkflowManager.workflows_path Sample.root ++ ["user-authentication.md"])
  = Sample.with_workflow
    !! (WorkflowManager.workflows_path Sample.root ++ ["user-authentication.md"]).
Proof.
  apply (initialize_frame Sample.index_md Sample.root None true Sample.now
           Sample.with_workflow _
           (fst (WorkflowManager.initialize Sample.index_md Sample.root None true Sample.now
                   Sample.with_workflow)));
    [now destruct (WorkflowManager.initialize _ _ _ _ _ _)|discriminate..].
Defined.

Section AddWorkflowErrors.
Import WorkflowManager.
Variable workflow_template : string -> string -> string.
Variable project_root : path.

Lemma document_flat (fs : fsys) (name : string) :
  Store.flat (safe_name_of name) = true ->
  FS.is_dir fs (workflows_path project_root) = true ->
  FS.resolve fs (workflows_path project_root) (safe_name_of name +:+ ".md")
  = inr (workflows_path project_root ++ [safe_name_of name +:+ ".md"]).
Proof.
  intros Hflat Hdir. rewrite (resolve_flat _ _ _ Hflat).
  apply is_dir_lookup in Hdir. now rewrite Hdir.
Qed.

Lemma document_below (file : string) :
  FS.is_descendant (workflows_path project_root) (workflows_path project_root ++ [file])
  = true.
Proof. apply is_descendant_iff. eauto. Qed.

End AddWorkflowErrors.



(** X13: [add_workflow] is not atomic.  When config.json is there but
    cannot be read as JSON, the document is written first and the read
    error is raised afterwards; the document stays, so a second attempt
    under a name with the same identifier is refused as already existing
    and the index is never updated. *)
Theorem add_workflow_unreadable_config (workflow_template : string -> string -> string)
    (project_root : path) (name : string) (now : clock) (fs : fsys) (e : exn) :
  Store.flat (WorkflowManager.safe_name_of name) = true ->
  FS.is_dir fs (WorkflowManager.workflows_path project_root) = true ->
  fs !! (WorkflowManager.workflows_path project_root
         ++ [WorkflowManager.safe_name_of name +:+ ".md"]) = None ->
  FS.exists_at fs (WorkflowManager.config_path project_root) = true ->
  FS.read_json fs (WorkflowManager.config_path project_root) = Raise e ->
  let document :=
    WorkflowManager.workflows_path project_root
    ++ [WorkflowManager.safe_name_of name +:+ ".md"] in
  let fs' :=
    <[document :=
        File (Text (workflow_template (Str.title (Str.replace "-" " " name)) (ymd now)))]>
      fs in
  WorkflowManager.add_workflow workflow_template project_root name now fs = (Raise e, fs')
  /\ forall (name2 : string) (now2 : clock),
      WorkflowManager.safe_name_of name2 = WorkflowManager.safe_name_of name ->
      WorkflowManager.add_workflow workflow_template project_root name2 now2 fs'
      = (Raise (WorkflowAlreadyExists (WorkflowManager.safe_name_of name)), fs').
Proof.
  intros Hflat Hdir Hnone Hex Hread document fs'.
  assert (FS.is_dir fs document = false) as Hnd.
  { unfold FS.is_dir, document. rewrite lookup_node_snoc. now rewrite Hnone. }
  assert (document <> []) as Hne by (unfold document; now destruct (WorkflowManager.workflows_path _)).
  split.
  - unfold WorkflowManager.add_workflow.
    rewrite (document_flat project_root fs name Hflat Hdir).
    unfold FS.exists_at. rewrite lookup_node_snoc, Hnone. fold document.
    unfold bind at 1.
    rewrite write_text_ok; [|exact Hnd|unfold document; now rewrite parent_snoc].
    fold fs'. unfold bind at 1.
    unfold WorkflowManager._add_workflow_to_config, bind at 1.
    unfold WorkflowManager.get_config.
    assert (FS.exists_at fs' (WorkflowManager.config_path project_root) = true) as ->
      by (apply exists_at_insert_mono; exact Hex).
    cbn [negb].
    assert (FS.read_json fs' (WorkflowManager.config_path project_root) = Raise e) as ->.
    { unfold FS.read_json in *. unfold fs'.
      rewrite lookup_node_insert_ne; [exact Hread|].
      apply not_eq_sym, config_not_document, document_below. }
    reflexivity.
  - intros name2 now2 Hsame. unfold WorkflowManager.add_workflow. rewrite Hsame.
    rewrite (document_flat project_root fs' name Hflat).
    + fold document. unfold fs'. rewrite (exists_at_insert _ _ _ Hne). reflexivity.
    + unfold fs'. now apply is_dir_insert_file.
Qed.

Lemma add_workflow_unreadable_config_witness :
  let document := WorkflowManager.workflows_path Sample.root ++ ["billing.md"] in
  let fs' :=
    <[document := File (Text (Sample.workflow_md "Billing" "2024-05-01"))]>
      Sample.broken_config in
  WorkflowManager.add_workflow Sample.workflow_md Sample.root "Billing" Sample.now
    Sample.broken_config = (Raise JSONDecodeError, fs')
  /\ WorkflowManager.add_workflow Sample.workflow_md Sample.root "billing" Sample.now fs'
     = (Raise (WorkflowAlreadyExists "billing"), fs').
Proof.
  cbv zeta.
  assert (Store.flat (WorkflowManager.safe_name_of "Billing") = true) as H1
    by (vm_compute; reflexivity).
  assert (FS.is_dir Sample.broken_config (WorkflowManager.workflows_path Sample.root) = true)
    as H2 by (vm_compute; reflexivity).
  assert (Sample.broken_config
          !! (WorkflowManager.workflows_path Sample.root
              ++ [WorkflowManager.safe_name_of "Billing" +:+ ".md"]) = None) as H3
    by (vm_compute; reflexivity).
  assert (FS.exists_at Sample.broken_config (WorkflowManager.config_path Sample.root) = true)
    as H4 by (vm_compute; reflexivity).
  assert (FS.read_json Sample.broken_config (WorkflowManager.config_path Sample.root)
          = Raise JSONDecodeError) as H5 by (vm_compute; reflexivity).
  destruct (add_workflow_unreadable_config Sample.workflow_md Sample.root "Billing"
              Sample.now Sample.broken_config JSONDecodeError H1 H2 H3 H4 H5) as [Ha Hb].
  split; [exact Ha|].
  exact (Hb "billing" Sample.now eq_refl).
Defined.

(** ** [add_workflow] on a sound store *)

Lemma resolve_file (fs : fsys) (dir : path) (file : string) :
  Str.contains "/" file = false -> 3 <= String.length file ->
  FS.resolve fs dir file
  = match FS.lookup_node fs dir with
    | Some Dir => inr (dir ++ [file])
    | Some (File _) => inl NotADirectoryError
    | None => inl FileNotFoundError
    end.
Proof.
  intros Hfile Hlen.
  unfold FS.resolve. rewrite not_absolute, parse_flat by done.
  cbn [FS.walk]. by rewrite eqb_short by (simpl; lia).
Qed.

Lemma join_flat (dir : path) (name : string) :
  Store.flat name = true -> PurePath.join dir (name +:+ ".md") = dir ++ [name +:+ ".md"].
Proof.
  unfold Store.flat. rewrite negb_true_iff. intros Hflat.
  assert (Str.contains "/" (name +:+ ".md") = false) as Hfile
    by (now rewrite contains_char_app, Hflat).
  unfold PurePath.join. rewrite not_absolute, parse_flat; [reflexivity|exact Hfile| |exact Hfile].
  rewrite length_app_str. simpl. lia.
Qed.

Lemma dict_get_set_ne {V : Type} (k k' : string) (v : V) (d : Dict.t V) :
  k' <> k -> Dict.get k' (Dict.set k v d) = Dict.get k' d.
Proof.
  intros Hne. induction d as [|[k0 v0] d IH]; cbn [Dict.get Dict.set].
  - destruct (String.eqb_spec k' k); [contradiction|reflexivity].
  - destruct (String.eqb_spec k k0) as [->|]; cbn [Dict.get].
    + destruct (String.eqb_spec k' k0); [contradiction|reflexivity].
    + destruct (String.eqb_spec k' k0); [reflexivity|exact IH].
Qed.

Section AddWorkflowFlat.
Import WorkflowManager.
Variable workflow_template : string -> string -> string.
Variable project_root : path.

(** What a successful call with a flat name did. *)
Lemma add_workflow_flat_inv (name : string) (now : clock) (fs fs' : fsys) (created : path) :
  Store.flat (safe_name_of name) = true ->
  add_workflow workflow_template project_root name now fs = (Ok created, fs') ->
  let document := workflows_path project_root ++ [safe_name_of name +:+ ".md"] in
  created = document
  /\ FS.is_dir fs (workflows_path project_root) = true
  /\ fs !! document = None
  /\ _add_workflow_to_config project_root (safe_name_of name)
       (<[document :=
            File (Text (workflow_template (Str.title (Str.replace "-" " " name))
                          (ymd now)))]> fs)
     = (Ok tt, fs').
Proof.
  intros Hflat. cbv zeta. unfold add_workflow.
  rewrite (resolve_flat _ _ _ Hflat), (join_flat _ _ Hflat).
  destruct (FS.lookup_node fs (workflows_path project_root)) as [[|c]|] eqn:Hl; [|done..].
  unfold FS.exists_at. rewrite lookup_node_snoc.
  destruct (fs !! (workflows_path project_root ++ [safe_name_of name +:+ ".md"]))
    eqn:Hdoc; [done|].
  unfold bind at 1.
  rewrite write_text_ok.
  - unfold bind, ret.
    destruct (_add_workflow_to_config _ _ _) as [[[]|e] fs2] eqn:Hc; [|done].
    intros [= <- <-]. repeat split; try reflexivity. now apply is_dir_lookup.
  - unfold FS.is_dir. now rewrite lookup_node_snoc, Hdoc.
  - rewrite parent_snoc. now apply is_dir_lookup.
Qed.

(** The config update when the config holds an array of workflows. *)
Lemma add_to_config_array (name : string) (fs : fsys) (members : Dict.t json)
    (names : list json) :
  FS.read_json fs (config_path project_root) = Ok (JObj members) ->
  Dict.get "workflows" members = Some (JArr names) ->
  _add_workflow_to_config project_root name fs
  = if existsb (is_str name) names then (Ok tt, fs)
    else FS.write_text (config_path project_root)
           (JsonDoc (JObj (Dict.set "workflows" (JArr (names ++ [JStr name])) members))) fs.
Proof.
  intros Hread Hget. unfold _add_workflow_to_config, bind, get_config.
  assert (FS.exists_at fs (config_path project_root) = true) as ->.
  { unfold FS.read_json, FS.exists_at in *.
    now destruct (FS.lookup_node fs (config_path project_root)). }
  cbn [negb]. rewrite Hread, Hget.
  now destruct (existsb (is_str name) names).
Qed.

Lemma read_json_insert_ne (fs : fsys) (p q : path) (n : node) :
  p <> q -> FS.read_json (<[p := n]> fs) q = FS.read_json fs q.
Proof. intros Hne. unfold FS.read_json. now rewrite lookup_node_insert_ne. Qed.

Lemma config_array_inv (key : string) (fs : fsys) (items : list json) :
  Store.config_array project_root key fs = Some items ->
  exists members, FS.read_json fs (config_path project_root) = Ok (JObj members)
                  /\ Dict.get key members = Some (JArr items).
Proof.
  unfold Store.config_array.
  destruct (FS.read_json fs (config_path project_root)) as [[| | | | |members]|]; try done.
  destruct (Dict.get key members) as [[| | | |l|]|] eqn:Hg; try done.
  intros [= <-]. eauto.
Qed.

Lemma existsb_is_str (name : string) (names : list string) :
  existsb (is_str name) (List.map JStr names) = true <-> name ∈ names.
Proof.
  rewrite existsb_exists. split.
  - intros (j & Hin & Heq). apply in_map_iff in Hin as (n & <- & Hin).
    simpl in Heq. apply String.eqb_eq in Heq as ->. now apply list_elem_of_In.
  - intros Hin. exists (JStr name). split.
    + apply in_map. now apply list_elem_of_In.
    + simpl. apply String.eqb_refl.
Qed.

End AddWorkflowFlat.

(** X14: whatever its outcome, [add_workflow] leaves every path other than
    config.json and the place its document resolves to as it was. *)
Theorem add_workflow_frame (workflow_template : string -> string -> string)
    (project_root : path) (name : string) (now : clock) (fs fs' : fsys)
    (r : outcome path) (p : path) :
  WorkflowManager.add_workflow workflow_template project_root name now fs = (r, fs') ->
  p <> WorkflowManager.config_path project_root ->
  FS.resolve fs (WorkflowManager.workflows_path project_root)
    (WorkflowManager.safe_name_of name +:+ ".md") <> inr p ->
  fs' !! p = fs !! p.
Proof.
  intros Hadd Hc Hres. revert Hadd. unfold WorkflowManager.add_workflow.
  destruct (FS.resolve fs _ _) as [e|workflow_path] eqn:Hr; [now intros [= _ <-]|].
  assert (workflow_path <> p) as Hne by congruence.
  destruct (FS.exists_at fs workflow_path); [now intros [= _ <-]|].
  unfold bind at 1.
  destruct (FS.write_text workflow_path _ fs) as [r1 fs1] eqn:Hw.
  assert (fs1 !! p = fs !! p) as E1.
  { apply write_text_any in Hw as [->| ->]; [reflexivity|]. now rewrite lookup_insert_ne. }
  destruct r1 as [[]|e]; [|now intros [= _ <-]].
  unfold bind, ret.
  destruct (WorkflowManager._add_workflow_to_config _ _ _) as [r2 fs2] eqn:Hcfg.
  assert (fs2 !! p = fs !! p) as E2.
  { rewrite <- E1. apply add_to_config_inv in Hcfg as [->|(j & _ & -> & _)]; [reflexivity|].
    rewrite lookup_insert_ne; [reflexivity|]. now apply not_eq_sym. }
  destruct r2 as [[]|e]; now intros [= _ <-].
Qed.

Lemma add_workflow_frame_witness :
  Sample.with_workflow !! WorkflowManager.index_path Sample.root
  = Sample.initialized !! WorkflowManager.index_path Sample.root.
Proof.
  apply (add_workflow_frame Sample.workflow_md Sample.root "User Authentication" Sample.now
           Sample.initialized Sample.with_workflow
           (fst (WorkflowManager.add_workflow Sample.workflow_md Sample.root
                   "User Authentication" Sample.now Sample.initialized))).
  - unfold Sample.with_workflow.
    now destruct (WorkflowManager.add_workflow _ _ _ _ _).
  - discriminate.
  - vm_compute. discriminate.
Defined.

(** X15: on a store whose workflows folder is a directory and whose config
    is a JSON object with a workflows array, adding a name free of path
    separators whose document is not there yet succeeds: it returns the
    document's path, writes the rendered template there and appends the
    identifier to the end of the array unless the array already has it;
    every other member of the config keeps its value. *)
Theorem add_workflow_succeeds (workflow_template : string -> string -> string)
    (project_root : path) (name : string) (now : clock) (fs : fsys)
    (members : Dict.t json) (names : list json) :
  Store.flat (WorkflowManager.safe_name_of name) = true ->
  FS.is_dir fs (WorkflowManager.buslog_path project_root) = true ->
  FS.is_dir fs (WorkflowManager.workflows_path project_root) = true ->
  fs !! (WorkflowManager.workflows_path project_root
         ++ [WorkflowManager.safe_name_of name +:+ ".md"]) = None ->
  FS.read_json fs (WorkflowManager.config_path project_root) = Ok (JObj members) ->
  Dict.get "workflows" members = Some (JArr names) ->
  let safe_name := WorkflowManager.safe_name_of name in
  let document := WorkflowManager.workflows_path project_root ++ [safe_name +:+ ".md"] in
  let written :=
    <[document :=
        File (Text (workflow_template (Str.title (Str.replace "-" " " name)) (ymd now)))]>
      fs in
  let config := JObj (Dict.set "workflows" (JArr (names ++ [JStr safe_name])) members) in
  WorkflowManager.add_workflow workflow_template project_root name now fs
  = (Ok document,
     if existsb (WorkflowManager.is_str safe_name) names then written
     else <[WorkflowManager.config_path project_root := File (JsonDoc config)]> written)
  /\ forall key, key <> "workflows" ->
       Dict.get key (Dict.set "workflows" (JArr (names ++ [JStr safe_name])) members)
       = Dict.get key members.
Proof.
  intros Hflat Hbus Hwf Hdoc Hread Hget safe_name document written config.
  split; [|intros key Hkey; now apply dict_get_set_ne].
  assert (FS.is_dir fs document = false) as Hnd.
  { unfold FS.is_dir, document, safe_name. now rewrite lookup_node_snoc, Hdoc. }
  unfold WorkflowManager.add_workflow.
  rewrite (document_flat project_root fs name Hflat Hwf), (join_flat _ _ Hflat).
  unfold FS.exists_at. rewrite lookup_node_snoc, Hdoc.
  unfold bind at 1.
  rewrite write_text_ok; [|exact Hnd|unfold document; now rewrite parent_snoc].
  fold safe_name. fold document. fold written.
  unfold bind at 1.
  assert (WorkflowManager.config_path project_root <> document) as Hcd
    by apply config_not_document, document_below.
  rewrite (add_to_config_array project_root safe_name written members names);
    [|unfold written; rewrite read_json_insert_ne by (apply not_eq_sym; exact Hcd); exact Hread
     |exact Hget].
  destruct (existsb (WorkflowManager.is_str safe_name) names); [reflexivity|].
  rewrite write_text_ok; [reflexivity| |].
  - unfold written. rewrite is_dir_insert_ne by (apply not_eq_sym; exact Hcd).
    unfold FS.read_json, FS.is_dir in *.
    now destruct (FS.lookup_node fs (WorkflowManager.config_path project_root)) as [[|c]|].
  - rewrite parent_config. unfold written. now apply is_dir_insert_file.
Qed.

Lemma add_workflow_succeeds_witness :
  WorkflowManager.add_workflow Sample.workflow_md Sample.root "Order Refund" Sample.now
    Sample.with_workflow
  = (Ok (WorkflowManager.workflows_path Sample.root ++ ["order-refund.md"]),
     <[WorkflowManager.config_path Sample.root :=
         File (JsonDoc
           (JObj (Dict.set "workflows"
                    (JArr [JStr "user-authentication"; JStr "order-refund"])
                    (match WorkflowManager.fresh_config "shop" Sample.now
                             ["JavaScript"; "Python"] with
                     | JObj members => members
                     | _ => []
                     end))))]>
       (<[WorkflowManager.workflows_path Sample.root ++ ["order-refund.md"] :=
            File (Text (Sample.workflow_md "Order Refund" "2024-05-01"))]>
          Sample.with_workflow)).
Proof.
  assert (Store.flat (WorkflowManager.safe_name_of "Order Refund") = true) as H1
    by (vm_compute; reflexivity).
  assert (FS.is_dir Sample.with_workflow (WorkflowManager.buslog_path Sample.root) = true)
    as H2 by (vm_compute; reflexivity).
  assert (FS.is_dir Sample.with_workflow (WorkflowManager.workflows_path Sample.root) = true)
    as H3 by (vm_compute; reflexivity).
  assert (Sample.with_workflow
          !! (WorkflowManager.workflows_path Sample.root
              ++ [WorkflowManager.safe_name_of "Order Refund" +:+ ".md"]) = None) as H4
    by (vm_compute; reflexivity).
  assert (FS.read_json Sample.with_workflow (WorkflowManager.config_path Sample.root)
          = Ok (JObj (Dict.set "workflows" (JArr [JStr "user-authentication"])
                        (match WorkflowManager.fresh_config "shop" Sample.now
                                 ["JavaScript"; "Python"] with
                         | JObj members => members
                         | _ => []
                         end)))) as H5
    by (vm_compute; reflexivity).
  assert (Dict.get "workflows"
            (Dict.set "workflows" (JArr [JStr "user-authentication"])
               (match WorkflowManager.fresh_config "shop" Sample.now
                        ["JavaScript"; "Python"] with
                | JObj members => members
                | _ => []
                end))
          = Some (JArr [JStr "user-authentication"])) as H6
    by (vm_compute; reflexivity).
  exact (proj1 (add_workflow_succeeds Sample.workflow_md Sample.root "Order Refund"
                  Sample.now Sample.with_workflow _ _ H1 H2 H3 H4 H5 H6)).
Defined.

(** X16: adding a workflow keeps the index sound.  When config.json lists
    distinct identifiers that all have their document, a successful
    [add_workflow] with a name free of path separators returns the new
    document's path, the identifier was not listed before, and afterwards
    the list is the old one with the identifier at its end, still without
    duplicates and with every document there. *)
Theorem add_workflow_keeps_index (workflow_template : string -> string -> string)
    (project_root : path) (name : string) (now : clock) (fs fs' : fsys)
    (names : list string) (created : path) :
  Store.indexed project_root names fs ->
  Store.flat (WorkflowManager.safe_name_of name) = true ->
  WorkflowManager.add_workflow workflow_template project_root name now fs
  = (Ok created, fs') ->
  created = WorkflowManager.workflows_path project_root
            ++ [WorkflowManager.safe_name_of name +:+ ".md"]
  /\ (WorkflowManager.safe_name_of name ∉ names)
  /\ Store.indexed project_root (names ++ [WorkflowManager.safe_name_of name]) fs'.
Proof.
  intros (Harr & Hnd & Hdocs) Hflat Hadd.
  destruct (add_workflow_flat_inv workflow_template project_root name now fs fs' created
              Hflat Hadd) as (-> & Hwf & Hdoc & Hcfg).
  split; [reflexivity|].
  assert (WorkflowManager.safe_name_of name ∉ names) as Hnew.
  { intros Hin. destruct (Hdocs _ Hin) as [n Hn]. congruence. }
  split; [exact Hnew|].
  destruct (config_array_inv project_root _ _ _ Harr) as (members & Hread & Hget).
  set (document := WorkflowManager.workflows_path project_root
                   ++ [WorkflowManager.safe_name_of name +:+ ".md"]) in *.
  assert (WorkflowManager.config_path project_root <> document) as Hcd
    by apply config_not_document, document_below.
  rewrite (add_to_config_array project_root _ _ members (List.map JStr names)) in Hcfg;
    [|rewrite read_json_insert_ne by (apply not_eq_sym; exact Hcd); exact Hread|exact Hget].
  destruct (existsb _ _) eqn:Hex; [apply existsb_is_str in Hex; contradiction|].
  apply write_text_inv in Hcfg as [(_ & -> & _)|(e & He & _)]; [|discriminate].
  split; [|split].
  - rewrite config_array_written, map_app. reflexivity.
  - apply NoDup_app. split; [exact Hnd|]. split; [|apply NoDup_singleton].
    intros x Hx Hx'. apply list_elem_of_singleton in Hx' as ->. contradiction.
  - intros n Hn.
    rewrite lookup_insert_ne by apply config_not_document, document_below.
    apply elem_of_app in Hn as [Hn|Hn].
    + destruct (decide (document
                        = WorkflowManager.workflows_path project_root ++ [n +:+ ".md"]))
        as [<-|Hne].
      * rewrite lookup_insert_eq. eauto.
      * rewrite lookup_insert_ne by exact Hne. now apply Hdocs.
    + apply list_elem_of_singleton in Hn as ->. fold document.
      rewrite lookup_insert_eq. eauto.
Qed.

Lemma add_workflow_keeps_index_witness :
  Store.indexed Sample.root [] Sample.initialized
  /\ Store.indexed Sample.root ["user-authentication"] Sample.with_workflow.
Proof.
  assert (Store.indexed Sample.root [] Sample.initialized) as H1.
  { split; [vm_compute; reflexivity|]. split; [constructor|].
    intros n Hn. inversion Hn. }
  assert (Store.flat (WorkflowManager.safe_name_of "User Authentication") = true) as H2
    by (vm_compute; reflexivity).
  assert (WorkflowManager.add_workflow Sample.workflow_md Sample.root "User Authentication"
            Sample.now Sample.initialized
          = (Ok (WorkflowManager.workflows_path Sample.root ++ ["user-authentication.md"]),
             Sample.with_workflow)) as H3
    by (apply outcome_pair; vm_compute; reflexivity).
  split; [exact H1|].
  exact (proj2 (proj2 (add_workflow_keeps_index Sample.workflow_md Sample.root
                         "User Authentication" Sample.now Sample.initialized
                         Sample.with_workflow [] _ H1 H2 H3))).
Defined.

(** ** Identifiers and titles *)














(** ** The web server's handlers *)

Section ServerFacts.
Variable project_root : path.

Lemma annotations_not_root : Server.annotations_dir project_root <> [].
Proof.
  unfold Server.annotations_dir. now destruct (WorkflowManager.buslog_path project_root).
Qed.

Lemma resolve_json (fs : fsys) (dir : path) (name : string) :
  Store.flat name = true ->
  FS.is_dir fs dir = true ->
  FS.resolve fs dir (name +:+ ".json") = inr (dir ++ [name +:+ ".json"]).
Proof.
  unfold Store.flat. rewrite negb_true_iff. intros Hflat Hdir.
  rewrite resolve_file.
  - apply is_dir_lookup in Hdir. now rewrite Hdir.
  - now rewrite contains_char_app, Hflat.
  - rewrite length_app_str. simpl. lia.
Qed.

End ServerFacts.

(** X19: annotations round-trip.  In a project whose store folder exists,
    saving annotations under a name free of path separators answers
    success, and reading them back under the same name gives what was
    posted (the empty list when the body has no annotations member); the
    handler does not ask whether such a workflow exists, and it touches
    only the annotations folder and the one annotation file. *)
Theorem annotations_round_trip (project_root : path) (workflow_name : string)
    (data : Dict.t json) (fs : fsys) :
  Store.flat workflow_name = true ->
  FS.is_dir fs (WorkflowManager.buslog_path project_root) = true ->
  FS.is_file fs (Server.annotations_dir project_root) = false ->
  FS.is_dir fs (Server.annotations_dir project_root ++ [workflow_name +:+ ".json"]) = false ->
  let annotations :=
    match Dict.get "annotations" data with Some v => v | None => JArr [] end in
  let saved := Server.save_annotations project_root workflow_name (Ok (JObj data)) fs in
  fst saved = JSONResponse (JObj [("success", JBool true)])
  /\ Server.get_annotations project_root workflow_name (snd saved)
     = Ok (JSONResponse (JObj [("annotations", annotations)]))
  /\ forall p, p <> Server.annotations_dir project_root ->
               p <> Server.annotations_dir project_root ++ [workflow_name +:+ ".json"] ->
               snd saved !! p = fs !! p.
Proof.
  intros Hflat Hbus Hnofile Hnodir annotations saved.
  set (dir := Server.annotations_dir project_root) in *.
  set (file := dir ++ [workflow_name +:+ ".json"]) in *.
  assert (file <> dir) as Hfd.
  { unfold file. intros H. apply (f_equal length) in H. rewrite length_app in H.
    simpl in H. lia. }
  assert (file <> []) as Hfn by (unfold file; now destruct dir).
  assert (exists fs1, FS.mkdir dir fs = (Ok tt, fs1)
                      /\ FS.is_dir fs1 dir = true
                      /\ FS.is_dir fs1 file = false
                      /\ forall p, p <> dir -> fs1 !! p = fs !! p) as (fs1 & Hmk & Hd1 & Hf1 & Hfr1).
  { unfold FS.mkdir, FS.is_file in *.
    destruct (FS.lookup_node fs dir) as [[|c]|] eqn:Hl; [|discriminate|].
    - exists fs. repeat split; [now apply is_dir_lookup|exact Hnodir].
    - unfold dir at 1, Server.annotations_dir. rewrite parent_snoc.
      apply is_dir_lookup in Hbus as ->.
      exists (<[dir := Dir]> fs). split; [reflexivity|]. split; [|split].
      + unfold FS.is_dir. rewrite lookup_node_ne_nil by apply annotations_not_root.
        now rewrite lookup_insert_eq.
      + rewrite is_dir_insert_ne by now apply not_eq_sym. exact Hnodir.
      + intros p Hp. now rewrite lookup_insert_ne by now apply not_eq_sym. }
  assert (saved = (JSONResponse (JObj [("success", JBool true)]),
                   <[file := File (JsonDoc annotations)]> fs1)) as Hsaved.
  { unfold saved, Server.save_annotations. fold dir. rewrite Hmk.
    rewrite (resolve_json fs1 dir workflow_name Hflat Hd1). fold file.
    rewrite write_text_ok; [reflexivity|exact Hf1|].
    unfold file. now rewrite parent_snoc. }
  rewrite Hsaved. cbn [fst snd]. split; [reflexivity|]. split.
  - unfold Server.get_annotations, Server.exists_under, Server.read_json_under. fold dir.
    rewrite (resolve_json _ dir workflow_name Hflat) by now apply is_dir_insert_file.
    fold file. rewrite (exists_at_insert _ _ _ Hfn). cbn [negb].
    unfold FS.read_json. rewrite lookup_node_ne_nil by exact Hfn.
    now rewrite lookup_insert_eq.
  - intros p Hpd Hpf. rewrite lookup_insert_ne by now apply not_eq_sym.
    now apply Hfr1.
Qed.

Lemma annotations_round_trip_witness :
  let saved :=
    Server.save_annotations Sample.root "no-such-workflow"
      (Ok (JObj [("annotations", JArr [JStr "check the refund rule"])]))
      Sample.initialized in
  fst saved = JSONResponse (JObj [("success", JBool true)])
  /\ Server.get_annotations Sample.root "no-such-workflow" (snd saved)
     = Ok (JSONResponse (JObj [("annotations", JArr [JStr "check the refund rule"])])).
Proof.
  cbv zeta.
  assert (Store.flat "no-such-workflow" = true) as H1 by (vm_compute; reflexivity).
  assert (FS.is_dir Sample.initialized (WorkflowManager.buslog_path Sample.root) = true)
    as H2 by (vm_compute; reflexivity).
  assert (FS.is_file Sample.initialized (Server.annotations_dir Sample.root) = false)
    as H3 by (vm_compute; reflexivity).
  assert (FS.is_dir Sample.initialized
            (Server.annotations_dir Sample.root ++ ["no-such-workflow" +:+ ".json"]) = false)
    as H4 by (vm_compute; reflexivity).
  destruct (annotations_round_trip Sample.root "no-such-workflow"
              [("annotations", JArr [JStr "check the refund rule"])]
              Sample.initialized H1 H2 H3 H4) as (Ha & Hb & _).
  split; [exact Ha|exact Hb].
Defined.



(** ** The listing reads the folder, not the index *)

(** X21: [list_workflows] depends on nothing but the workflows folder and
    what lies in it: two file systems that agree there list the same
    workflows, whatever config.json, the index or the rest of the project
    hold. *)
Theorem list_workflows_reads_folder (project_root : path) (fs fs' : fsys) :
  (forall p, p = WorkflowManager.workflows_path project_root
             \/ FS.is_child (WorkflowManager.workflows_path project_root) p = true ->
             fs' !! p = fs !! p) ->
  WorkflowManager.list_workflows project_root fs'
  ≡ₚ WorkflowManager.list_workflows project_root fs.
Proof.
  intros Hsame.
  assert (WorkflowManager.workflows_path project_root <> []) as Hne
    by (unfold WorkflowManager.workflows_path; now destruct (WorkflowManager.buslog_path _)).
  assert (FS.lookup_node fs' (WorkflowManager.workflows_path project_root)
          = FS.lookup_node fs (WorkflowManager.workflows_path project_root)) as Hnode.
  { rewrite !lookup_node_ne_nil by exact Hne. apply Hsame. now left. }
  rewrite !list_workflows_perm.
  apply Permutation_map.
  apply NoDup_Permutation; [apply NoDup_glob..|].
  intros p. rewrite !elem_of_glob. unfold FS.is_dir. rewrite Hnode.
  split; intros (Hd & Hs & Hc & He); repeat split; try assumption.
  - now rewrite <- (Hsame p (or_intror Hc)).
  - now rewrite (Hsame p (or_intror Hc)).
Qed.

Lemma list_workflows_reads_folder_witness :
  WorkflowManager.list_workflows Sample.root
    (<[WorkflowManager.config_path Sample.root := File (Text "{ damaged")]>
       Sample.with_workflow)
  ≡ₚ WorkflowManager.list_workflows Sample.root Sample.with_workflow.
Proof.
  apply list_workflows_reads_folder.
  intros p [->|Hp].
  - now rewrite lookup_insert_ne by apply config_ne_workflows.
  - rewrite lookup_insert_ne; [reflexivity|].
    apply config_not_document. apply is_child_iff in Hp as (c & ->).
    apply is_descendant_iff. eauto.
Defined.

(** ** Decorator routes *)

Lemma finditer_from_match (r : Re.regex) (s : string) (skip : nat) (m : string) :
  m ∈ Re.finditer_from r skip s ->
  exists a t, s = a +:+ t /\ Re.match_at r t = Some m.
Proof.
  revert skip. induction s as [|c s IH]; intros skip.
  - destruct skip as [|k]; cbn [Re.finditer_from]; [|intros H; inversion H].
    destruct (Re.match_at r "") as [m'|] eqn:Hm; [|intros H; inversion H].
    intros H. apply list_elem_of_singleton in H as ->. exists "", "". auto.
  - assert (forall k, m ∈ Re.finditer_from r k s ->
              exists a t, String c s = a +:+ t /\ Re.match_at r t = Some m) as Hrest.
    { intros k H. destruct (IH _ H) as (a & t & -> & Hm).
      exists (String c a), t. now rewrite app_cons_str. }
    destruct skip as [|k]; cbn [Re.finditer_from]; [|apply Hrest].
    destruct (Re.match_at r (String c s)) as [m'|] eqn:Hm; [|apply Hrest].
    intros H. apply elem_of_cons in H as [->|H]; [|eapply Hrest; exact H].
    exists "", (String c s). auto.
Qed.

Lemma finditer_nonempty (r : Re.regex) (a t : string) :
  Re.match_at r t <> None -> Re.finditer r (a +:+ t) <> [].
Proof.
  unfold Re.finditer. intros Hm. induction a as [|c a IH].
  - rewrite app_nil_str. destruct t as [|c t]; cbn [Re.finditer_from].
    + destruct (Re.match_at r ""); [discriminate|contradiction].
    + destruct (Re.match_at r (String c t)); [discriminate|contradiction].
  - rewrite app_cons_str. cbn [Re.finditer_from].
    destruct (Re.match_at r (String c (a +:+ t))); [discriminate|exact IH].
Qed.

(** A match of a pattern that begins with literal text begins with it. *)
Lemma match_at_literal_head (ch : ascii) (lit : string) (rest : Re.regex) (t m : string) :
  Re.match_at (Re.Seq (Re.Lit (String ch lit)) rest) t = Some m ->
  exists t' m', t = String ch t' /\ m = String ch m'.
Proof.
  intros Hm.
  destruct (match_at_prefix _ _ _ Hm) as (tail & -> & Hne).
  specialize (Hne eq_refl).
  unfold Re.match_at in Hm. cbn [Re.ends] in Hm.
  destruct (Re.strip (String ch lit) (m +:+ tail)) as [left|] eqn:Hs;
    [|discriminate].
  apply strip_app in Hs. rewrite app_cons_str in Hs.
  destruct m as [|c m]; [contradiction|].
  rewrite app_cons_str in Hs. injection Hs as -> _.
  exists (m +:+ tail), m. now rewrite app_cons_str.
Qed.

Lemma entry_point_complete (project_root : path) (fs : fsys) (entry_type : string)
    (pattern_list : list Re.regex) (pattern : Re.regex) (file : path) (c : content)
    (text m : string) :
  (entry_type, pattern_list) ∈ CodeAnalyzer.patterns ->
  pattern ∈ pattern_list ->
  fs !! file = Some (File c) ->
  FS.is_descendant project_root file = true ->
  CodeAnalyzer._is_excluded file = false ->
  FS.decode c = Ok text ->
  m ∈ Re.finditer pattern text ->
  {| ep_type := entry_type;
     ep_file := CodeAnalyzer.relative_str project_root file;
     ep_match := m |} ∈ CodeAnalyzer._find_entry_points project_root fs.
Proof.
  intros Hrow Hp Hl Hd Hx Hdec Hm.
  destruct (proj2 (scanned_readable project_root fs file text)) as (Hin & Hs & Hr);
    [eauto 6|].
  rewrite entry_points_as_flat_map.
  apply list_elem_of_In, in_flat_map. exists (entry_type, pattern_list).
  split; [now apply list_elem_of_In|]. cbn [fst snd].
  apply in_flat_map. exists pattern. split; [now apply list_elem_of_In|].
  apply in_map_iff. exists (file, m). split; [reflexivity|].
  rewrite search_as_flat_map. apply in_flat_map. exists file.
  split; [now apply list_elem_of_In|].
  rewrite Hs, Hr. apply in_map. now apply list_elem_of_In.
Qed.

(** X22: decorator routes are reported twice.  Whenever the pattern for
    [@app.] routes matches in a scanned file, the pattern for bare [app.]
    routes matches in it as well, so besides the record of the decorator
    match the file has a second API Endpoint record with a different
    match. *)
Theorem decorator_routes_reported_twice (project_root : path) (fs : fsys) (file : path)
    (c : content) (text m : string) :
  fs !! file = Some (File c) ->
  FS.is_descendant project_root file = true ->
  CodeAnalyzer._is_excluded file = false ->
  FS.decode c = Ok text ->
  m ∈ Re.finditer (CodeAnalyzer.route "@app.") text ->
  {| ep_type := "API Endpoint";
     ep_file := CodeAnalyzer.relative_str project_root file;
     ep_match := m |} ∈ CodeAnalyzer._find_entry_points project_root fs
  /\ exists m',
      m' ∈ Re.finditer (CodeAnalyzer.route "app.") text
      /\ m' <> m
      /\ {| ep_type := "API Endpoint";
            ep_file := CodeAnalyzer.relative_str project_root file;
            ep_match := m' |} ∈ CodeAnalyzer._find_entry_points project_root fs.
Proof.
  intros Hl Hd Hx Hdec Hm.
  assert (("API Endpoint",
           [CodeAnalyzer.route "@app."; CodeAnalyzer.route "@router.";
            CodeAnalyzer.route "app."]) ∈ CodeAnalyzer.patterns) as Hrow by left.
  split.
  - eapply entry_point_complete; eauto. left.
  - destruct (finditer_from_match _ _ _ _ Hm) as (a & t & -> & Hat).
    destruct (match_at_literal_head _ _ _ _ _ Hat) as (t' & m0 & -> & ->).
    assert (Re.match_at (CodeAnalyzer.route "app.") t' <> None) as Hbare.
    { unfold Re.match_at in Hat |- *.
      change (Re.ends (CodeAnalyzer.route "@app.") (String "@" t'))
        with (Re.ends (CodeAnalyzer.route "app.") t') in Hat.
      now destruct (Re.ends (CodeAnalyzer.route "app.") t'). }
    assert (Re.finditer (CodeAnalyzer.route "app.") (a +:+ String "@" t') <> []) as Hne.
    { replace (a +:+ String "@" t') with ((a +:+ "@") +:+ t')
        by (now rewrite app_assoc_str).
      now apply finditer_nonempty. }
    destruct (Re.finditer (CodeAnalyzer.route "app.") (a +:+ String "@" t'))
      as [|m' l] eqn:Hf; [contradiction|].
    assert (m' ∈ Re.finditer (CodeAnalyzer.route "app.") (a +:+ String "@" t')) as Hm'
      by (rewrite Hf; left).
    exists m'. split; [rewrite <- Hf; exact Hm'|]. split.
    + destruct (finditer_from_match _ _ _ _ Hm') as (a' & t'' & _ & Hat').
      destruct (match_at_literal_head _ _ _ _ _ Hat') as (? & m1 & _ & ->).
      discriminate.
    + eapply entry_point_complete; eauto. right. right. left.
Qed.

Lemma decorator_routes_reported_twice_witness :
  {| ep_type := "API Endpoint"; ep_file := "api.py"; ep_match := "@app.get('/orders" |}
  ∈ CodeAnalyzer._find_entry_points Sample.root Sample.decorated
  /\ exists m',
      m' ∈ Re.finditer (CodeAnalyzer.route "app.") "@app.get('/orders')"
      /\ m' <> "@app.get('/orders"
      /\ {| ep_type := "API Endpoint"; ep_file := "api.py"; ep_match := m' |}
         ∈ CodeAnalyzer._find_entry_points Sample.root Sample.decorated.
Proof.
  assert (Sample.decorated !! (Sample.root ++ ["api.py"])
          = Some (File (Text "@app.get('/orders')"))) as H1 by (vm_compute; reflexivity).
  assert (FS.is_descendant Sample.root (Sample.root ++ ["api.py"]) = true) as H2
    by (vm_compute; reflexivity).
  assert (CodeAnalyzer._is_excluded (Sample.root ++ ["api.py"]) = false) as H3
    by (vm_compute; reflexivity).
  assert (FS.decode (Text "@app.get('/orders')") = Ok "@app.get('/orders')") as H4
    by reflexivity.
  assert ("@app.get('/orders"
          ∈ Re.finditer (CodeAnalyzer.route "@app.") "@app.get('/orders')") as H5
    by (vm_compute; left).
  exact (decorator_routes_reported_twice Sample.root Sample.decorated
           (Sample.root ++ ["api.py"]) _ _ _ H1 H2 H3 H4 H5).
Defined.

(** ** The command line *)

Lemma add_workflow_kept (workflow_template : string -> string -> string)
    (project_root : path) (name : string) (now : clock) (fs fs' : fsys) (created : path) :
  WorkflowManager.add_workflow workflow_template project_root name now fs
  = (Ok created, fs') ->
  exists workflow_path,
    FS.resolve fs' (WorkflowManager.workflows_path project_root)
      (WorkflowManager.safe_name_of name +:+ ".md") = inr workflow_path
    /\ FS.exists_at fs' workflow_path = true
    /\ forall q, FS.exists_at fs q = true -> FS.exists_at fs' q = true.
Proof.
  intros Hadd.
  apply add_workflow_inv in Hadd as (wp & c & Hres & Hex & Hparent & Hcfg).
  assert (wp <> []) as Hwp by (now intros ->).
  assert (FS.is_dir fs wp = false) as Hnd.
  { unfold FS.is_dir, FS.exists_at in *. now destruct (FS.lookup_node fs wp). }
  exists wp.
  apply add_to_config_inv in Hcfg as [->|(j & _ & -> & Hcd)].
  - split; [|split].
    + eapply resolve_dirs_kept; [|exact Hres]. now apply dirs_kept_write.
    + now apply exists_at_insert.
    + intros q Hq. now apply exists_at_insert_mono.
  - split; [|split].
    + eapply resolve_dirs_kept; [|exact Hres].
      apply (dirs_kept_trans _ (<[wp := File c]> fs));
        [apply dirs_kept_write; exact Hnd|apply dirs_kept_write; exact Hcd].
    + now apply exists_at_insert_mono, exists_at_insert.
    + intros q Hq. now apply exists_at_insert_mono, exists_at_insert_mono.
Qed.

Lemma finished_pair (r : finished * fsys) (f : finished) : fst r = f -> r = (f, snd r).
Proof. destruct r. now intros <-. Qed.

(** X23: [buslog init] can be repeated.  After a run that exited with code
    0, any further run without --force exits with code 0, only warns that
    the store is already initialized and leaves the file system as it is;
    the manager's own already-initialized error is never reached. *)
Theorem cli_init_again (index_template : string -> string -> string) (cwd : path)
    (project_name : option string) (force : bool) (now : clock) (fs fs' : fsys)
    (console : list line) :
  Cli.init index_template cwd project_name force now fs
  = (mk_finished 0 console, fs') ->
  forall (project_name' : option string) (now' : clock),
    Cli.init index_template cwd project_name' false now' fs'
    = (mk_finished 0 [Initializing; AlreadyInitializedWarning; UseForceHint], fs').
Proof.
  intros Hfirst project_name' now'.
  assert (WorkflowManager.is_initialized cwd fs' = true) as Hinit.
  { revert Hfirst. unfold Cli.init.
    destruct (WorkflowManager.is_initialized cwd fs && negb force) eqn:Hguard.
    - intros [= _ <-]. now apply andb_true_iff in Hguard as [? _].
    - destruct (WorkflowManager.initialize _ _ _ _ _ _) as [[[]|e] fs1] eqn:Hi;
        [|discriminate].
      intros [= _ <-]. exact (proj2 (initialize_layout cwd _ _ _ _ _ _ Hi)). }
  unfold Cli.init. now rewrite Hinit.
Qed.

Lemma cli_init_again_witness :
  Cli.init Sample.index_md Sample.root (Some "Shop") false Sample.now
    (snd (Cli.init Sample.index_md Sample.root None false Sample.now Sample.project))
  = (mk_finished 0 [Initializing; AlreadyInitializedWarning; UseForceHint],
     snd (Cli.init Sample.index_md Sample.root None false Sample.now Sample.project)).
Proof.
  assert (Cli.init Sample.index_md Sample.root None false Sample.now Sample.project
          = (mk_finished 0 [Initializing; InitializedOk; NextSteps],
             snd (Cli.init Sample.index_md Sample.root None false Sample.now
                    Sample.project))) as H
    by (apply finished_pair; vm_compute; reflexivity).
  exact (cli_init_again Sample.index_md Sample.root None false Sample.now Sample.project
           _ _ H (Some "Shop") Sample.now).
Defined.

(** X24: a duplicate [buslog add] is a warning, not an error.  After a run
    that created a document, a run with any name of the same identifier
    exits with code 0, prints only the already-exists warning and leaves
    the file system as it is. *)
Theorem cli_add_again (workflow_template : string -> string -> string) (cwd : path)
    (name : string) (now : clock) (fs fs' : fsys) (created : path) :
  Cli.add workflow_template cwd name now fs
  = (mk_finished 0 [WorkflowCreated created; EditHint], fs') ->
  forall (name' : string) (now' : clock),
    WorkflowManager.safe_name_of name' = WorkflowManager.safe_name_of name ->
    Cli.add workflow_template cwd name' now' fs'
    = (mk_finished 0 [WorkflowExistsWarning name'], fs').
Proof.
  unfold Cli.add at 1.
  destruct (WorkflowManager.is_initialized cwd fs) eqn:Hinit; [|discriminate].
  cbn [negb].
  destruct (WorkflowManager.add_workflow workflow_template cwd name now fs)
    as [[p|e] fs1] eqn:Hadd.
  - intros [= <- <-] name' now' Hsame.
    destruct (add_workflow_kept _ _ _ _ _ _ _ Hadd) as (wp & Hres & Hex & Hmono).
    assert (WorkflowManager.is_initialized cwd fs1 = true) as Hinit'.
    { unfold WorkflowManager.is_initialized in *.
      apply andb_true_iff in Hinit as [Hinit H3]. apply andb_true_iff in Hinit as [H1 H2].
      now rewrite (Hmono _ H1), (Hmono _ H2), (Hmono _ H3). }
    unfold Cli.add. rewrite Hinit'. cbn [negb].
    unfold WorkflowManager.add_workflow. now rewrite Hsame, Hres, Hex.
  - destruct e; discriminate.
Qed.

Lemma cli_add_again_witness :
  Cli.add Sample.workflow_md Sample.root "user-authentication" Sample.now
    Sample.with_workflow
  = (mk_finished 0 [WorkflowExistsWarning "user-authentication"], Sample.with_workflow).
Proof.
  assert (Cli.add Sample.workflow_md Sample.root "User Authentication" Sample.now
            Sample.initialized
          = (mk_finished 0
               [WorkflowCreated
                  (WorkflowManager.workflows_path Sample.root ++ ["user-authentication.md"]);
                EditHint],
             Sample.with_workflow)) as H
    by (apply (finished_pair
                 (Cli.add Sample.workflow_md Sample.root "User Authentication" Sample.now
                    Sample.initialized));
        vm_compute; reflexivity).
  exact (cli_add_again Sample.workflow_md Sample.root "User Authentication" Sample.now
           Sample.initialized Sample.with_workflow _ H "user-authentication" Sample.now
           eq_refl).
Defined.
